(** * SmartOrchestrator: registry, capability index, scoring, routing pipeline
      and protocol forwarder of [orchestrator/app/orchestrator.py].

    Modelling conventions.
    - A Python [str] is a [string] of 8-bit characters; [str.lower] changes the
      letters A-Z only, and [str.split] cuts at the ASCII white space
      characters, which is what Python does on ASCII text.
    - A Python [dict] keeps insertion order, and the code depends on it (first
      match in [unregister_agent], first best score in [_analyze_request]):
      a dict is an association list with unique keys, see [Dict].
    - The scores are Python floats.  The score of an agent is a sum of 1.0
      and 1.5, which binary floating point holds exactly; scores and
      confidences are modelled as rationals ([Q]), and the default score 0.3
      and the quotients by 5.0 are the rationals that the decimals denote.
    - A raised exception is a value of [exn]; code that may raise returns an
      [outcome].
    - The strings that the code formats with values (the response text, the
      error messages) are kept as the list of their pieces, see [Text]: the
      literal parts are strings, and what [repr], [:.2f] or a built-in
      exception prints is kept as the value that is printed.
    - The remote agents are a [Network] that answers each post; what the
      forwarder does is recorded as a list of [event]s. *)

From Stdlib Require Import String Ascii List Bool Arith ZArith QArith Lia.
From Stdlib Require Import DecimalString Permutation Lqa.
Import ListNotations.

Local Open Scope string_scope.
Local Open Scope list_scope.

Set Implicit Arguments.

(* ------------------------------------------------------------------ *)
(** ** Python strings *)

Module PyStr.

(** [c.lower()] for one character. *)
Definition lower_char (c : ascii) : ascii :=
  let n := nat_of_ascii c in
  if (65 <=? n)%nat && (n <=? 90)%nat then ascii_of_nat (n + 32) else c.

(** [s.lower()] *)
Fixpoint lower (s : string) : string :=
  match s with
  | EmptyString => EmptyString
  | String c s' => String (lower_char c) (lower s')
  end.

(** [needle in hay] *)
Fixpoint contains (needle hay : string) : bool :=
  if String.prefix needle hay then true
  else match hay with
       | EmptyString => false
       | String _ hay' => contains needle hay'
       end.

(** [s.replace(a, b)] for one-character [a] and [b]. *)
Fixpoint replace_char (a b : ascii) (s : string) : string :=
  match s with
  | EmptyString => EmptyString
  | String c s' => String (if Ascii.eqb c a then b else c) (replace_char a b s')
  end.

(** [c.isspace()] on ASCII: tab, line feed, vertical tab, form feed,
    carriage return, the four separators 28-31, and space. *)
Definition is_space (c : ascii) : bool :=
  let n := nat_of_ascii c in
  ((9 <=? n)%nat && (n <=? 13)%nat) || ((28 <=? n)%nat && (n <=? 32)%nat).

(** [s.split()]: the maximal runs of characters that are not white space.
    [cur] is the run being read, in reverse. *)
Fixpoint split_aux (cur : list ascii) (s : string) : list string :=
  let flush := match cur with
               | [] => []
               | _ => [string_of_list_ascii (rev cur)]
               end in
  match s with
  | EmptyString => flush
  | String c s' =>
      if is_space c then flush ++ split_aux [] s'
      else split_aux (c :: cur) s'
  end.

Definition split (s : string) : list string := split_aux [] s.

(** [sep.join(parts)] *)
Fixpoint join (sep : string) (parts : list string) : string :=
  match parts with
  | [] => ""
  | [p] => p
  | p :: rest => p ++ sep ++ join sep rest
  end.

(** [x in l] for a list of strings. *)
Definition mem (x : string) (l : list string) : bool :=
  existsb (String.eqb x) l.

End PyStr.

(* ------------------------------------------------------------------ *)
(** ** Python dicts with string keys, in insertion order *)

Module Dict.

Definition t (V : Type) : Type := list (string * V).

Definition empty {V} : t V := [].

(** [d.get(k)] *)
Fixpoint get {V} (k : string) (d : t V) : option V :=
  match d with
  | [] => None
  | (k', v) :: d' => if String.eqb k' k then Some v else get k d'
  end.

(** [k in d] *)
Definition mem {V} (k : string) (d : t V) : bool :=
  match get k d with Some _ => true | None => false end.

(** [d.get(k, default)] *)
Definition get_or {V} (k : string) (default : V) (d : t V) : V :=
  match get k d with Some v => v | None => default end.

(** [d[k] = v]: an existing key keeps its place, a new key goes last. *)
Fixpoint set {V} (k : string) (v : V) (d : t V) : t V :=
  match d with
  | [] => [(k, v)]
  | (k', v') :: d' =>
      if String.eqb k' k then (k, v) :: d' else (k', v') :: set k v d'
  end.

(** [del d[k]] for a key that is present. *)
Fixpoint del {V} (k : string) (d : t V) : t V :=
  match d with
  | [] => []
  | (k', v') :: d' => if String.eqb k' k then d' else (k', v') :: del k d'
  end.

(** [list(d.keys())] *)
Definition keys {V} (d : t V) : list string := map fst d.

End Dict.

(* ------------------------------------------------------------------ *)
(** ** Agent descriptors (the fields of the A2A SDK types the code reads) *)

(** [AgentSkill].  [tags] and [description] may be [None] in the code, which
    treats [None] as the empty list and the empty string ([skill.tags or []],
    [if skill.tags], [if skill.description]); [None] is modelled as that. *)
Record AgentSkill : Type := mkSkill {
  skill_name : string;
  skill_description : string;
  skill_tags : list string
}.

Record AgentCapabilities : Type := mkCaps {
  streaming : bool;
  pushNotifications : bool;
  stateTransitionHistory : bool
}.

Record AgentCard : Type := mkCard {
  card_name : string;
  card_description : string;
  card_url : string;
  card_skills : list AgentSkill;
  card_capabilities : AgentCapabilities
}.

(** [self.agents] and [self.skill_keywords] *)
Definition Registry : Type := Dict.t AgentCard.
Definition SkillKeywords : Type := Dict.t (list string).

Record Orchestrator : Type := mkOrch {
  agents : Registry;
  skill_keywords : SkillKeywords
}.

(* ------------------------------------------------------------------ *)
(** ** The capability index: [_update_skill_keywords] *)

(** [[kw.lower() for kw in kws]] *)
Definition lowered (kws : list string) : list string := map PyStr.lower kws.

(** One round of the loop over [skill.tags]. *)
Definition add_tag (kws : list string) (tag : string) : list string :=
  if PyStr.mem (PyStr.lower tag) (lowered kws) then kws
  else kws ++ [PyStr.lower tag].

(** The skill name as a keyword. *)
Definition add_skill_name (name : string) (kws : list string) : list string :=
  let skill_name_lower := PyStr.replace_char "_" " " (PyStr.lower name) in
  if PyStr.mem skill_name_lower (lowered kws) then kws
  else kws ++ [skill_name_lower].

(** One round of the loop over the first three words of the description. *)
Definition add_desc_word (kws : list string) (word : string) : list string :=
  if (2 <? String.length word)%nat && negb (PyStr.mem word (lowered kws))
  then kws ++ [word] else kws.

Definition desc_words (description : string) : list string :=
  firstn 3 (PyStr.split (PyStr.lower description)).

(** The keywords of one skill, added to the list the index already holds. *)
Definition skill_keyword_list (skill : AgentSkill) (kws : list string)
  : list string :=
  let kws := fold_left add_tag (skill_tags skill) kws in
  let kws := add_skill_name (skill_name skill) kws in
  fold_left add_desc_word (desc_words (skill_description skill)) kws.

(** The body of the loop over the skills of one agent. *)
Definition index_skill (kw : SkillKeywords) (skill : AgentSkill)
  : SkillKeywords :=
  let name := skill_name skill in
  let kw := if Dict.mem name kw then kw else Dict.set name [] kw in
  Dict.set name (skill_keyword_list skill (Dict.get_or name [] kw)) kw.

Definition index_agent (kw : SkillKeywords) (entry : string * AgentCard)
  : SkillKeywords :=
  fold_left index_skill (card_skills (snd entry)) kw.

(** [_update_skill_keywords]: the index is rebuilt from the empty dict. *)
Definition rebuild_index (reg : Registry) : SkillKeywords :=
  fold_left index_agent reg Dict.empty.

Definition _update_skill_keywords (o : Orchestrator) : Orchestrator :=
  mkOrch (agents o) (rebuild_index (agents o)).

(* ------------------------------------------------------------------ *)
(** ** JSON values, exceptions and formatted text *)

(** What [response.json()] returns.  An object is a dict, so the first binding
    of a key is the one that is read. *)
#[warnings="-register-all"]
Inductive json : Type :=
| JNull
| JBool (b : bool)
| JNum (q : Q)
| JStr (s : string)
| JArr (items : list json)
| JObj (fields : list (string * json)).

(** The exceptions that are not raised by a [raise Exception(...)] of the
    code itself. *)
Inductive builtin_exn : Type :=
| KeyError (key : string)                       (* [d[key]] on a missing key *)
| TypeError (v : json)                          (* [v] is not iterable / cannot be indexed *)
| AttributeError (v : json)                     (* [v.get] on something that is not a dict *)
| HTTPStatusError (code : Z) (text : string)    (* [raise_for_status()] *)
| LibraryError (msg : string).                  (* any other failure of the post or of the JSON decoding; [str(e) = msg] *)

(** The result of an f-string.  What the code writes is literal; what a
    built-in of Python prints for a value is kept as the value it prints:
    [repr(v)], [f"{q:.2f}"], the message of a built-in exception. *)
Inductive piece : Type :=
| Lit (s : string)
| Repr (v : json)
| Fmt2f (q : Q)
| MsgOf (e : builtin_exn).

Definition Text : Type := list piece.

(** The string that a text stands for, given what the built-ins print. *)
Record Builtins : Type := mkBuiltins {
  print_repr : json -> string;
  print_2f : Q -> string;
  print_msg : builtin_exn -> string
}.

Definition render_piece (b : Builtins) (p : piece) : string :=
  match p with
  | Lit s => s
  | Repr v => print_repr b v
  | Fmt2f q => print_2f b q
  | MsgOf e => print_msg b e
  end.

Definition render (b : Builtins) (t : Text) : string :=
  String.concat "" (map (render_piece b) t).

Inductive exn : Type :=
| Exception (msg : Text)
| Builtin (e : builtin_exn).

(** [str(e)] *)
Definition str_exn (e : exn) : Text :=
  match e with
  | Exception msg => msg
  | Builtin (KeyError key) => [Repr (JStr key)]
  | Builtin (LibraryError msg) => [Lit msg]
  | Builtin b => [MsgOf b]
  end.

(** [str(v)], as an f-string prints a value. *)
Definition str_json (v : json) : Text :=
  match v with
  | JStr s => [Lit s]
  | _ => [Repr v]
  end.

(** [str(n)] for an integer. *)
Definition str_int (n : Z) : string := NilZero.string_of_int (Z.to_int n).

Inductive outcome (A : Type) : Type :=
| Ok (a : A)
| Raise (e : exn).

Arguments Ok {A} a.
Arguments Raise {A} e.

Definition bind {A B} (r : outcome A) (k : A -> outcome B) : outcome B :=
  match r with
  | Ok a => k a
  | Raise e => Raise e
  end.

Declare Scope py_scope.
Delimit Scope py_scope with py.
Notation "x <- r ;; k" := (bind r (fun x => k))
  (at level 61, r at next level, right associativity) : py_scope.
Local Open Scope py_scope.

Module Py.

(** [bool(v)] *)
Definition truthy (v : json) : bool :=
  match v with
  | JNull => false
  | JBool b => b
  | JNum q => negb (Qeq_bool q 0)
  | JStr s => negb (String.eqb s "")
  | JArr items => match items with [] => false | _ => true end
  | JObj fields => match fields with [] => false | _ => true end
  end.

(** [v == s] for a string [s] *)
Definition eq_str (v : json) (s : string) : bool :=
  match v with
  | JStr s' => String.eqb s' s
  | _ => false
  end.

(** [isinstance(v, dict)] *)
Definition is_dict (v : json) : bool :=
  match v with JObj _ => true | _ => false end.

(** [k in v] *)
Definition contains (k : string) (v : json) : outcome bool :=
  match v with
  | JObj fields => Ok (Dict.mem k fields)
  | JArr items => Ok (existsb (fun x => eq_str x k) items)
  | JStr s => Ok (PyStr.contains k s)
  | _ => Raise (Builtin (TypeError v))
  end.

(** [v[k]] for a string [k] *)
Definition getitem (v : json) (k : string) : outcome json :=
  match v with
  | JObj fields =>
      match Dict.get k fields with
      | Some x => Ok x
      | None => Raise (Builtin (KeyError k))
      end
  | _ => Raise (Builtin (TypeError v))
  end.

(** [v.get(k, default)] *)
Definition get (v : json) (k : string) (default : json) : outcome json :=
  match v with
  | JObj fields => Ok (Dict.get_or k default fields)
  | _ => Raise (Builtin (AttributeError v))
  end.

Fixpoint chars (s : string) : list json :=
  match s with
  | EmptyString => []
  | String c s' => JStr (String c EmptyString) :: chars s'
  end.

(** [for x in v]: the items that the loop visits. *)
Definition iter (v : json) : outcome (list json) :=
  match v with
  | JArr items => Ok items
  | JObj fields => Ok (map (fun kv => JStr (fst kv)) fields)
  | JStr s => Ok (chars s)
  | _ => Raise (Builtin (TypeError v))
  end.

End Py.

(* ------------------------------------------------------------------ *)
(** ** Registry operations *)

(** The dict that [register_agent] and [unregister_agent] return. *)
Inductive Reply : Type :=
| Registered (agent_id agent_name endpoint message : string)
| Unregistered (agent_id agent_name endpoint message : string)
| Failed (error : Text).

Definition reply_success (r : Reply) : bool :=
  match r with Failed _ => false | _ => true end.

(** [add_agent] *)
Definition add_agent (o : Orchestrator) (agent_id : string) (agent_card : AgentCard)
  : Orchestrator :=
  _update_skill_keywords
    (mkOrch (Dict.set agent_id agent_card (agents o)) (skill_keywords o)).

(** [register_agent].  [fetched] is what [_fetch_agent_card_with_a2a] returns
    for the endpoint: the card, or [None] when the fetch fails. *)
Definition register_agent (o : Orchestrator) (endpoint : string)
  (fetched : option AgentCard) : Orchestrator * Reply :=
  match fetched with
  | Some agent_card =>
      let agent_id := card_name agent_card in
      (_update_skill_keywords
         (mkOrch (Dict.set agent_id agent_card (agents o)) (skill_keywords o)),
       Registered agent_id (card_name agent_card) endpoint
         ("Successfully registered " ++ card_name agent_card ++ " from " ++ endpoint))
  | None =>
      (o, Failed [Lit ("Failed to fetch agent card from " ++ endpoint)])
  end.

(** The [if]/[elif] chain that [unregister_agent] runs on one entry. *)
Definition entry_matches (agent_identifier : string) (entry : string * AgentCard)
  : bool :=
  let (agent_id, agent_card) := entry in
  if String.eqb agent_id agent_identifier then true
  else if String.eqb (card_url agent_card) agent_identifier then true
  else if String.eqb (PyStr.lower (card_name agent_card))
                     (PyStr.lower agent_identifier) then true
  else if PyStr.contains agent_identifier (card_url agent_card) then true
  else false.

(** The [else] branch of [unregister_agent]: nothing is removed. *)
Definition not_found (o : Orchestrator) (agent_identifier : string) : Reply :=
  Failed [Lit ("Agent not found: " ++ agent_identifier ++ ". Available agents: ");
          Repr (JArr (map JStr (Dict.keys (agents o))))].

(** [unregister_agent]: the loop stops at the first entry that matches; the
    test [agent_to_remove and agent_id_to_remove] then asks for a key that is
    not the empty string (a card is always true). *)
Definition unregister_agent (o : Orchestrator) (agent_identifier : string)
  : Orchestrator * Reply :=
  match find (entry_matches agent_identifier) (agents o) with
  | Some (agent_id_to_remove, agent_to_remove) =>
      if negb (String.eqb agent_id_to_remove "") then
        (_update_skill_keywords
           (mkOrch (Dict.del agent_id_to_remove (agents o)) (skill_keywords o)),
         Unregistered agent_id_to_remove (card_name agent_to_remove)
           (card_url agent_to_remove)
           ("Successfully unregistered " ++ card_name agent_to_remove
              ++ " (ID: " ++ agent_id_to_remove ++ ")"))
      else
        (o, not_found o agent_identifier)
  | None =>
      (o, not_found o agent_identifier)
  end.

(** [__init__]: both dicts start empty, the cards that could be fetched from
    the bootstrap endpoints are stored under their names, and the index is
    built once at the end.  [fetched] lists what each endpoint returned. *)
Definition load_card (reg : Registry) (fetched : option AgentCard) : Registry :=
  match fetched with
  | Some agent_card => Dict.set (card_name agent_card) agent_card reg
  | None => reg
  end.

Definition init (fetched : list (option AgentCard)) : Orchestrator :=
  _update_skill_keywords (mkOrch (fold_left load_card fetched Dict.empty) Dict.empty).

(* ------------------------------------------------------------------ *)
(** ** Scoring *)

(** [score > best_score] *)
Definition Qgtb (x y : Q) : bool := negb (Qle_bool x y).

(** [min(x, y)]: Python returns [y] only when [y < x]. *)
Definition py_min (x y : Q) : Q := if Qgtb x y then y else x.

(** [_skill_matches_request] *)
Definition _skill_matches_request (o : Orchestrator) (name request : string)
  : bool :=
  let keywords := Dict.get_or name [] (skill_keywords o) in
  let request_lower := PyStr.lower request in
  existsb (fun keyword => PyStr.contains keyword request_lower) keywords.

(** [[tag for skill in agent_card.skills for tag in (skill.tags or [])]] *)
Definition card_keywords (agent_card : AgentCard) : list string :=
  flat_map skill_tags (card_skills agent_card).

(** [_calculate_agent_score]: the keyword pass, then the skill pass. *)
Definition keyword_pass (request_lower : string) (score : Q) (keyword : string) : Q :=
  if PyStr.contains (PyStr.lower keyword) request_lower then score + 1.0 else score.

Definition skill_pass (o : Orchestrator) (request : string)
  (acc : Q * list string) (skill : AgentSkill) : Q * list string :=
  let (score, matched_skills) := acc in
  if _skill_matches_request o (skill_name skill) request
  then (score + 1.5, matched_skills ++ [skill_name skill])
  else (score, matched_skills).

Definition _calculate_agent_score (o : Orchestrator) (request : string)
  (agent_card : AgentCard) : Q * list string :=
  let request_lower := PyStr.lower request in
  let score := fold_left (keyword_pass request_lower) (card_keywords agent_card) 0.0 in
  fold_left (skill_pass o request) (card_skills agent_card) (score, []).

(* ------------------------------------------------------------------ *)
(** ** The routing state *)

(** [state["metadata"]]: a key that has not been written yet is [None]. *)
Record Metadata : Type := mkMeta {
  request_id : option string;
  start_timestamp : option string;
  agent_scores : option (Dict.t Q);
  skill_matches : option (Dict.t (list string));
  analysis_timestamp : option string;
  agent_endpoint : option string;
  status : option string;
  response_timestamp : option string
}.

Definition empty_metadata : Metadata :=
  mkMeta None None None None None None None None.

Record RouterState : Type := mkState {
  request : string;
  selected_agent : string;
  confidence : Q;
  reasoning : string;
  response : Text;
  error : string;
  metadata : Metadata
}.

(** What [uuid.uuid4()] and [datetime.now().isoformat()] return during one
    call of [process_request]. *)
Record Ambient : Type := mkAmbient {
  request_uuid : string;
  start_time : string;
  analysis_time : string;
  response_time : string;
  error_uuid : string;
  error_time : string
}.

(* ------------------------------------------------------------------ *)
(** ** The analyze stage *)

(** [_generate_reasoning] *)
Definition _generate_reasoning (o : Orchestrator) (request selected : string)
  (scores : Dict.t Q) (matches : Dict.t (list string)) : outcome string :=
  match Dict.get selected (agents o) with
  | None => Raise (Builtin (KeyError selected))
  | Some agent_card =>
      let request_lower := PyStr.lower request in
      let matched_keywords :=
        filter (fun keyword => PyStr.contains (PyStr.lower keyword) request_lower)
               (card_keywords agent_card) in
      let matched_skills := Dict.get_or selected [] matches in
      let reasoning_parts := [("Selected " ++ card_name agent_card)%string] in
      let reasoning_parts :=
        match matched_keywords with
        | [] => reasoning_parts
        | _ => reasoning_parts
                 ++ [("based on keywords: " ++ PyStr.join ", " matched_keywords)%string]
        end in
      let reasoning_parts :=
        match matched_skills with
        | [] => reasoning_parts
        | _ =>
            match matched_keywords with
            | [] => reasoning_parts
                      ++ [("based on skills: " ++ PyStr.join ", " matched_skills)%string]
            | _ => reasoning_parts
                     ++ [("and skills: " ++ PyStr.join ", " matched_skills)%string]
            end
        end in
      let reasoning_parts :=
        match matched_keywords, matched_skills with
        | [], [] => reasoning_parts ++ ["using default ArgoCD agent"]
        | _, _ => reasoning_parts
        end in
      Ok (PyStr.join " " reasoning_parts)
  end.

(** The variables of the loop of [_analyze_request]. *)
Record Selection : Type := mkSel {
  best_agent : option string;
  best_score : Q;
  sel_scores : Dict.t Q;
  sel_matches : Dict.t (list string)
}.

Definition score_entry (o : Orchestrator) (request : string) (acc : Selection)
  (entry : string * AgentCard) : Selection :=
  let (agent_id, agent_card) := entry in
  let (score, matched_skills) := _calculate_agent_score o request agent_card in
  let better := Qgtb score (best_score acc) in
  mkSel (if better then Some agent_id else best_agent acc)
        (if better then score else best_score acc)
        (Dict.set agent_id score (sel_scores acc))
        (Dict.set agent_id matched_skills (sel_matches acc)).

(** The loop over [self.agents.items()], from given values of its variables. *)
Definition score_from (o : Orchestrator) (request : string) (reg : Registry)
  (acc : Selection) : Selection :=
  fold_left (score_entry o request) reg acc.

Definition score_all (o : Orchestrator) (request : string) : Selection :=
  score_from o request (agents o) (mkSel None 0.0 Dict.empty Dict.empty).

(** The agent and the score after the default has been applied. *)
Definition winner (sel : Selection) : string * Q :=
  match best_agent sel with
  | None => ("argocd", 0.3)
  | Some agent_id => (agent_id, best_score sel)
  end.

(** [_analyze_request] *)
Definition _analyze_request (o : Orchestrator) (env : Ambient) (state : RouterState)
  : outcome RouterState :=
  let sel := score_all o (request state) in
  let (chosen, score) := winner sel in
  let conf := py_min (score / 5.0) 1.0 in
  why <- _generate_reasoning o (request state) chosen (sel_scores sel) (sel_matches sel);;
  Ok (mkState (request state) chosen conf why (response state) (error state)
        (mkMeta (Some (request_uuid env)) (Some (start_time env))
                (Some (sel_scores sel)) (Some (sel_matches sel))
                (Some (analysis_time env))
                (agent_endpoint (metadata state)) (status (metadata state))
                (response_timestamp (metadata state)))).

(* ------------------------------------------------------------------ *)
(** ** The protocol forwarder *)

(** What one [client.post(...)], [raise_for_status()] and [.json()] give: the
    decoded body, or the exception one of the three raises. *)
Inductive http_reply : Type :=
| Responds (body : json)
| Fails (e : builtin_exn).

(** The remote agents.  [on_get endpoint task_id n] answers the poll number
    [n] (from 0) of the task. *)
Record Network : Type := mkNet {
  on_send : string -> string -> http_reply;
  on_get : string -> json -> nat -> http_reply
}.

(** What the forwarder does that can be seen from outside.  The fresh ids of
    the payloads are not kept. *)
Inductive rpc : Type :=
| MessageSend (text : string)
| TasksGet (task_id : json).

Inductive event : Type :=
| Sleep (seconds : nat)
| Post (endpoint : string) (call : rpc).

(** A computation with its events. *)
Definition traced (A : Type) : Type := list event * outcome A.

Definition emit {A} (evs : list event) (t : traced A) : traced A :=
  (evs ++ fst t, snd t).

(** The inner loop over the parts: the text of the first part whose
    [kind_key] is ["text"]. *)
Fixpoint first_text_part (kind_key default : string) (parts : list json)
  : outcome (option json) :=
  match parts with
  | [] => Ok None
  | part :: rest =>
      kind <- Py.get part kind_key JNull;;
      if Py.eq_str kind "text"
      then (text <- Py.get part "text" (JStr default);; Ok (Some text))
      else first_text_part kind_key default rest
  end.

(** The outer loop over the artifacts of a completed task. *)
Fixpoint first_artifact_text (artifacts : list json) : outcome (option json) :=
  match artifacts with
  | [] => Ok None
  | artifact :: rest =>
      parts <- Py.get artifact "parts" (JArr []);;
      items <- Py.iter parts;;
      found <- first_text_part "kind" "No text in response" items;;
      match found with
      | Some text => Ok (Some text)
      | None => first_artifact_text rest
      end
  end.

Definition or_default (found : option json) (default : string) : json :=
  match found with
  | Some text => text
  | None => JStr default
  end.

(** The branch [task_state == "completed"]. *)
Definition completed_response (task_data : json) : outcome json :=
  artifacts <- Py.get task_data "artifacts" (JArr []);;
  if Py.truthy artifacts then
    items <- Py.iter artifacts;;
    found <- first_artifact_text items;;
    Ok (or_default found "Task completed but no response text found")
  else Ok (JStr "Task completed but no response text found").

(** The branch [task_state == "input-required"]. *)
Definition input_required_response (task_data : json) : outcome json :=
  task_status <- Py.get task_data "status" (JObj []);;
  status_message <- Py.get task_status "message" (JObj []);;
  if Py.truthy status_message then
    parts <- Py.get status_message "parts" (JArr []);;
    items <- Py.iter parts;;
    found <- first_text_part "kind" "No text in input-required response" items;;
    Ok (or_default found "Agent requires input but no message provided")
  else Ok (JStr "Agent requires input but no message provided").

(** [task_data.get("status", {}).get("state")] of a poll answer; [None] when
    the answer has no [result], or a false one. *)
Definition task_view (get_result : json) : outcome (option (json * json)) :=
  has_result <- Py.contains "result" get_result;;
  if has_result then
    task_data <- Py.getitem get_result "result";;
    if Py.truthy task_data then
      task_status <- Py.get task_data "status" (JObj []);;
      task_state <- Py.get task_status "state" JNull;;
      Ok (Some (task_data, task_state))
    else Ok None
  else Ok None.

(** What one round of the poll loop does with the answer: [Some r] returns
    [r], [None] goes on to the next round. *)
Definition poll_once (get_result : json) : outcome (option json) :=
  view <- task_view get_result;;
  match view with
  | None => Ok None
  | Some (task_data, task_state) =>
      if Py.eq_str task_state "completed" then
        (r <- completed_response task_data;; Ok (Some r))
      else if Py.eq_str task_state "failed" then
        Ok (Some (JStr "Agent task failed"))
      else if Py.eq_str task_state "input-required" then
        (r <- input_required_response task_data;; Ok (Some r))
      else Ok None
  end.

(** [for attempt in range(30)], from round [attempt] with [remaining] rounds
    left. *)
Fixpoint poll_loop (net : Network) (endpoint : string) (task_id : json)
  (attempt remaining : nat) : traced json :=
  match remaining with
  | O => ([], Ok (JStr "Task did not complete within timeout"))
  | S remaining' =>
      emit [Sleep 1; Post endpoint (TasksGet task_id)]
        match on_get net endpoint task_id attempt with
        | Fails e => ([], Raise (Builtin e))
        | Responds get_result =>
            match poll_once get_result with
            | Raise e => ([], Raise e)
            | Ok (Some r) => ([], Ok r)
            | Ok None => poll_loop net endpoint task_id (S attempt) remaining'
            end
        end
  end.

Definition max_attempts : nat := 30.

(** The shape of [result["result"]]. *)
Inductive send_shape : Type :=
| IsTask (task_id : json)
| IsMessage (message_result : json)
| Unexpected.

(** The tests on the answer to [message/send], up to the choice of branch. *)
Definition classify_send (result : json) : outcome send_shape :=
  has_error <- Py.contains "error" result;;
  if has_error then
    err <- Py.getitem result "error";;
    Raise (Exception (Lit "Agent returned error: " :: str_json err))
  else
    has_result <- Py.contains "result" result;;
    if negb has_result then Raise (Exception [Lit "No result in agent response"])
    else
      message_result <- Py.getitem result "result";;
      if Py.is_dict message_result then
        has_id <- Py.contains "id" message_result;;
        has_status <- (if has_id then Py.contains "status" message_result
                       else Ok false);;
        if has_id && has_status then
          task_id <- Py.getitem message_result "id";;
          Ok (IsTask task_id)
        else
          has_parts <- Py.contains "parts" message_result;;
          if has_parts then Ok (IsMessage message_result) else Ok Unexpected
      else Ok Unexpected.

(** The branch of a direct message. *)
Definition message_response (message_result : json) : outcome json :=
  parts <- Py.get message_result "parts" (JArr []);;
  items <- Py.iter parts;;
  found <- first_text_part "type" "No text in message" items;;
  Ok (or_default found "Message received but no text content").

(** The body of the [try] of [_forward_request_to_agent]. *)
Definition forward_body (net : Network) (endpoint request : string) : traced json :=
  emit [Post endpoint (MessageSend request)]
    match on_send net endpoint request with
    | Fails e => ([], Raise (Builtin e))
    | Responds result =>
        match classify_send result with
        | Raise e => ([], Raise e)
        | Ok (IsTask task_id) => poll_loop net endpoint task_id 0 max_attempts
        | Ok (IsMessage message_result) => ([], message_response message_result)
        | Ok Unexpected => ([], Ok (JStr "Unexpected response format from agent"))
        end
    end.

(** The two [except] clauses. *)
Definition forward_handler (e : exn) : exn :=
  match e with
  | Builtin (HTTPStatusError code text) =>
      Exception [Lit ("HTTP error " ++ str_int code ++ ": " ++ text)]
  | _ => Exception (Lit "Request forwarding failed: " :: str_exn e)
  end.

(** [_forward_request_to_agent] *)
Definition _forward_request_to_agent (net : Network) (endpoint request : string)
  : traced json :=
  let (evs, r) := forward_body net endpoint request in
  (evs, match r with
        | Ok actual_response => Ok actual_response
        | Raise e => Raise (forward_handler e)
        end).

(* ------------------------------------------------------------------ *)
(** ** The route stage and [process_request] *)

Definition nl : string := String (ascii_of_nat 10) EmptyString.

(** The text of the response when forwarding returned [actual_response]. *)
Definition routed_response (agent_card : AgentCard) (actual_response : json) : Text :=
  [Lit "🎯 Routed to "; Lit (card_name agent_card); Lit " → "]
    ++ str_json actual_response.

(** The text that replaces the response when forwarding raises [e]. *)
Definition routing_only_response (agent_card : AgentCard) (endpoint : string)
  (state : RouterState) (e : exn) : Text :=
  [Lit "🎯 Smart Routing Decision"; Lit nl; Lit nl;
   Lit "✅ Selected Agent: "; Lit (card_name agent_card); Lit nl;
   Lit "🔗 Endpoint: "; Lit endpoint; Lit nl;
   Lit "📊 Confidence: "; Fmt2f (confidence state); Lit nl;
   Lit "🧠 Reasoning: "; Lit (reasoning state); Lit nl; Lit nl;
   Lit "⚠️ Could not forward request: "] ++ str_exn e ++
  [Lit nl; Lit "💡 Connect directly to "; Lit (card_name agent_card);
   Lit " at "; Lit endpoint].

Definition set_route_metadata (m : Metadata) (endpoint status_value time : string)
  : Metadata :=
  mkMeta (request_id m) (start_timestamp m) (agent_scores m) (skill_matches m)
         (analysis_timestamp m) (Some endpoint) (Some status_value) (Some time).

(** [_route_to_agent] *)
Definition _route_to_agent (o : Orchestrator) (net : Network) (env : Ambient)
  (state : RouterState) : traced RouterState :=
  match Dict.get (selected_agent state) (agents o) with
  | None => ([], Raise (Builtin (KeyError (selected_agent state))))
  | Some agent_card =>
      let endpoint := card_url agent_card in
      let (evs, forwarded) := _forward_request_to_agent net endpoint (request state) in
      let (text, status_value) :=
        match forwarded with
        | Ok actual_response =>
            (routed_response agent_card actual_response, "completed")
        | Raise e =>
            (routing_only_response agent_card endpoint state e, "routing_only")
        end in
      (evs,
       Ok (mkState (request state) (selected_agent state) (confidence state)
             (reasoning state) text (error state)
             (set_route_metadata (metadata state) endpoint status_value
                (response_time env))))
  end.

(** [self.workflow.ainvoke]: the node [analyze], then the node [route]. *)
Definition workflow (o : Orchestrator) (net : Network) (env : Ambient)
  (initial_state : RouterState) : traced RouterState :=
  match _analyze_request o env initial_state with
  | Raise e => ([], Raise e)
  | Ok state => _route_to_agent o net env state
  end.

(** The dict that [process_request] returns. *)
Inductive Envelope : Type :=
| Success (request selected_agent_id selected_agent_name : string)
          (agent_skills : list string) (confidence : Q) (reasoning : string)
          (response : Text) (metadata : Metadata)
| Failure (request : string) (error : Text) (request_id error_timestamp : string).

Definition envelope_success (e : Envelope) : bool :=
  match e with Success _ _ _ _ _ _ _ _ => true | Failure _ _ _ _ => false end.

(** The state that [process_request] starts from. *)
Definition initial_state (request : string) : RouterState :=
  mkState request "" 0.0 "" [] "" empty_metadata.

(** [process_request] *)
Definition process_request (o : Orchestrator) (net : Network) (env : Ambient)
  (request : string) : list event * Envelope :=
  let (evs, final) := workflow o net env (initial_state request) in
  let attempt :=
    final_state <- final;;
    match Dict.get (selected_agent final_state) (agents o) with
    | None => Raise (Builtin (KeyError (selected_agent final_state)))
    | Some agent_card =>
        Ok (Success request (selected_agent final_state) (card_name agent_card)
              (map skill_name (card_skills agent_card))
              (confidence final_state) (reasoning final_state)
              (response final_state) (metadata final_state))
    end in
  (evs, match attempt with
        | Ok envelope => envelope
        | Raise e => Failure request (str_exn e) (error_uuid env) (error_time env)
        end).

(* ------------------------------------------------------------------ *)
(** ** Registry histories *)

(** The skill names of a registry, in the order of the rebuild. *)
Definition registry_skill_names (reg : Registry) : list string :=
  flat_map (fun entry => map skill_name (card_skills (snd entry))) reg.

(** The index has a key for each skill name of the registry and no other. *)
Definition index_exact (o : Orchestrator) : Prop :=
  forall name : string,
    In name (Dict.keys (skill_keywords o))
    <-> In name (registry_skill_names (agents o)).

(** The three operations that write to the registry, with what the network
    returns to [register_agent]. *)
Inductive Mutation : Type :=
| AddAgent (agent_id : string) (agent_card : AgentCard)
| RegisterAgent (endpoint : string) (fetched : option AgentCard)
| UnregisterAgent (agent_identifier : string).

Definition apply_mutation (o : Orchestrator) (m : Mutation) : Orchestrator :=
  match m with
  | AddAgent agent_id agent_card => add_agent o agent_id agent_card
  | RegisterAgent endpoint fetched => fst (register_agent o endpoint fetched)
  | UnregisterAgent agent_identifier => fst (unregister_agent o agent_identifier)
  end.

(** Whether the operation gets as far as writing to the registry. *)
Definition mutates (o : Orchestrator) (m : Mutation) : bool :=
  match m with
  | AddAgent _ _ => true
  | RegisterAgent endpoint fetched =>
      reply_success (snd (register_agent o endpoint fetched))
  | UnregisterAgent agent_identifier =>
      reply_success (snd (unregister_agent o agent_identifier))
  end.

(** The orchestrators that a run of the service can hold. *)
Inductive reachable : Orchestrator -> Prop :=
| reach_init (fetched : list (option AgentCard)) : reachable (init fetched)
| reach_step (o : Orchestrator) (m : Mutation) :
    reachable o -> reachable (apply_mutation o m).

(* ------------------------------------------------------------------ *)
(** ** Reading an envelope *)

Definition envelope_agent (e : Envelope) : option string :=
  match e with
  | Success _ selected_agent_id _ _ _ _ _ _ => Some selected_agent_id
  | Failure _ _ _ _ => None
  end.

Definition envelope_confidence (e : Envelope) : option Q :=
  match e with
  | Success _ _ _ _ conf _ _ _ => Some conf
  | Failure _ _ _ _ => None
  end.

Definition envelope_reasoning (e : Envelope) : option string :=
  match e with
  | Success _ _ _ _ _ why _ _ => Some why
  | Failure _ _ _ _ => None
  end.


Definition envelope_status (e : Envelope) : option string :=
  match e with
  | Success _ _ _ _ _ _ _ meta => status meta
  | Failure _ _ _ _ => None
  end.


(* ------------------------------------------------------------------ *)
(** ** Sample agents, networks and clocks *)

Module Sample.

Definition caps : AgentCapabilities := mkCaps true false false.

Definition currency_card : AgentCard :=
  mkCard "Currency Agent" "Converts currencies" "http://localhost:8002"
    [mkSkill "currency_exchange" "Convert between currencies using live rates"
       ["usd"; "inr"]]
    caps.

Definition argocd_card : AgentCard :=
  mkCard "ArgoCD Agent" "Manages deployments" "http://localhost:8001"
    [mkSkill "sync_operations" "Sync ArgoCD applications" ["sync"; "argocd"]]
    caps.

Definition calc_card : AgentCard :=
  mkCard "calc" "Adds numbers" "http://localhost:8003"
    [mkSkill "arithmetic_calculation" "Evaluate arithmetic" ["+"; "what is"]]
    caps.

(** A second agent whose name differs from [calc_card]'s by case only. *)
Definition Calc_card : AgentCard :=
  mkCard "Calc" "Adds numbers too" "http://localhost:9000"
    [mkSkill "sums" "Sum lists of numbers" ["sum"]]
    caps.

Definition env : Ambient :=
  mkAmbient "req-1" "2025-01-01T00:00:00" "2025-01-01T00:00:01"
            "2025-01-01T00:00:02" "req-2" "2025-01-01T00:00:03".

(** No agent is registered. *)
Definition empty : Orchestrator := init [].

Definition currency_only : Orchestrator :=
  add_agent empty "Currency Agent" currency_card.

(** The currency agent, and the ArgoCD agent under the key ["argocd"]. *)
Definition with_argocd : Orchestrator :=
  add_agent currency_only "argocd" argocd_card.

(** Every endpoint answers HTTP 500. *)
Definition net_500 : Network :=
  mkNet (fun _ _ => Fails (HTTPStatusError 500 "Internal Server Error"))
        (fun _ _ _ => Fails (HTTPStatusError 500 "Internal Server Error")).

Definition task_in (state : string) : json :=
  JObj [("jsonrpc", JStr "2.0");
        ("result", JObj [("id", JStr "task-1");
                         ("status", JObj [("state", JStr state)])])].

(** The task is created and stays in the state [working]. *)
Definition net_working : Network :=
  mkNet (fun _ _ => Responds (task_in "submitted"))
        (fun _ _ _ => Responds (task_in "working")).

(** The task is [working] for two polls and [failed] at the third. *)
Definition net_failing : Network :=
  mkNet (fun _ _ => Responds (task_in "submitted"))
        (fun _ _ n => Responds (task_in (if (n <? 2)%nat then "working" else "failed"))).

(** The agent answers with a message whose text is ["Agent task failed"]. *)
Definition net_text : Network :=
  mkNet (fun _ _ =>
           Responds (JObj [("result",
                            JObj [("parts",
                                   JArr [JObj [("type", JStr "text");
                                               ("text", JStr "Agent task failed")]])])]))
        (fun _ _ _ => Fails (LibraryError "not polled")).



(** An agent whose endpoint has the word argocd in its path. *)
Definition gateway_card : AgentCard :=
  mkCard "Gateway" "Forwards to clusters" "http://localhost:8000/argocd"
    [mkSkill "cluster_access" "Reach clusters" ["cluster"]]
    caps.

(** The gateway first, then the ArgoCD agent under the key ["argocd"]. *)
Definition with_gateway : Orchestrator :=
  add_agent (add_agent empty "Gateway" gateway_card) "argocd" argocd_card.

(** The service after it has loaded [calc_card] at start. *)
Definition calc_only : Orchestrator := init [Some calc_card].

End Sample.

(* ------------------------------------------------------------------ *)
(** ** The specification's vocabulary *)

(** The four forms in which an identifier can name a registry entry. *)
Definition matches_key (agent_identifier : string) (entry : string * AgentCard) : bool :=
  String.eqb (fst entry) agent_identifier.

Definition matches_url (agent_identifier : string) (entry : string * AgentCard) : bool :=
  String.eqb (card_url (snd entry)) agent_identifier.

Definition matches_name (agent_identifier : string) (entry : string * AgentCard) : bool :=
  String.eqb (PyStr.lower (card_name (snd entry))) (PyStr.lower agent_identifier).

Definition matches_url_part (agent_identifier : string) (entry : string * AgentCard) : bool :=
  PyStr.contains agent_identifier (card_url (snd entry)).

Definition matches_some_form (agent_identifier : string) (entry : string * AgentCard)
  : Prop :=
  matches_key agent_identifier entry = true
  \/ matches_url agent_identifier entry = true
  \/ matches_name agent_identifier entry = true
  \/ matches_url_part agent_identifier entry = true.


(** A poll answer after which the loop goes on: it carries no task data, or
    a state that is none of completed, failed and input-required. *)
Definition still_pending (get_result : json) : bool :=
  match task_view get_result with
  | Ok None => true
  | Ok (Some (_, task_state)) =>
      negb (Py.eq_str task_state "completed")
      && negb (Py.eq_str task_state "failed")
      && negb (Py.eq_str task_state "input-required")
  | Raise _ => false
  end.

(** The polls [first], ..., [first + count - 1] of a task are answered, and
    each answer is pending. *)
Definition pending_between (net : Network) (endpoint : string) (task_id : json)
  (first count : nat) : Prop :=
  forall n, (first <= n < first + count)%nat ->
    exists get_result,
      on_get net endpoint task_id n = Responds get_result
      /\ still_pending get_result = true.

(** The poll answers of a task report the state [failed]. *)
Definition reports_failed (get_result : json) : bool :=
  match task_view get_result with
  | Ok (Some (_, task_state)) => Py.eq_str task_state "failed"
  | _ => false
  end.

(** The events of [n] rounds of polling. *)
Definition poll_events (endpoint : string) (task_id : json) (n : nat) : list event :=
  concat (repeat [Sleep 1; Post endpoint (TasksGet task_id)] n).




(* ------------------------------------------------------------------ *)
(** ** Counting matches *)

(** The tags of a card that the keyword pass finds in the request. *)
Definition matching_tags (request : string) (agent_card : AgentCard) : list string :=
  filter (fun keyword => PyStr.contains (PyStr.lower keyword) (PyStr.lower request))
         (card_keywords agent_card).

(** The skills of a card that the skill pass finds in the request. *)
Definition matching_skills (o : Orchestrator) (request : string)
  (agent_card : AgentCard) : list AgentSkill :=
  filter (fun skill => _skill_matches_request o (skill_name skill) request)
         (card_skills agent_card).

(** A count as a score. *)
Definition points (n : nat) : Q := inject_Z (Z.of_nat n).

(** The score that the analyze loop gives to a registry entry. *)
Definition entry_score (o : Orchestrator) (request : string)
  (entry : string * AgentCard) : Q :=
  fst (_calculate_agent_score o request (snd entry)).

(** A string that [lower] leaves as it is. *)
Definition is_lower (s : string) : Prop := PyStr.lower s = s.

(** The keywords that the index holds for a skill name. *)
Definition keywords_of (kw : SkillKeywords) (name : string) : list string :=
  Dict.get_or name [] kw.

(** The skill name as [_update_skill_keywords] makes it a keyword. *)
Definition normalized_name (name : string) : string :=
  PyStr.replace_char "_" " " (PyStr.lower name).


(** What holds of the variables of the analyze loop after the entries [seen]:
    no entry seen scores more than [best_score]; while no agent is chosen the
    best score is 0; a chosen agent is an entry seen whose score is the best
    score, is above 0, and is above the score of the entries before it. *)
Definition selection_inv (o : Orchestrator) (request : string)
  (seen : Registry) (sel : Selection) : Prop :=
  (forall entry, In entry seen -> entry_score o request entry <= best_score sel)
  /\ match best_agent sel with
     | None => best_score sel == 0
     | Some agent_id =>
         exists before agent_card after,
           seen = before ++ (agent_id, agent_card) :: after
           /\ best_score sel = entry_score o request (agent_id, agent_card)
           /\ 0 < best_score sel
           /\ (forall entry, In entry before ->
                 entry_score o request entry < best_score sel)
     end.


(** A list of keywords as the rebuild keeps it: lower case, no keyword
    twice. *)
Definition keywords_ok (kws : list string) : Prop :=
  Forall is_lower kws /\ NoDup kws.

(** Every list of the index is such a list. *)
Definition index_ok (kw : SkillKeywords) : Prop :=
  forall name kws, Dict.get name kw = Some kws -> keywords_ok kws.


(* ------------------------------------------------------------------ *)
(** ** Well-formed answers of an agent *)

(** The parts of an artifact that is an object whose [parts], when present,
    is a list of objects. *)
Definition parts_of (artifact : json) : option (list json) :=
  match artifact with
  | JObj fields =>
      match Dict.get_or "parts" (JArr []) fields with
      | JArr items => if forallb Py.is_dict items then Some items else None
      | _ => None
      end
  | _ => None
  end.

(** The parts of a list of such artifacts, in artifact order then part
    order. *)
Fixpoint all_parts (artifacts : list json) : option (list json) :=
  match artifacts with
  | [] => Some []
  | artifact :: rest =>
      match parts_of artifact, all_parts rest with
      | Some items, Some more => Some (items ++ more)
      | _, _ => None
      end
  end.

(** Whether the field [kind_key] of a part is the string ["text"]. *)
Definition is_text_part (kind_key : string) (part : json) : bool :=
  match part with
  | JObj fields => Py.eq_str (Dict.get_or kind_key JNull fields) "text"
  | _ => false
  end.

(** The text of the first text part of a list of objects; the default when
    that part has no field [text]. *)
Definition first_text (kind_key default : string) (parts : list json)
  : option json :=
  match find (is_text_part kind_key) parts with
  | Some (JObj fields) => Some (Dict.get_or "text" (JStr default) fields)
  | _ => None
  end.


(* ------------------------------------------------------------------ *)
(** ** The registry of the running service *)

(** The last card of the given name among the cards fetched at start. *)
Fixpoint last_with_name (name : string) (fetched : list (option AgentCard))
  : option AgentCard :=
  match fetched with
  | [] => None
  | answer :: rest =>
      match last_with_name name rest with
      | Some agent_card => Some agent_card
      | None =>
          match answer with
          | Some agent_card =>
              if String.eqb (card_name agent_card) name then Some agent_card
              else None
          | None => None
          end
      end
  end.

(** The orchestrators that the service can hold: it starts with [__init__],
    and the executor calls [register_agent] and [unregister_agent];
    [add_agent] is not called anywhere in the repository. *)
Inductive service_reachable : Orchestrator -> Prop :=
| service_init (fetched : list (option AgentCard)) :
    service_reachable (init fetched)
| service_register (o : Orchestrator) (endpoint : string)
    (fetched : option AgentCard) :
    service_reachable o ->
    service_reachable (fst (register_agent o endpoint fetched))
| service_unregister (o : Orchestrator) (agent_identifier : string) :
    service_reachable o ->
    service_reachable (fst (unregister_agent o agent_identifier)).


(* ------------------------------------------------------------------ *)
(** ** More Python string methods *)

Module Str.

(** [s.lstrip()] *)
Fixpoint lstrip (s : string) : string :=
  match s with
  | EmptyString => EmptyString
  | String c s' => if PyStr.is_space c then lstrip s' else s
  end.

(** [s.rstrip()] *)
Fixpoint rstrip (s : string) : string :=
  match s with
  | EmptyString => EmptyString
  | String c s' =>
      match rstrip s' with
      | EmptyString => if PyStr.is_space c then EmptyString else String c EmptyString
      | rest => String c rest
      end
  end.

(** [s.strip()] *)
Definition strip (s : string) : string := rstrip (lstrip s).

(** [s.startswith(p)] *)
Definition startswith (s p : string) : bool := String.prefix p s.

(** The scan of [s.replace(pat, "")] for a pattern that is not empty: [skip]
    characters of an occurrence that was found are still to be dropped. *)
Fixpoint remove_from (pat : string) (skip : nat) (s : string) : string :=
  match s with
  | EmptyString => EmptyString
  | String c s' =>
      match skip with
      | S skip' => remove_from pat skip' s'
      | O =>
          if String.prefix pat s then remove_from pat (String.length pat - 1) s'
          else String c (remove_from pat 0 s')
      end
  end.

(** [s.replace(pat, "")]: the occurrences of [pat] are taken out from left to
    right; an empty pattern leaves [s] as it is. *)
Definition remove (pat s : string) : string :=
  match pat with
  | EmptyString => s
  | _ => remove_from pat 0 s
  end.



(** [s[n:]] *)
Fixpoint drop (n : nat) (s : string) : string :=
  match n, s with
  | O, _ => s
  | S n', String _ s' => drop n' s'
  | S _, EmptyString => EmptyString
  end.

(** What follows the first occurrence of [sep] in [s], if there is one. *)
Fixpoint find_after (sep s : string) : option string :=
  if String.prefix sep s then Some (drop (String.length sep) s)
  else match s with
       | EmptyString => None
       | String _ s' => find_after sep s'
       end.

(** [s.split(sep, 1)[-1]]: what follows the first [sep], or all of [s]. *)
Definition after_first (sep s : string) : string :=
  match find_after sep s with
  | Some rest => rest
  | None => s
  end.

(** [s.split(c)] for a separator of one character: the pieces between the
    occurrences of [c]; there is always at least one piece. *)
Fixpoint split_on (c : ascii) (s : string) : list string :=
  match s with
  | EmptyString => [EmptyString]
  | String a s' =>
      if Ascii.eqb a c then EmptyString :: split_on c s'
      else match split_on c s' with
           | piece :: pieces => String a piece :: pieces
           | [] => [String a EmptyString]
           end
  end.

End Str.

(* ------------------------------------------------------------------ *)
(** ** [get_available_agents] *)

(** One dict of the list that [get_available_agents] returns. *)
Record AgentInfo : Type := mkInfo {
  info_agent_id : string;
  info_name : string;
  info_description : string;
  info_endpoint : string;
  info_skills : list (string * string);
  info_keywords : list string;
  info_capabilities : list string
}.

(** [[cap for cap, enabled in [...] if enabled]]; a flag that is [None]
    counts as false. *)
Definition enabled_capabilities (caps : AgentCapabilities) : list string :=
  map fst
    (filter snd
       [("streaming", streaming caps);
        ("pushNotifications", pushNotifications caps);
        ("stateTransitionHistory", stateTransitionHistory caps)]).

Definition agent_info (entry : string * AgentCard) : AgentInfo :=
  let (agent_id, agent_card) := entry in
  mkInfo agent_id (card_name agent_card) (card_description agent_card)
    (card_url agent_card)
    (map (fun skill => (skill_name skill, skill_description skill))
       (card_skills agent_card))
    (card_keywords agent_card)
    (enabled_capabilities (card_capabilities agent_card)).

Definition get_available_agents (o : Orchestrator) : list AgentInfo :=
  map agent_info (agents o).

(* ------------------------------------------------------------------ *)
(** ** The executor of the orchestrator: [agent_executor.py] *)

(** The branch of [execute] that a query takes. *)
Inductive Command : Type :=
| ListAgents
| RegisterCommand (endpoint : string)
| UnregisterCommand (agent_identifier : string)
| RouteRequest (query : string).

Definition parse_query (query : string) : Command :=
  if String.eqb (Str.strip query) "LIST_AGENTS" then ListAgents
  else if Str.startswith query "REGISTER_AGENT:" then
    RegisterCommand (Str.strip (Str.remove "REGISTER_AGENT:" query))
  else if Str.startswith query "UNREGISTER_AGENT:" then
    UnregisterCommand (Str.strip (Str.remove "UNREGISTER_AGENT:" query))
  else RouteRequest query.

(** A task of the A2A server: its id and its context id. *)
Record TaskRef : Type := mkTask {
  task_ref_id : string;
  task_context_id : string
}.

(** What [execute] reads of its [RequestContext]: the user input, the current
    task if there is one, and for a context with a message the task that
    [new_task] makes of it. *)
Record RequestContext : Type := mkContext {
  user_input : string;
  current_task : option TaskRef;
  message_task : option TaskRef
}.

(** The text of the artifact: the JSON dump of the agent list, or a formatted
    text. *)
Inductive ArtifactText : Type :=
| AgentListJson (listed : list AgentInfo) (total_count : nat)
| Formatted (text : Text).

(** The calls that [execute] makes of the A2A server (the event queue and
    the task updater), and what the orchestrator sends to agents meanwhile. *)
Inductive exec_event : Type :=
| EnqueueTask (task : TaskRef)
| StatusWorking (task : TaskRef) (message : Text)
| AddArtifact (task : TaskRef) (text : ArtifactText) (name : string)
| CompleteTask (task : TaskRef)
| Forwarded (ev : event).

Inductive server_error : Type :=
| InvalidParamsError
| InternalError
| UnsupportedOperationError.

(** What [execute] raises: a [ServerError], or, for the call of
    [enqueue_event] that stands before the [try], whatever that call
    raised. *)
Inductive exec_failure : Type :=
| ServerError (error : server_error)
| QueueError.

(** The A2A server: whether a call of the queue or of the updater returns
    ([true]) or raises.  The calls of one run of [execute] differ from each
    other, so this is any behaviour of the server in that run. *)
Definition Server : Type := exec_event -> bool.

(** The response text of the registration branch. *)
Definition register_text (o' : Orchestrator) (reply : Reply) : Text :=
  match reply with
  | Registered agent_id agent_name _ message
  | Unregistered agent_id agent_name _ message =>
      [Lit "✅ "; Lit message; Lit nl;
       Lit "Agent ID: "; Lit agent_id; Lit nl;
       Lit "Agent Name: "; Lit agent_name; Lit nl;
       Lit "Total agents: "; Lit (str_int (Z.of_nat (length (agents o'))))]
  | Failed error => Lit "❌ Registration failed: " :: error
  end.

(** The response text of the unregistration branch. *)
Definition unregister_text (o' : Orchestrator) (reply : Reply) : Text :=
  match reply with
  | Registered agent_id _ _ message
  | Unregistered agent_id _ _ message =>
      [Lit "✅ "; Lit message; Lit nl;
       Lit "Agent ID: "; Lit agent_id; Lit nl;
       Lit "Remaining agents: "; Lit (str_int (Z.of_nat (length (agents o'))))]
  | Failed error => Lit "❌ Unregistration failed: " :: error
  end.

(** The response text of the routing branch. *)
Definition route_text (envelope : Envelope) : Text :=
  match envelope with
  | Success _ _ selected_agent_name _ conf why text _ =>
      [Lit "✅ Routed to "; Lit selected_agent_name; Lit nl;
       Lit "Confidence: "; Fmt2f conf; Lit nl;
       Lit "Reasoning: "; Lit why; Lit nl;
       Lit "Response: "] ++ text
  | Failure _ error _ _ => Lit "❌ Error: " :: error
  end.

(** The branches of the [try] of [execute] for the task [task]: the
    orchestrator afterwards, the calls that returned and what was sent to
    agents, in order, and the text of the artifact, or [None] when the status
    update raised.  [fetch] is what the card resolver returns for an
    endpoint.  The status update comes before the registration and the
    unregistration, and after the routing. *)
Definition dispatch (sdk : Server) (o : Orchestrator)
  (fetch : string -> option AgentCard)
  (net : Network) (env : Ambient) (task : TaskRef) (query : string)
  : Orchestrator * list exec_event * option ArtifactText :=
  match parse_query query with
  | ListAgents =>
      let working := StatusWorking task [Lit "Retrieving available agents..."] in
      if sdk working then
        let listed := get_available_agents o in
        (o, [working], Some (AgentListJson listed (length listed)))
      else (o, [], None)
  | RegisterCommand endpoint =>
      let working :=
        StatusWorking task [Lit "Registering agent from "; Lit endpoint; Lit "..."] in
      if sdk working then
        let (o', reply) := register_agent o endpoint (fetch endpoint) in
        (o', [working], Some (Formatted (register_text o' reply)))
      else (o, [], None)
  | UnregisterCommand agent_identifier =>
      let working :=
        StatusWorking task
          [Lit "Unregistering agent "; Lit agent_identifier; Lit "..."] in
      if sdk working then
        let (o', reply) := unregister_agent o agent_identifier in
        (o', [working], Some (Formatted (unregister_text o' reply)))
      else (o, [], None)
  | RouteRequest request =>
      let (evs, envelope) := process_request o net env request in
      let working :=
        StatusWorking task [Lit "Processing request through orchestrator..."] in
      if sdk working then
        (o, map Forwarded evs ++ [working], Some (Formatted (route_text envelope)))
      else (o, map Forwarded evs, None)
  end.

(** The [try] of [execute] with its [except] clause: an exception of a call
    of the server is raised again as [InternalError]. *)
Definition try_execute (sdk : Server) (o : Orchestrator)
  (fetch : string -> option AgentCard)
  (net : Network) (env : Ambient) (task : TaskRef) (query : string)
  : Orchestrator * list exec_event * option exec_failure :=
  match dispatch sdk o fetch net env task query with
  | (o', evs, None) => (o', evs, Some (ServerError InternalError))
  | (o', evs, Some text) =>
      let artifact := AddArtifact task text "orchestrator_result" in
      if sdk artifact then
        if sdk (CompleteTask task) then
          (o', evs ++ [artifact; CompleteTask task], None)
        else (o', evs ++ [artifact], Some (ServerError InternalError))
      else (o', evs, Some (ServerError InternalError))
  end.

(** [execute]: [_validate_request] never objects; a context without a task
    and without a message is refused; the task of a context that has only a
    message is made by [new_task] and put in the queue before the [try]. *)
Definition execute (sdk : Server) (o : Orchestrator)
  (fetch : string -> option AgentCard)
  (net : Network) (env : Ambient) (context : RequestContext)
  : Orchestrator * list exec_event * option exec_failure :=
  let query := user_input context in
  match current_task context with
  | Some task => try_execute sdk o fetch net env task query
  | None =>
      match message_task context with
      | Some task =>
          if sdk (EnqueueTask task) then
            let '(o', evs, r) := try_execute sdk o fetch net env task query in
            (o', EnqueueTask task :: evs, r)
          else (o, [], Some QueueError)
      | None => (o, [], Some (ServerError InvalidParamsError))
      end
  end.

(** [cancel] *)
Definition cancel (context : RequestContext) : exec_failure :=
  ServerError UnsupportedOperationError.

(* ------------------------------------------------------------------ *)
(** ** The commands of the client: [orchestrator_client/__main__.py] *)

(** The command that [register_agent_with_orchestrator] sends. *)
Definition register_command (agent_url : string) : string :=
  "REGISTER_AGENT:" ++ agent_url.

(** The command that [unregister_agent_with_orchestrator] sends. *)
Definition unregister_command (agent_identifier : string) : string :=
  "UNREGISTER_AGENT:" ++ agent_identifier.


(** An event that closes or fills a task. *)
Definition is_final_event (ev : exec_event) : bool :=
  match ev with
  | AddArtifact _ _ _ | CompleteTask _ => true
  | _ => false
  end.

Definition is_working_event (ev : exec_event) : bool :=
  match ev with
  | StatusWorking _ _ => true
  | _ => false
  end.

(** The task that [execute] works on: the current task of the context, or
    else the task that [new_task] makes of its message. *)
Definition task_of (context : RequestContext) : option TaskRef :=
  match current_task context with
  | Some task => Some task
  | None => message_task context
  end.

(** The call that puts a new task in the queue, for a context that has no
    current task. *)
Definition enqueued (context : RequestContext) : list exec_event :=
  match current_task context, message_task context with
  | None, Some task => [EnqueueTask task]
  | _, _ => []
  end.

(** The server that raises at no call. *)
Definition willing : Server := fun _ => true.

(** A call of the server that raises. *)
Definition is_refused (sdk : Server) (ev : exec_event) : bool :=
  match ev with
  | Forwarded _ => false
  | _ => negb (sdk ev)
  end.

(** The events before the first call that raises. *)
Fixpoint accepted_prefix (sdk : Server) (evs : list exec_event) : list exec_event :=
  match evs with
  | [] => []
  | ev :: rest =>
      if is_refused sdk ev then [] else ev :: accepted_prefix sdk rest
  end.

(** What [execute] raises when the first call that raises is [refused]. *)
Definition raised_for (refused : option exec_event) : option exec_failure :=
  match refused with
  | None => None
  | Some (EnqueueTask _) => Some QueueError
  | Some _ => Some (ServerError InternalError)
  end.

(* ------------------------------------------------------------------ *)
(** ** The ArgoCD agent: [argocdAgent/app/agent.py] *)

(** [ResponseFormat] *)
Inductive response_status : Type :=
| input_required
| completed
| error_status.

Record ResponseFormat : Type := mkResponse {
  rf_status : response_status;
  rf_message : string
}.

(** The dict that the agent returns. *)
Record AgentResponse : Type := mkAgentResponse {
  is_task_complete : bool;
  require_user_input : bool;
  content : string
}.

(** [get_agent_response], from the [structured_response] of the state of the
    graph; [None] is a state that has none, or one that is not a
    [ResponseFormat]. *)
Definition get_agent_response (structured_response : option ResponseFormat)
  : AgentResponse :=
  match structured_response with
  | Some response =>
      match rf_status response with
      | input_required => mkAgentResponse false true (rf_message response)
      | error_status => mkAgentResponse false true (rf_message response)
      | completed => mkAgentResponse true false (rf_message response)
      end
  | None =>
      mkAgentResponse false true
        "We are unable to process your request at the moment. Please try again."
  end.






(* ------------------------------------------------------------------ *)
(** ** More sample answers *)

Module Demo.

Definition url : string := "http://localhost:8002".

(** The answer to a poll of a task that has completed with two artifacts;
    the first has no text part. *)
Definition completed_answer : json :=
  JObj [("result",
         JObj [("id", JStr "task-1");
               ("status", JObj [("state", JStr "completed")]);
               ("artifacts",
                JArr [JObj [("parts", JArr [JObj [("kind", JStr "data")]])];
                      JObj [("parts",
                             JArr [JObj [("kind", JStr "text");
                                         ("text", JStr "10 USD is 830 INR")];
                                   JObj [("kind", JStr "text");
                                         ("text", JStr "second")]])]])])].

(** The task is [working] for two polls and [completed] at the third. *)
Definition net_completing : Network :=
  mkNet (fun _ _ => Responds (Sample.task_in "submitted"))
        (fun _ _ n =>
           Responds (if (n <? 2)%nat then Sample.task_in "working"
                     else completed_answer)).

(** The answer to a poll of a task that asks for input. *)
Definition input_answer : json :=
  JObj [("result",
         JObj [("id", JStr "task-1");
               ("status",
                JObj [("state", JStr "input-required");
                      ("message",
                       JObj [("role", JStr "agent");
                             ("parts",
                              JArr [JObj [("kind", JStr "text");
                                          ("text", JStr "Which currency?")]])])])])].

Definition net_asking : Network :=
  mkNet (fun _ _ => Responds (Sample.task_in "submitted"))
        (fun _ _ _ => Responds input_answer).

(** The card resolver finds the currency agent at its url and nothing
    elsewhere. *)
Definition fetch (endpoint : string) : option AgentCard :=
  if String.eqb endpoint "http://localhost:8002" then Some Sample.currency_card
  else None.

Definition task : TaskRef := mkTask "task-9" "context-9".

End Demo.


(* ------------------------------------------------------------------ *)
(** ** The client: headers and [format_ai_response] *)

(** One item of the dict comprehension over the [--header] options:
    [h.split("=")[0]: h.split("=")[1]].  [None] is the [IndexError] of a
    header without ["="]. *)
Definition parse_header (h : string) : option (string * string) :=
  match Str.split_on "=" h with
  | key :: value :: _ => Some (key, value)
  | _ => None
  end.

(** The dict of the headers; a key that comes twice keeps its place and
    takes the later value. *)
Fixpoint parse_headers (header : list string) (headers : Dict.t string)
  : option (Dict.t string) :=
  match header with
  | [] => Some headers
  | h :: rest =>
      match parse_header h with
      | Some (key, value) => parse_headers rest (Dict.set key value headers)
      | None => None
      end
  end.

(** What [print] writes, one text for each call. *)
Definition Printed : Type := list Text.

(** ["=" * 60] and ["\n" + "=" * 60] *)
Definition rule : string :=
  "============================================================".

Definition banner : string := nl ++ rule.

Definition heading (title : string) : Printed :=
  [[Lit banner]; [Lit title]; [Lit rule]].

(** The two loops over artifacts and parts, as in the forwarder, with the
    default that [part.get('text', '')] has here. *)
Fixpoint first_text_of_artifacts (default : string) (artifacts : list json)
  : outcome (option json) :=
  match artifacts with
  | [] => Ok None
  | artifact :: rest =>
      parts <- Py.get artifact "parts" (JArr []);;
      items <- Py.iter parts;;
      found <- first_text_part "kind" default items;;
      match found with
      | Some text => Ok (Some text)
      | None => first_text_of_artifacts default rest
      end
  end.

(** The line that shows a text part: what follows the first arrow, stripped,
    when the text has an arrow in it. *)
Definition shown_text (text : json) : outcome Text :=
  has_arrow <- Py.contains "→" text;;
  if has_arrow then
    match text with
    | JStr s => Ok [Lit (Str.strip (Str.after_first "→" s))]
    | _ => Raise (Builtin (AttributeError text))
    end
  else Ok (str_json text).

(** The branch of the artifacts: [Some lines] when a text part was found and
    printed. *)
Definition print_artifacts (fields : list (string * json))
  : outcome (option Printed) :=
  if Dict.mem "artifacts" fields then
    let artifacts := Dict.get_or "artifacts" (JArr []) fields in
    if Py.truthy artifacts then
      items <- Py.iter artifacts;;
      found <- first_text_of_artifacts "" items;;
      match found with
      | Some text =>
          line <- shown_text text;;
          Ok (Some (heading "🤖 AI RESPONSE" ++ [line; [Lit rule]]))
      | None => Ok None
      end
    else Ok None
  else Ok None.

(** The loop over the tasks of a planner response: what is printed, and the
    exception that stops it, if any. *)
Fixpoint print_tasks (tasks : list json) : Printed * outcome unit :=
  match tasks with
  | [] => ([], Ok tt)
  | task :: rest =>
      match (task_id <- Py.get task "id" (JStr "N/A");;
             description <- Py.get task "description" (JStr "N/A");;
             task_status <- Py.get task "status" (JStr "N/A");;
             Ok [[Lit "  • Task "] ++ str_json task_id ++ [Lit ": "]
                   ++ str_json description;
                 [Lit "    Status: "] ++ str_json task_status]) with
      | Raise e => ([], Raise e)
      | Ok lines =>
          let (more, r) := print_tasks rest in (lines ++ more, r)
      end
  end.

(** The branch of a planner response. *)
Definition print_planner (ai_content : list (string * json)) : Printed * outcome bool :=
  let start :=
    heading "🤖 AI PLANNER RESPONSE"
      ++ [[Lit "Original Query: "]
            ++ str_json (Dict.get_or "original_query" (JStr "N/A") ai_content)] in
  let task_info := Dict.get_or "task_info" (JObj []) ai_content in
  match Py.get task_info "task_type" (JStr "N/A"),
        Py.get task_info "scope" (JStr "N/A") with
  | Raise e, _ => (start, Raise e)
  | Ok task_type, Raise e =>
      (start ++ [[Lit "Task Type: "] ++ str_json task_type], Raise e)
  | Ok task_type, Ok scope =>
      let lines :=
        start ++ [[Lit "Task Type: "] ++ str_json task_type;
                  [Lit "Scope: "] ++ str_json scope;
                  [Lit (nl ++ "📋 TASKS:")]] in
      match Py.iter (Dict.get_or "tasks" (JArr []) ai_content) with
      | Raise e => (lines, Raise e)
      | Ok tasks =>
          match print_tasks tasks with
          | (more, Raise e) => (lines ++ more, Raise e)
          | (more, Ok _) => (lines ++ more ++ [[Lit rule]], Ok true)
          end
      end
  end.

(** The branch of the key ["content"]. *)
Definition print_content (fields : list (string * json)) : Printed * outcome bool :=
  if Dict.mem "content" fields then
    match Dict.get_or "content" JNull fields with
    | JObj ai_content =>
        if Dict.mem "tasks" ai_content then print_planner ai_content
        else
          (heading "🤖 AI RESPONSE"
             ++ map (fun kv => [Lit (fst kv); Lit ": "] ++ str_json (snd kv))
                  (filter (fun kv => negb (String.eqb (fst kv) "content")) ai_content)
             ++ [[Lit rule]],
           Ok true)
    | JStr s => (heading "🤖 AI RESPONSE" ++ [[Lit s]; [Lit rule]], Ok true)
    | _ => ([], Ok false)
    end
  else ([], Ok false).

(** [format_ai_response]: what it prints, and what it returns or raises. *)
Definition format_ai_response (content : json) : Printed * outcome bool :=
  match content with
  | JObj fields =>
      match print_artifacts fields with
      | Raise e => ([], Raise e)
      | Ok (Some lines) => (lines, Ok true)
      | Ok None => print_content fields
      end
  | JStr s => (heading "🤖 AI RESPONSE" ++ [[Lit s]; [Lit rule]], Ok true)
  | _ => ([], Ok false)
  end.

(* ------------------------------------------------------------------ *)
(** * Properties *)


(** ** Dicts *)

Lemma dict_get_set_same {V} (k : string) (v : V) (d : Dict.t V) :
  Dict.get k (Dict.set k v d) = Some v.
Proof.
  induction d as [|[k' v'] d IH]; simpl.
  - now rewrite String.eqb_refl.
  - destruct (String.eqb k' k) eqn:E; simpl.
    + now rewrite String.eqb_refl.
    + now rewrite E.
Qed.

Lemma dict_keys_set {V} (k k0 : string) (v : V) (d : Dict.t V) :
  In k (Dict.keys (Dict.set k0 v d)) <-> k = k0 \/ In k (Dict.keys d).
Proof.
  unfold Dict.keys.
  induction d as [|[k' v'] d IH]; simpl.
  - intuition congruence.
  - destruct (String.eqb k' k0) eqn:E; simpl.
    + apply String.eqb_eq in E; subst. intuition congruence.
    + rewrite IH. intuition congruence.
Qed.

Lemma dict_mem_keys {V} (k : string) (d : Dict.t V) :
  Dict.mem k d = true <-> In k (Dict.keys d).
Proof.
  unfold Dict.mem, Dict.keys.
  induction d as [|[k' v'] d IH]; simpl.
  - split; [discriminate | tauto].
  - destruct (String.eqb k' k) eqn:E.
    + apply String.eqb_eq in E; subst. tauto.
    + apply String.eqb_neq in E. rewrite IH. intuition congruence.
Qed.

Lemma dict_get_in {V} (k : string) (v : V) (d : Dict.t V) :
  Dict.get k d = Some v -> In (k, v) d.
Proof.
  induction d as [|[k' v'] d IH]; simpl; [discriminate|].
  destruct (String.eqb k' k) eqn:E.
  - apply String.eqb_eq in E. intros [= ->]. left; congruence.
  - auto.
Qed.

Lemma dict_in_get {V} (k : string) (v : V) (d : Dict.t V) :
  In (k, v) d -> exists v', Dict.get k d = Some v'.
Proof.
  induction d as [|[k' v'] d IH]; simpl; [tauto|].
  intros [H | H].
  - inversion H; subst. rewrite String.eqb_refl. eauto.
  - destruct (String.eqb k' k); eauto.
Qed.

(** A key that is not in the dict is added at the end. *)
Lemma dict_set_fresh {V} (k : string) (v : V) (d : Dict.t V) :
  Dict.mem k d = false -> Dict.set k v d = d ++ [(k, v)].
Proof.
  unfold Dict.mem.
  induction d as [|[k' v'] d IH]; simpl; [reflexivity|].
  destruct (String.eqb k' k) eqn:E; [discriminate|].
  intros H. now rewrite IH.
Qed.

Lemma dict_del_fresh_last {V} (k : string) (v : V) (d : Dict.t V) :
  Dict.mem k d = false -> Dict.del k (d ++ [(k, v)]) = d.
Proof.
  unfold Dict.mem.
  induction d as [|[k' v'] d IH]; simpl.
  - now rewrite String.eqb_refl.
  - destruct (String.eqb k' k) eqn:E; [discriminate|].
    intros H. now rewrite IH.
Qed.

(** ** The capability index *)

(** The description words are only ever added behind the keywords that are
    there. *)
Lemma add_desc_words_extend (words kws : list string) :
  exists more, fold_left add_desc_word words kws = kws ++ more.
Proof.
  revert kws. induction words as [|w words IH]; intros kws; simpl.
  - exists []. now rewrite app_nil_r.
  - destruct (IH (add_desc_word kws w)) as [more ->].
    unfold add_desc_word.
    destruct ((2 <? String.length w)%nat && negb (PyStr.mem w (lowered kws))).
    + exists (w :: more). now rewrite <- app_assoc.
    + now exists more.
Qed.

Lemma index_skill_keys (kw : SkillKeywords) (skill : AgentSkill) (name : string) :
  In name (Dict.keys (index_skill kw skill))
  <-> name = skill_name skill \/ In name (Dict.keys kw).
Proof.
  unfold index_skill. rewrite dict_keys_set.
  destruct (Dict.mem (skill_name skill) kw) eqn:E.
  - tauto.
  - rewrite dict_keys_set. tauto.
Qed.

Lemma index_agent_keys (skills : list AgentSkill) (kw : SkillKeywords) (name : string) :
  In name (Dict.keys (fold_left index_skill skills kw))
  <-> In name (map skill_name skills) \/ In name (Dict.keys kw).
Proof.
  revert kw. induction skills as [|s skills IH]; intros kw; simpl.
  - tauto.
  - rewrite IH, index_skill_keys. intuition congruence.
Qed.

Lemma fold_index_keys (reg : Registry) (kw : SkillKeywords) (name : string) :
  In name (Dict.keys (fold_left index_agent reg kw))
  <-> In name (registry_skill_names reg) \/ In name (Dict.keys kw).
Proof.
  revert kw. induction reg as [|[agent_id agent_card] reg IH]; intros kw; simpl.
  - tauto.
  - rewrite IH. unfold index_agent. simpl.
    rewrite index_agent_keys, in_app_iff. tauto.
Qed.

(** The keys of a rebuilt index are the skill names of the registry. *)
Lemma rebuild_index_keys (reg : Registry) (name : string) :
  In name (Dict.keys (rebuild_index reg)) <-> In name (registry_skill_names reg).
Proof.
  unfold rebuild_index. rewrite fold_index_keys. simpl. tauto.
Qed.

Lemma index_exact_rebuilt (reg : Registry) (kw : SkillKeywords) :
  index_exact (_update_skill_keywords (mkOrch reg kw)).
Proof.
  intros name. simpl. apply rebuild_index_keys.
Qed.

(** An operation that does not write leaves the orchestrator as it is. *)
Lemma no_mutation_unchanged (o : Orchestrator) (m : Mutation) :
  mutates o m = false -> apply_mutation o m = o.
Proof.
  destruct m as [agent_id agent_card | endpoint [agent_card|] | agent_identifier];
    simpl; try discriminate; try reflexivity.
  unfold unregister_agent.
  destruct (find (entry_matches agent_identifier) (agents o)) as [[k c]|];
    [destruct (negb (String.eqb k "")); simpl; [discriminate|]|]; reflexivity.
Qed.

(** C6: after [add_agent], a [register_agent] that fetched a card, or an
    [unregister_agent] that found its agent, the keys of the capability index
    are exactly the skill names of the agents now in the registry: no key of a
    removed skill stays, and no skill of a current agent is without a key. *)
Theorem capability_index_exact_after_mutation (o : Orchestrator) (m : Mutation) :
  mutates o m = true ->
  index_exact (apply_mutation o m).
Proof.
  destruct m as [agent_id agent_card | endpoint [agent_card|] | agent_identifier];
    simpl; intros Hm; try discriminate.
  - apply index_exact_rebuilt.
  - apply index_exact_rebuilt.
  - revert Hm. unfold unregister_agent.
    destruct (find (entry_matches agent_identifier) (agents o)) as [[k c]|];
      [destruct (negb (String.eqb k "")); simpl|simpl]; try discriminate.
    intros _. apply index_exact_rebuilt.
Qed.

(** The index of every orchestrator of a run is the rebuild of its registry. *)
Lemma reachable_index_rebuilt (o : Orchestrator) :
  reachable o -> skill_keywords o = rebuild_index (agents o).
Proof.
  induction 1 as [fetched | o m Hr IH].
  - reflexivity.
  - destruct m as [agent_id agent_card | endpoint [agent_card|] | agent_identifier];
      simpl; try reflexivity; try assumption.
    unfold unregister_agent.
    destruct (find (entry_matches agent_identifier) (agents o)) as [[k c]|];
      [destruct (negb (String.eqb k "")); simpl|simpl];
      try reflexivity; assumption.
Qed.

Lemma reachable_index_exact (o : Orchestrator) :
  reachable o -> index_exact o.
Proof.
  intros Hr name. rewrite (reachable_index_rebuilt Hr). apply rebuild_index_keys.
Qed.

(** ** Scoring and selection *)

Lemma existsb_app_l {A} (f : A -> bool) (l more : list A) :
  existsb f l = true -> existsb f (l ++ more) = true.
Proof.
  intros H. rewrite existsb_app, H. reflexivity.
Qed.

(** With a single registered agent that has a single skill, the index holds
    the keywords of that skill under its name. *)
Lemma single_skill_index (agent_id : string) (agent_card : AgentCard)
  (skill : AgentSkill) :
  card_skills agent_card = [skill] ->
  rebuild_index [(agent_id, agent_card)]
  = [(skill_name skill, skill_keyword_list skill [])].
Proof.
  intros Hs. unfold rebuild_index, index_agent. simpl. rewrite Hs. simpl.
  unfold index_skill. simpl. unfold Dict.get_or. simpl.
  rewrite String.eqb_refl. reflexivity.
Qed.

(** A stage of the pipeline that has an agent to route to always yields a
    state. *)
Lemma route_total (o : Orchestrator) (net : Network) (env : Ambient)
  (state : RouterState) (agent_card : AgentCard) :
  Dict.get (selected_agent state) (agents o) = Some agent_card ->
  exists evs text status_value,
    _route_to_agent o net env state
    = (evs, Ok (mkState (request state) (selected_agent state) (confidence state)
                  (reasoning state) text (error state)
                  (set_route_metadata (metadata state) (card_url agent_card)
                     status_value (response_time env)))).
Proof.
  intros Hget. unfold _route_to_agent. rewrite Hget.
  destruct (_forward_request_to_agent net (card_url agent_card) (request state))
    as [evs [actual|e]]; eauto.
Qed.

Lemma Qgtb_compat (x x' y y' : Q) :
  x == x' -> y == y' -> Qgtb x y = Qgtb x' y'.
Proof.
  intros Hx Hy. unfold Qgtb. now rewrite Hx, Hy.
Qed.

Lemma py_min_compat (x x' y : Q) : x == x' -> py_min x y == py_min x' y.
Proof.
  intros Hx. unfold py_min. rewrite (Qgtb_compat (y:=y) (y':=y) Hx (Qeq_refl y)).
  destruct (Qgtb x' y); [reflexivity | assumption].
Qed.

(** When the agent that the loop chose is in the registry, the analyze stage
    yields its state. *)
Lemma analyze_ok (o : Orchestrator) (env : Ambient) (state : RouterState)
  (chosen : string) (score : Q) (agent_card : AgentCard) :
  winner (score_all o (request state)) = (chosen, score) ->
  Dict.get chosen (agents o) = Some agent_card ->
  exists why meta,
    _generate_reasoning o (request state) chosen
      (sel_scores (score_all o (request state)))
      (sel_matches (score_all o (request state))) = Ok why
    /\ _analyze_request o env state
       = Ok (mkState (request state) chosen (py_min (score / 5.0) 1.0) why
               (response state) (error state) meta).
Proof.
  intros Hw Hget. unfold _analyze_request. rewrite Hw.
  unfold _generate_reasoning at 1 2. rewrite Hget. simpl. eauto.
Qed.

(** When both stages have an agent to work with, [process_request] returns a
    success envelope with the decision of the analyze stage. *)
Lemma process_success (o : Orchestrator) (net : Network) (env : Ambient)
  (request : string) (state : RouterState) (agent_card : AgentCard) :
  _analyze_request o env (initial_state request) = Ok state ->
  Dict.get (selected_agent state) (agents o) = Some agent_card ->
  exists evs text status_value,
    process_request o net env request
    = (evs, Success request (selected_agent state) (card_name agent_card)
              (map skill_name (card_skills agent_card))
              (confidence state) (reasoning state) text
              (set_route_metadata (metadata state) (card_url agent_card)
                 status_value (response_time env))).
Proof.
  intros Han Hget. unfold process_request, workflow. rewrite Han.
  destruct (route_total o net env state Hget) as (evs & text & sv & ->).
  simpl. rewrite Hget. eauto.
Qed.

(** C1: in a registry whose only agent has the single skill
    [currency_exchange] with the tags usd and inr, the request
    "how much is 10 USD in INR?" gives that agent the score 3.5 (1.0 for each
    of the two tags, 1.5 for the skill), [process_request] selects that agent,
    and the confidence [min(3.5 / 5.0, 1.0)] is 0.7. *)
Theorem currency_request_scores_3_5
  (o : Orchestrator) (agent_id description : string) (tags : list string)
  (agent_card : AgentCard) (net : Network) (env : Ambient) :
  Permutation ["usd"; "inr"] tags ->
  card_skills agent_card = [mkSkill "currency_exchange" description tags] ->
  agents o = [(agent_id, agent_card)] ->
  skill_keywords o = rebuild_index (agents o) ->
  let request := "how much is 10 USD in INR?" in
  let envelope := snd (process_request o net env request) in
  fst (_calculate_agent_score o request agent_card) == 3.5
  /\ snd (_calculate_agent_score o request agent_card) = ["currency_exchange"]
  /\ envelope_agent envelope = Some agent_id
  /\ exists conf, envelope_confidence envelope = Some conf
                  /\ conf == py_min (3.5 / 5.0) 1.0 /\ conf == 0.7.
Proof.
  intros Hperm Hskills Hagents Hindex request envelope.
  assert (Hmatch : _skill_matches_request o "currency_exchange" request = true).
  { unfold _skill_matches_request. rewrite Hindex, Hagents.
    rewrite (single_skill_index agent_id agent_card Hskills).
    unfold Dict.get_or, skill_keyword_list; simpl.
    match goal with
    | |- existsb _ (fold_left add_desc_word ?ws ?kws) = true =>
        destruct (add_desc_words_extend ws kws) as [more ->]
    end.
    apply existsb_app_l.
    apply Permutation_length_2_inv in Hperm as [-> | ->]; reflexivity. }
  assert (Hscore : fst (_calculate_agent_score o request agent_card) == 3.5
                   /\ snd (_calculate_agent_score o request agent_card)
                      = ["currency_exchange"]).
  { unfold _calculate_agent_score, card_keywords. rewrite Hskills.
    cbn [flat_map fold_left skill_pass skill_name skill_tags app].
    rewrite Hmatch. rewrite app_nil_r.
    apply Permutation_length_2_inv in Hperm as [-> | ->];
      split; reflexivity. }
  destruct Hscore as [Hs Hm].
  assert (Hwin : exists s, winner (score_all o request) = (agent_id, s) /\ s == 3.5).
  { unfold score_all, score_from. rewrite Hagents. simpl. unfold score_entry.
    destruct (_calculate_agent_score o request agent_card) as [s m]. simpl in Hs.
    simpl. rewrite (Qgtb_compat Hs (Qeq_refl 0.0)). simpl.
    exists s. split; [reflexivity | assumption]. }
  destruct Hwin as (s & Hwin & Hs').
  assert (Hget : Dict.get agent_id (agents o) = Some agent_card).
  { rewrite Hagents. simpl. now rewrite String.eqb_refl. }
  destruct (analyze_ok o env (initial_state request) Hwin Hget)
    as (why & meta & _ & Han).
  destruct (process_success o net env request Han Hget)
    as (evs & text & sv & Hproc).
  subst envelope. rewrite Hproc. simpl.
  repeat split; try assumption.
  exists (py_min (s / 5.0) 1.0). split; [reflexivity|].
  assert (Hc : py_min (s / 5.0) 1.0 == py_min (3.5 / 5.0) 1.0).
  { apply py_min_compat. now rewrite Hs'. }
  split; [exact Hc | rewrite Hc; reflexivity].
Qed.

(** ** The default agent *)

Lemma Qgtb_false (x y : Q) : Qgtb x y = false <-> x <= y.
Proof.
  unfold Qgtb. rewrite negb_false_iff. apply Qle_bool_iff.
Qed.

Lemma keyword_pass_ge (request_lower : string) (keywords : list string) (score : Q) :
  score <= fold_left (keyword_pass request_lower) keywords score.
Proof.
  revert score. induction keywords as [|k keywords IH]; intros score; simpl.
  - lra.
  - eapply Qle_trans; [|apply IH].
    unfold keyword_pass.
    destruct (PyStr.contains (PyStr.lower k) request_lower); lra.
Qed.

(** A keyword pass that adds nothing has matched no keyword. *)
Lemma keyword_pass_no_gain (request_lower : string) (keywords : list string)
  (score : Q) :
  fold_left (keyword_pass request_lower) keywords score <= score ->
  filter (fun k => PyStr.contains (PyStr.lower k) request_lower) keywords = [].
Proof.
  revert score. induction keywords as [|k keywords IH]; intros score; simpl.
  - reflexivity.
  - unfold keyword_pass at 2.
    destruct (PyStr.contains (PyStr.lower k) request_lower).
    + intros H. pose proof (keyword_pass_ge request_lower keywords (score + 1.0)).
      lra.
    + apply IH.
Qed.

Lemma skill_pass_ge (o : Orchestrator) (request : string)
  (skills : list AgentSkill) (score : Q) (matched : list string) :
  score <= fst (fold_left (skill_pass o request) skills (score, matched)).
Proof.
  revert score matched. induction skills as [|s skills IH]; intros score matched; simpl.
  - lra.
  - destruct (_skill_matches_request o (skill_name s) request).
    + specialize (IH (score + 1.5) (matched ++ [skill_name s])). lra.
    + apply IH.
Qed.

(** A skill pass that adds nothing has matched no skill. *)
Lemma skill_pass_no_gain (o : Orchestrator) (request : string)
  (skills : list AgentSkill) (score : Q) (matched : list string) :
  fst (fold_left (skill_pass o request) skills (score, matched)) <= score ->
  snd (fold_left (skill_pass o request) skills (score, matched)) = matched.
Proof.
  revert score matched. induction skills as [|s skills IH]; intros score matched; simpl.
  - reflexivity.
  - destruct (_skill_matches_request o (skill_name s) request).
    + intros H.
      pose proof (skill_pass_ge o request skills (score + 1.5)
                    (matched ++ [skill_name s])).
      lra.
    + apply IH.
Qed.

(** An agent whose score is not above 0 has no matched keyword and no matched
    skill. *)
Lemma no_score_no_match (o : Orchestrator) (request : string) (agent_card : AgentCard) :
  Qgtb (fst (_calculate_agent_score o request agent_card)) 0.0 = false ->
  filter (fun k => PyStr.contains (PyStr.lower k) (PyStr.lower request))
         (card_keywords agent_card) = []
  /\ snd (_calculate_agent_score o request agent_card) = [].
Proof.
  rewrite Qgtb_false. unfold _calculate_agent_score. intros H.
  pose proof (keyword_pass_ge (PyStr.lower request) (card_keywords agent_card) 0.0) as Hk.
  pose proof (skill_pass_ge o request (card_skills agent_card)
                (fold_left (keyword_pass (PyStr.lower request))
                   (card_keywords agent_card) 0.0) []) as Hs.
  split.
  - apply keyword_pass_no_gain with (score := 0.0). lra.
  - apply skill_pass_no_gain. lra.
Qed.

Lemma score_entry_fields (o : Orchestrator) (request : string) (acc : Selection)
  (agent_id : string) (agent_card : AgentCard) :
  score_entry o request acc (agent_id, agent_card)
  = mkSel (if Qgtb (fst (_calculate_agent_score o request agent_card))
                   (best_score acc)
           then Some agent_id else best_agent acc)
          (if Qgtb (fst (_calculate_agent_score o request agent_card))
                   (best_score acc)
           then fst (_calculate_agent_score o request agent_card)
           else best_score acc)
          (Dict.set agent_id (fst (_calculate_agent_score o request agent_card))
             (sel_scores acc))
          (Dict.set agent_id (snd (_calculate_agent_score o request agent_card))
             (sel_matches acc)).
Proof.
  unfold score_entry.
  destruct (_calculate_agent_score o request agent_card); reflexivity.
Qed.

(** When no agent scores above 0 the loop leaves [best_agent] at [None]. *)
Lemma no_winner (o : Orchestrator) (request : string) (reg : Registry)
  (acc : Selection) :
  (forall agent_id agent_card, In (agent_id, agent_card) reg ->
     Qgtb (fst (_calculate_agent_score o request agent_card)) 0.0 = false) ->
  best_agent acc = None -> best_score acc = 0.0 ->
  best_agent (score_from o request reg acc) = None.
Proof.
  unfold score_from.
  revert acc. induction reg as [|[agent_id agent_card] reg IH];
    intros acc Hall Hnone Hzero; cbn [fold_left].
  - assumption.
  - apply IH.
    + intros a c Hin. apply (Hall a c). now right.
    + rewrite score_entry_fields. simpl. rewrite Hzero.
      rewrite (Hall agent_id agent_card (or_introl eq_refl)). assumption.
    + rewrite score_entry_fields. simpl. rewrite Hzero.
      rewrite (Hall agent_id agent_card (or_introl eq_refl)). reflexivity.
Qed.

Lemma dict_get_set_other {V} (k k0 : string) (v : V) (d : Dict.t V) :
  k0 <> k -> Dict.get k (Dict.set k0 v d) = Dict.get k d.
Proof.
  intros Hne. induction d as [|[k' v'] d IH]; simpl.
  - apply String.eqb_neq in Hne. now rewrite Hne.
  - destruct (String.eqb k' k0) eqn:E; simpl.
    + apply String.eqb_eq in E; subst.
      apply String.eqb_neq in Hne. now rewrite Hne.
    + destruct (String.eqb k' k); [reflexivity | exact IH].
Qed.

(** Each list of matched skills that the loop records belongs to an agent of
    the registry. *)
Lemma recorded_matches (o : Orchestrator) (request : string) (reg : Registry)
  (acc : Selection) (agent_id : string) (matched : list string) :
  Dict.get agent_id (sel_matches (score_from o request reg acc)) = Some matched ->
  Dict.get agent_id (sel_matches acc) = Some matched
  \/ exists agent_card, In (agent_id, agent_card) reg
       /\ matched = snd (_calculate_agent_score o request agent_card).
Proof.
  unfold score_from.
  revert acc. induction reg as [|[k c] reg IH]; intros acc; cbn [fold_left].
  - auto.
  - intros H. apply IH in H. destruct H as [H | (c' & Hin & ->)].
    + rewrite score_entry_fields in H. simpl in H.
      destruct (String.eqb k agent_id) eqn:E.
      * apply String.eqb_eq in E; subst.
        rewrite dict_get_set_same in H. injection H as <-.
        right. exists c. split; [now left | reflexivity].
      * apply String.eqb_neq in E. rewrite dict_get_set_other in H by assumption.
        now left.
    + right. exists c'. split; [now right | reflexivity].
Qed.

(** An agent that the loop chose is a key of the registry. *)
Lemma chosen_is_registered (o : Orchestrator) (request : string) (reg : Registry)
  (acc : Selection) (agent_id : string) :
  best_agent (score_from o request reg acc) = Some agent_id ->
  best_agent acc = Some agent_id \/ In agent_id (Dict.keys reg).
Proof.
  unfold score_from.
  revert acc. induction reg as [|[k c] reg IH]; intros acc; cbn [fold_left].
  - auto.
  - intros H. apply IH in H. destruct H as [H | H]; [|simpl; now auto].
    rewrite score_entry_fields in H. simpl in H.
    destruct (Qgtb (fst (_calculate_agent_score o request c)) (best_score acc)).
    + injection H as ->. right. now left.
    + now left.
Qed.

(** What [process_request] returns when the analyze stage raises. *)
Lemma process_analyze_raises (o : Orchestrator) (net : Network) (env : Ambient)
  (request : string) (e : exn) :
  _analyze_request o env (initial_state request) = Raise e ->
  process_request o net env request
  = ([], Failure request (str_exn e) (error_uuid env) (error_time env)).
Proof.
  intros H. unfold process_request, workflow. rewrite H. reflexivity.
Qed.

(** C2, as the code has it: when no agent scores above 0 and the default
    identity "argocd" is a key of the registry, [process_request] selects
    "argocd" with the fixed score 0.3, the confidence is
    [min(0.3 / 5.0, 1.0)], which is 0.06, and the reasoning says that the
    default agent is used. *)
Theorem default_agent_when_no_score
  (o : Orchestrator) (net : Network) (env : Ambient) (req : string)
  (agent_card : AgentCard) :
  Dict.get "argocd" (agents o) = Some agent_card ->
  (forall agent_id c, In (agent_id, c) (agents o) ->
     Qgtb (fst (_calculate_agent_score o req c)) 0.0 = false) ->
  winner (score_all o req) = ("argocd", 0.3)
  /\ py_min (0.3 / 5.0) 1.0 == 0.06
  /\ exists evs text meta,
       process_request o net env req
       = (evs, Success req "argocd" (card_name agent_card)
                 (map skill_name (card_skills agent_card))
                 (py_min (0.3 / 5.0) 1.0)
                 ("Selected " ++ card_name agent_card ++ " using default ArgoCD agent")
                 text meta).
Proof.
  intros Hget Hall.
  assert (Hwin : winner (score_all o req) = ("argocd", 0.3)).
  { unfold winner, score_all. now rewrite no_winner. }
  split; [exact Hwin|]. split; [reflexivity|].
  destruct (analyze_ok o env (initial_state req) Hwin Hget)
    as (why & meta & Hwhy & Han).
  destruct (process_success o net env req Han Hget)
    as (evs & text & sv & Hproc).
  rewrite Hproc. simpl.
  simpl in Hwhy.
  assert (why = ("Selected " ++ card_name agent_card
                   ++ " using default ArgoCD agent")%string)
    as ->; [|eauto].
  revert Hwhy. unfold _generate_reasoning. rewrite Hget.
  assert (Hscore : Qgtb (fst (_calculate_agent_score o req agent_card)) 0.0 = false).
  { apply (Hall "argocd"). now apply dict_get_in. }
  destruct (no_score_no_match o req agent_card Hscore) as [-> _].
  assert (Hm : Dict.get_or "argocd" [] (sel_matches (score_all o req)) = []).
  { unfold Dict.get_or.
    destruct (Dict.get "argocd" (sel_matches (score_all o req)))
      as [matched|] eqn:E; [|reflexivity].
    apply recorded_matches in E. destruct E as [E | (c & Hin & ->)].
    - discriminate.
    - apply no_score_no_match. now apply (Hall "argocd"). }
  rewrite Hm. simpl. intros [= <-]. reflexivity.
Qed.

(** C9: when the identity that the analyze stage selects is not a key of the
    registry, which can only be the default "argocd", [process_request] still
    returns: the envelope has success false and the lookup error as its error
    string, and nothing was sent to any agent. *)
Theorem missing_selected_agent_is_reported
  (o : Orchestrator) (net : Network) (env : Ambient) (req : string) :
  Dict.get (fst (winner (score_all o req))) (agents o) = None ->
  fst (winner (score_all o req)) = "argocd"
  /\ process_request o net env req
     = ([], Failure req (str_exn (Builtin (KeyError "argocd")))
              (error_uuid env) (error_time env))
  /\ envelope_success (snd (process_request o net env req)) = false.
Proof.
  intros Hnone.
  assert (Hsel : fst (winner (score_all o req)) = "argocd").
  { unfold winner in *.
    destruct (best_agent (score_all o req)) as [agent_id|] eqn:E; [|reflexivity].
    exfalso. simpl in Hnone.
    apply chosen_is_registered in E. destruct E as [E | E]; [discriminate|].
    apply dict_mem_keys in E. unfold Dict.mem in E. now rewrite Hnone in E. }
  assert (Hproc : process_request o net env req
     = ([], Failure req (str_exn (Builtin (KeyError "argocd")))
              (error_uuid env) (error_time env))).
  { apply process_analyze_raises. unfold _analyze_request.
    rewrite Hsel in Hnone.
    simpl.
    destruct (winner (score_all o req)) as [chosen score] eqn:Ew.
    simpl in Hsel. subst chosen.
    unfold _generate_reasoning. rewrite Hnone. reflexivity. }
  split; [exact Hsel|]. split; [exact Hproc|]. now rewrite Hproc.
Qed.

(** ** Unregistering *)

Lemma entry_matches_forms (agent_identifier : string) (entry : string * AgentCard) :
  entry_matches agent_identifier entry = true
  <-> matches_some_form agent_identifier entry.
Proof.
  destruct entry as [agent_id agent_card].
  unfold entry_matches, matches_some_form, matches_key, matches_url,
    matches_name, matches_url_part; simpl.
  destruct (String.eqb agent_id agent_identifier); [tauto|].
  destruct (String.eqb (card_url agent_card) agent_identifier); [tauto|].
  destruct (String.eqb (PyStr.lower (card_name agent_card))
              (PyStr.lower agent_identifier)); [tauto|].
  destruct (PyStr.contains agent_identifier (card_url agent_card)); [tauto|].
  intuition discriminate.
Qed.

Lemma entry_matches_none (agent_identifier : string) (entry : string * AgentCard) :
  entry_matches agent_identifier entry = false
  <-> ~ matches_some_form agent_identifier entry.
Proof.
  rewrite <- entry_matches_forms.
  destruct (entry_matches agent_identifier entry); intuition congruence.
Qed.

(** The loop with [break] stops at the first entry that passes the test. *)
Lemma find_first {A} (f : A -> bool) (before : list A) (x : A) (after : list A) :
  (forall e, In e before -> f e = false) -> f x = true ->
  find f (before ++ x :: after) = Some x.
Proof.
  intros Hb Hx. induction before as [|b before IH]; simpl.
  - now rewrite Hx.
  - rewrite (Hb b (or_introl eq_refl)). apply IH.
    intros e He. apply Hb. now right.
Qed.

Lemma find_splits {A} (f : A -> bool) (l : list A) (x : A) :
  find f l = Some x ->
  exists before after,
    l = before ++ x :: after /\ (forall e, In e before -> f e = false) /\ f x = true.
Proof.
  induction l as [|a l IH]; simpl; [discriminate|].
  destruct (f a) eqn:E.
  - intros [= ->]. exists [], l. simpl. tauto.
  - intros H. destruct (IH H) as (before & after & -> & Hb & Hx).
    exists (a :: before), after. simpl. repeat split; [|assumption].
    intros e [<- | He]; auto.
Qed.

Lemma dict_del_middle {V} (k : string) (v : V) (before after : Dict.t V) :
  ~ In k (Dict.keys before) ->
  Dict.del k (before ++ (k, v) :: after) = before ++ after.
Proof.
  unfold Dict.keys.
  induction before as [|[k' v'] before IH]; simpl; intros Hk.
  - now rewrite String.eqb_refl.
  - destruct (String.eqb k' k) eqn:E.
    + apply String.eqb_eq in E. tauto.
    + rewrite IH; tauto.
Qed.

Lemma nodup_keys_middle {V} (k : string) (v : V) (before after : Dict.t V) :
  NoDup (Dict.keys (before ++ (k, v) :: after)) -> ~ In k (Dict.keys before).
Proof.
  unfold Dict.keys. rewrite map_app. simpl. intros H.
  apply NoDup_remove_2 in H. rewrite in_app_iff in H. tauto.
Qed.

(** The keys of a dict stay distinct under [d[k] = v] and [del d[k]]. *)
Lemma dict_set_nodup {V} (k : string) (v : V) (d : Dict.t V) :
  NoDup (Dict.keys d) -> NoDup (Dict.keys (Dict.set k v d)).
Proof.
  destruct (Dict.mem k d) eqn:E.
  - intros H. replace (Dict.keys (Dict.set k v d)) with (Dict.keys d); [exact H|].
    clear H. unfold Dict.mem in E. unfold Dict.keys.
    induction d as [|[k' v'] d IH]; simpl in *; [discriminate|].
    destruct (String.eqb k' k) eqn:Ek; simpl.
    + apply String.eqb_eq in Ek. now subst.
    + f_equal. now apply IH.
  - rewrite dict_set_fresh by assumption. unfold Dict.keys.
    rewrite map_app. simpl. intros H.
    apply NoDup_app; [exact H | repeat constructor; simpl; tauto |].
    intros x Hx [<- | []].
    apply dict_mem_keys in Hx. congruence.
Qed.

Lemma dict_del_keys_incl {V} (k x : string) (d : Dict.t V) :
  In x (Dict.keys (Dict.del k d)) -> In x (Dict.keys d).
Proof.
  unfold Dict.keys. induction d as [|[k' v'] d IH]; simpl; [tauto|].
  destruct (String.eqb k' k); simpl; tauto.
Qed.

Lemma dict_del_nodup {V} (k : string) (d : Dict.t V) :
  NoDup (Dict.keys d) -> NoDup (Dict.keys (Dict.del k d)).
Proof.
  induction d as [|[k' v'] d IH]; simpl; [auto|].
  intros H. inversion H as [|? ? Hnin Hnd]; subst.
  destruct (String.eqb k' k); simpl; [exact Hnd|].
  constructor; [|auto].
  intros Hin. apply Hnin. eapply dict_del_keys_incl. exact Hin.
Qed.

(** The registry of every orchestrator of a run has distinct keys. *)
Lemma reachable_keys_nodup (o : Orchestrator) :
  reachable o -> NoDup (Dict.keys (agents o)).
Proof.
  induction 1 as [fetched | o m Hr IH].
  - simpl. unfold Dict.empty.
    assert (H : forall (reg : Registry), NoDup (Dict.keys reg) ->
                  NoDup (Dict.keys (fold_left load_card fetched reg))).
    { induction fetched as [|[c|] fetched IHf]; intros reg Hreg; simpl.
      - exact Hreg.
      - apply IHf. now apply dict_set_nodup.
      - now apply IHf. }
    apply H. constructor.
  - destruct m as [agent_id agent_card | endpoint [agent_card|] | agent_identifier];
      simpl; try assumption; try (now apply dict_set_nodup).
    unfold unregister_agent.
    destruct (find (entry_matches agent_identifier) (agents o)) as [[k c]|];
      [destruct (negb (String.eqb k "")); simpl|simpl]; try assumption.
    now apply dict_del_nodup.
Qed.


(** C7, as the code has it: when no agent of the registry matches the
    identifier in any form, the new agent's key is not empty and not yet in
    the registry, and the identifier matches the new agent in one of the four
    forms, adding the agent and unregistering it by that identifier gives
    back the registry and the index that were there before. *)
Theorem add_then_unregister_restores
  (o : Orchestrator) (agent_id agent_identifier : string) (agent_card : AgentCard) :
  skill_keywords o = rebuild_index (agents o) ->
  Dict.mem agent_id (agents o) = false ->
  agent_id <> "" ->
  matches_some_form agent_identifier (agent_id, agent_card) ->
  (forall entry, In entry (agents o) -> ~ matches_some_form agent_identifier entry) ->
  fst (unregister_agent (add_agent o agent_id agent_card) agent_identifier) = o
  /\ (agent_id = card_name agent_card ->
      forall endpoint,
        fst (unregister_agent (fst (register_agent o endpoint (Some agent_card)))
               agent_identifier) = o).
Proof.
  intros Hindex Hfresh Hne Hmatch Hothers.
  assert (H : fst (unregister_agent (add_agent o agent_id agent_card)
                     agent_identifier) = o).
  { unfold unregister_agent, add_agent. simpl.
    rewrite dict_set_fresh by assumption.
    rewrite find_first.
    - apply String.eqb_neq in Hne. rewrite Hne. simpl.
      rewrite dict_del_fresh_last by assumption.
      unfold _update_skill_keywords. simpl. rewrite <- Hindex.
      now destruct o.
    - intros entry He. apply entry_matches_none. auto.
    - now apply entry_matches_forms. }
  split; [exact H|].
  intros -> endpoint. exact H.
Qed.

(** ** The poll loop *)

Lemma eq_str_true (v : json) (s : string) : Py.eq_str v s = true -> v = JStr s.
Proof.
  destruct v; simpl; try discriminate.
  intros H. apply String.eqb_eq in H. now subst.
Qed.

Lemma poll_once_pending (get_result : json) :
  still_pending get_result = true -> poll_once get_result = Ok None.
Proof.
  unfold still_pending, poll_once.
  destruct (task_view get_result) as [[[task_data task_state]|]|e]; simpl;
    try discriminate; try reflexivity.
  destruct (Py.eq_str task_state "completed"); [discriminate|].
  destruct (Py.eq_str task_state "failed"); [discriminate|].
  destruct (Py.eq_str task_state "input-required"); [discriminate|].
  reflexivity.
Qed.

Lemma poll_once_failed (get_result : json) :
  reports_failed get_result = true ->
  poll_once get_result = Ok (Some (JStr "Agent task failed")).
Proof.
  unfold reports_failed, poll_once.
  destruct (task_view get_result) as [[[task_data task_state]|]|e]; simpl;
    try discriminate.
  intros H. apply eq_str_true in H. subst. reflexivity.
Qed.

Lemma pending_between_tail (net : Network) (endpoint : string) (task_id : json)
  (first count : nat) :
  pending_between net endpoint task_id first (S count) ->
  (exists get_result,
     on_get net endpoint task_id first = Responds get_result
     /\ still_pending get_result = true)
  /\ pending_between net endpoint task_id (S first) count.
Proof.
  intros H. split.
  - apply H. lia.
  - intros n Hn. apply H. lia.
Qed.

Lemma poll_events_succ (endpoint : string) (task_id : json) (n : nat) :
  poll_events endpoint task_id (S n)
  = Sleep 1 :: Post endpoint (TasksGet task_id) :: poll_events endpoint task_id n.
Proof. reflexivity. Qed.

(** While every answer is pending the loop uses up its rounds and returns the
    timeout text. *)
Lemma poll_loop_pending (net : Network) (endpoint : string) (task_id : json)
  (remaining attempt : nat) :
  pending_between net endpoint task_id attempt remaining ->
  poll_loop net endpoint task_id attempt remaining
  = (poll_events endpoint task_id remaining,
     Ok (JStr "Task did not complete within timeout")).
Proof.
  revert attempt. induction remaining as [|remaining IH]; intros attempt Hp.
  - reflexivity.
  - apply pending_between_tail in Hp. destruct Hp as [(g & Hg & Hpend) Hrest].
    cbn [poll_loop]. rewrite Hg, (poll_once_pending _ Hpend), (IH _ Hrest).
    reflexivity.
Qed.

(** A task that is pending for [k] rounds and then reports [failed] ends the
    loop at round [k] with the fixed text. *)
Lemma poll_loop_failed (net : Network) (endpoint : string) (task_id : json)
  (k remaining attempt : nat) (get_result : json) :
  (k < remaining)%nat ->
  pending_between net endpoint task_id attempt k ->
  on_get net endpoint task_id (attempt + k) = Responds get_result ->
  reports_failed get_result = true ->
  poll_loop net endpoint task_id attempt remaining
  = (poll_events endpoint task_id (S k), Ok (JStr "Agent task failed")).
Proof.
  revert remaining attempt.
  induction k as [|k IH]; intros remaining attempt Hlt Hp Hg Hf;
    destruct remaining as [|remaining]; try lia; cbn [poll_loop].
  - rewrite Nat.add_0_r in Hg. rewrite Hg, (poll_once_failed _ Hf). reflexivity.
  - apply pending_between_tail in Hp. destruct Hp as [(g & Hg' & Hpend) Hrest].
    rewrite Hg', (poll_once_pending _ Hpend).
    rewrite (IH remaining (S attempt)); try assumption; try lia.
    + reflexivity.
    + now rewrite Nat.add_succ_comm.
Qed.

(** Whatever the agents answer, the loop sleeps and polls at most [remaining]
    times. *)
Lemma poll_loop_bounded (net : Network) (endpoint : string) (task_id : json)
  (remaining attempt : nat) :
  exists n, (n <= remaining)%nat
    /\ fst (poll_loop net endpoint task_id attempt remaining)
       = poll_events endpoint task_id n.
Proof.
  revert attempt. induction remaining as [|remaining IH]; intros attempt.
  - exists 0%nat. split; [lia | reflexivity].
  - cbn [poll_loop].
    destruct (on_get net endpoint task_id attempt) as [g|e].
    + destruct (poll_once g) as [[r|]|e].
      * exists 1%nat. split; [lia | reflexivity].
      * destruct (IH (S attempt)) as (n & Hn & Hev).
        exists (S n). split; [lia|]. unfold emit. simpl. now rewrite Hev.
      * exists 1%nat. split; [lia | reflexivity].
    + exists 1%nat. split; [lia | reflexivity].
Qed.

(** When the answer to [message/send] is a task, forwarding is the poll loop
    behind the first post. *)
Lemma forward_task (net : Network) (endpoint req : string)
  (send_result task_id : json) :
  on_send net endpoint req = Responds send_result ->
  classify_send send_result = Ok (IsTask task_id) ->
  forward_body net endpoint req
  = emit [Post endpoint (MessageSend req)]
         (poll_loop net endpoint task_id 0 max_attempts).
Proof.
  intros Hs Hc. unfold forward_body. now rewrite Hs, Hc.
Qed.

(** C5: when the answer to [message/send] is a task and each of the 30 polls
    is answered with a state that is none of completed, failed and
    input-required, the forwarder sleeps one second before each poll, polls
    exactly 30 times, and then returns the timeout text: it does not wait for
    ever. *)
Theorem poll_loop_times_out_after_30
  (net : Network) (endpoint req : string) (send_result task_id : json) :
  on_send net endpoint req = Responds send_result ->
  classify_send send_result = Ok (IsTask task_id) ->
  (forall n, (n < 30)%nat ->
     exists get_result,
       on_get net endpoint task_id n = Responds get_result
       /\ still_pending get_result = true) ->
  _forward_request_to_agent net endpoint req
  = (Post endpoint (MessageSend req) :: poll_events endpoint task_id 30,
     Ok (JStr "Task did not complete within timeout")).
Proof.
  intros Hs Hc Hp. unfold _forward_request_to_agent.
  rewrite (forward_task _ _ _ Hs Hc).
  rewrite poll_loop_pending.
  - reflexivity.
  - intros n Hn. apply Hp. unfold max_attempts in Hn. lia.
Qed.

(** For every network the forwarder posts once and then polls at most 30
    times. *)
Lemma forward_bounded (net : Network) (endpoint req : string) :
  exists n task_id, (n <= 30)%nat
    /\ fst (_forward_request_to_agent net endpoint req)
       = Post endpoint (MessageSend req) :: poll_events endpoint task_id n.
Proof.
  unfold _forward_request_to_agent, forward_body.
  destruct (on_send net endpoint req) as [send_result|e].
  - destruct (classify_send send_result) as [[task_id|message_result|]|e].
    + destruct (poll_loop_bounded net endpoint task_id max_attempts 0)
        as (n & Hn & Hev).
      exists n, task_id. split; [exact Hn|].
      destruct (poll_loop net endpoint task_id 0 max_attempts) as [evs r].
      simpl in *. now rewrite Hev.
    + exists 0%nat, JNull. split; [lia|].
      destruct (message_response message_result); reflexivity.
    + exists 0%nat, JNull. split; [lia | reflexivity].
    + exists 0%nat, JNull. split; [lia | reflexivity].
  - exists 0%nat, JNull. split; [lia | reflexivity].
Qed.

(** ** The route stage *)

Lemma analyze_keeps_request (o : Orchestrator) (env : Ambient)
  (state state' : RouterState) :
  _analyze_request o env state = Ok state' -> request state' = request state.
Proof.
  unfold _analyze_request.
  destruct (winner (score_all o (request state))) as [chosen score].
  destruct (_generate_reasoning o (request state) chosen
              (sel_scores (score_all o (request state)))
              (sel_matches (score_all o (request state)))) as [why|e]; simpl.
  - intros [= <-]. reflexivity.
  - discriminate.
Qed.

(** [process_request] when forwarding returns. *)
Lemma process_forward_returns (o : Orchestrator) (net : Network) (env : Ambient)
  (req : string) (state : RouterState) (agent_card : AgentCard)
  (evs : list event) (actual_response : json) :
  _analyze_request o env (initial_state req) = Ok state ->
  Dict.get (selected_agent state) (agents o) = Some agent_card ->
  _forward_request_to_agent net (card_url agent_card) req
  = (evs, Ok actual_response) ->
  process_request o net env req
  = (evs, Success req (selected_agent state) (card_name agent_card)
            (map skill_name (card_skills agent_card))
            (confidence state) (reasoning state)
            (routed_response agent_card actual_response)
            (set_route_metadata (metadata state) (card_url agent_card)
               "completed" (response_time env))).
Proof.
  intros Han Hget Hfw. unfold process_request, workflow. rewrite Han.
  unfold _route_to_agent. rewrite Hget.
  rewrite (analyze_keeps_request _ _ _ Han).
  change (request (initial_state req)) with req. rewrite Hfw.
  cbn [fst snd bind selected_agent]. rewrite Hget. reflexivity.
Qed.

(** [process_request] when forwarding raises. *)
Lemma process_forward_raises (o : Orchestrator) (net : Network) (env : Ambient)
  (req : string) (state : RouterState) (agent_card : AgentCard)
  (evs : list event) (e : exn) :
  _analyze_request o env (initial_state req) = Ok state ->
  Dict.get (selected_agent state) (agents o) = Some agent_card ->
  _forward_request_to_agent net (card_url agent_card) req = (evs, Raise e) ->
  process_request o net env req
  = (evs, Success req (selected_agent state) (card_name agent_card)
            (map skill_name (card_skills agent_card))
            (confidence state) (reasoning state)
            (routing_only_response agent_card (card_url agent_card) state e)
            (set_route_metadata (metadata state) (card_url agent_card)
               "routing_only" (response_time env))).
Proof.
  intros Han Hget Hfw. unfold process_request, workflow. rewrite Han.
  unfold _route_to_agent. rewrite Hget.
  rewrite (analyze_keeps_request _ _ _ Han).
  change (request (initial_state req)) with req. rewrite Hfw.
  cbn [fst snd bind selected_agent]. rewrite Hget. reflexivity.
Qed.

(** An HTTP status error on the first post. *)
Lemma forward_http_status (net : Network) (endpoint req : string)
  (code : Z) (text : string) :
  on_send net endpoint req = Fails (HTTPStatusError code text) ->
  _forward_request_to_agent net endpoint req
  = ([Post endpoint (MessageSend req)],
     Raise (Exception [Lit ("HTTP error " ++ str_int code ++ ": " ++ text)])).
Proof.
  intros H. unfold _forward_request_to_agent, forward_body. now rewrite H.
Qed.


(** C10: when a task reports the state failed at a poll, after polls that
    were all pending, the forwarder returns the text "Agent task failed" and
    does not raise; the route stage records the status completed, which is
    the status that the metadata of the envelope show, and [process_request]
    returns success true.  The envelope is the one that any agent gets which
    answers with that text. *)
Theorem failed_task_reported_as_success
  (o : Orchestrator) (net : Network) (env : Ambient) (req : string)
  (state : RouterState) (agent_card : AgentCard)
  (send_result task_id get_result : json) (k : nat) :
  _analyze_request o env (initial_state req) = Ok state ->
  Dict.get (selected_agent state) (agents o) = Some agent_card ->
  on_send net (card_url agent_card) req = Responds send_result ->
  classify_send send_result = Ok (IsTask task_id) ->
  (k < 30)%nat ->
  pending_between net (card_url agent_card) task_id 0 k ->
  on_get net (card_url agent_card) task_id k = Responds get_result ->
  reports_failed get_result = true ->
  snd (_forward_request_to_agent net (card_url agent_card) req)
  = Ok (JStr "Agent task failed")
  /\ snd (process_request o net env req)
     = Success req (selected_agent state) (card_name agent_card)
         (map skill_name (card_skills agent_card))
         (confidence state) (reasoning state)
         [Lit "🎯 Routed to "; Lit (card_name agent_card); Lit " → ";
          Lit "Agent task failed"]
         (set_route_metadata (metadata state) (card_url agent_card)
            "completed" (response_time env))
  /\ envelope_status (snd (process_request o net env req)) = Some "completed"
  /\ envelope_success (snd (process_request o net env req)) = true
  /\ (forall net',
        snd (_forward_request_to_agent net' (card_url agent_card) req)
        = Ok (JStr "Agent task failed") ->
        snd (process_request o net' env req) = snd (process_request o net env req)).
Proof.
  intros Han Hget Hs Hc Hk Hp Hg Hf.
  assert (Hfw : _forward_request_to_agent net (card_url agent_card) req
                = (Post (card_url agent_card) (MessageSend req)
                     :: poll_events (card_url agent_card) task_id (S k),
                   Ok (JStr "Agent task failed"))).
  { unfold _forward_request_to_agent. rewrite (forward_task _ _ _ Hs Hc).
    rewrite (@poll_loop_failed net (card_url agent_card) task_id k max_attempts 0
               get_result); try assumption; reflexivity. }
  assert (Hproc := process_forward_returns _ _ Han Hget Hfw).
  rewrite Hfw, Hproc. cbn [snd].
  split; [reflexivity|]. split; [reflexivity|]. split; [reflexivity|].
  split; [reflexivity|].
  intros net' Hfw'.
  destruct (_forward_request_to_agent net' (card_url agent_card) req)
    as [evs' r'] eqn:E'. cbn [snd] in Hfw'. subst r'.
  rewrite (process_forward_returns _ _ Han Hget E'). reflexivity.
Qed.

(** ** Failures of forwarding *)









(* ------------------------------------------------------------------ *)
(** * The theorems at the sample agents *)

Lemma currency_request_scores_3_5_witness :
  fst (_calculate_agent_score Sample.currency_only "how much is 10 USD in INR?"
         Sample.currency_card) == 3.5
  /\ envelope_agent
       (snd (process_request Sample.currency_only Sample.net_working Sample.env
               "how much is 10 USD in INR?")) = Some "Currency Agent".
Proof.
  destruct (@currency_request_scores_3_5 Sample.currency_only "Currency Agent"
              "Convert between currencies using live rates" ["usd"; "inr"]
              Sample.currency_card Sample.net_working Sample.env
              (Permutation_refl _) eq_refl eq_refl eq_refl)
    as (Hscore & _ & Hagent & _).
  split; [exact Hscore | exact Hagent].
Defined.

Lemma default_agent_when_no_score_witness :
  Dict.get "argocd" (agents Sample.with_argocd) = Some Sample.argocd_card
  /\ winner (score_all Sample.with_argocd "hello") = ("argocd", 0.3).
Proof.
  split; [reflexivity|].
  refine (proj1 (@default_agent_when_no_score Sample.with_argocd Sample.net_500
                   Sample.env "hello" Sample.argocd_card eq_refl _)).
  intros agent_id c [H | [H | []]]; inversion H; subst; reflexivity.
Defined.



Lemma poll_loop_times_out_after_30_witness :
  _forward_request_to_agent Sample.net_working "http://localhost:8002" "hello"
  = (Post "http://localhost:8002" (MessageSend "hello")
       :: poll_events "http://localhost:8002" (JStr "task-1") 30,
     Ok (JStr "Task did not complete within timeout")).
Proof.
  apply (@poll_loop_times_out_after_30 Sample.net_working
           "http://localhost:8002" "hello" (Sample.task_in "submitted")
           (JStr "task-1") eq_refl eq_refl).
  intros n Hn. exists (Sample.task_in "working"). split; reflexivity.
Defined.

Lemma capability_index_exact_after_mutation_witness :
  mutates Sample.with_argocd (UnregisterAgent "localhost:8002") = true
  /\ index_exact (apply_mutation Sample.with_argocd (UnregisterAgent "localhost:8002")).
Proof.
  split; [reflexivity|].
  apply (@capability_index_exact_after_mutation Sample.with_argocd
           (UnregisterAgent "localhost:8002") eq_refl).
Defined.

Lemma add_then_unregister_restores_witness :
  fst (unregister_agent
         (add_agent Sample.calc_only "Currency Agent" Sample.currency_card)
         "localhost:8002") = Sample.calc_only.
Proof.
  refine (proj1 (@add_then_unregister_restores Sample.calc_only "Currency Agent"
                   "localhost:8002" Sample.currency_card eq_refl eq_refl _ _ _)).
  - discriminate.
  - right; right; right. reflexivity.
  - intros entry [<- | []] [H | [H | [H | H]]]; vm_compute in H; discriminate.
Defined.


Lemma missing_selected_agent_is_reported_witness :
  process_request Sample.empty Sample.net_working Sample.env "hello"
  = ([], Failure "hello" [Repr (JStr "argocd")] "req-2" "2025-01-01T00:00:03").
Proof.
  exact (proj1 (proj2 (@missing_selected_agent_is_reported Sample.empty
                         Sample.net_working Sample.env "hello" eq_refl))).
Defined.

Lemma failed_task_reported_as_success_witness :
  snd (_forward_request_to_agent Sample.net_failing "http://localhost:8002"
         "how much is 10 USD in INR?")
  = Ok (JStr "Agent task failed")
  /\ envelope_status
       (snd (process_request Sample.currency_only Sample.net_failing Sample.env
               "how much is 10 USD in INR?")) = Some "completed"
  /\ envelope_success
       (snd (process_request Sample.currency_only Sample.net_failing Sample.env
               "how much is 10 USD in INR?")) = true
  /\ snd (process_request Sample.currency_only Sample.net_text Sample.env
            "how much is 10 USD in INR?")
     = snd (process_request Sample.currency_only Sample.net_failing Sample.env
              "how much is 10 USD in INR?").
Proof.
  assert (Han : exists state,
             _analyze_request Sample.currency_only Sample.env
               (initial_state "how much is 10 USD in INR?") = Ok state
             /\ selected_agent state = "Currency Agent").
  { eexists. split; [vm_compute; reflexivity | reflexivity]. }
  destruct Han as (state & Han & Hsel).
  assert (Hget : Dict.get (selected_agent state) (agents Sample.currency_only)
                 = Some Sample.currency_card) by (rewrite Hsel; reflexivity).
  assert (Hpending : pending_between Sample.net_failing
                       (card_url Sample.currency_card) (JStr "task-1") 0 2).
  { intros n Hn. exists (Sample.task_in "working").
    destruct n as [|[|n]]; [split; reflexivity | split; reflexivity | lia]. }
  destruct (@failed_task_reported_as_success Sample.currency_only
              Sample.net_failing Sample.env "how much is 10 USD in INR?"
              state Sample.currency_card (Sample.task_in "submitted")
              (JStr "task-1") (Sample.task_in "failed") 2
              Han Hget eq_refl eq_refl ltac:(lia) Hpending eq_refl eq_refl)
    as (Hfw & _ & Hstatus & Hok & Hsame).
  split; [exact Hfw|]. split; [exact Hstatus|]. split; [exact Hok|].
  apply Hsame. reflexivity.
Defined.

(* ------------------------------------------------------------------ *)
(** * Where the specification and the code part *)

(** C2: with no agent registered [process_request] does not select the
    default agent, it returns the failure envelope of the lookup error; and
    where the default agent is registered and nothing scores, the confidence
    is 0.06 and not 0.3. *)
Lemma default_agent_counterexample :
  snd (process_request Sample.empty Sample.net_working Sample.env "hello")
  = Failure "hello" [Repr (JStr "argocd")] "req-2" "2025-01-01T00:00:03"
  /\ envelope_agent
       (snd (process_request Sample.with_argocd Sample.net_working Sample.env "hello"))
     = Some "argocd"
  /\ match envelope_confidence
             (snd (process_request Sample.with_argocd Sample.net_working
                     Sample.env "hello")) with
     | Some conf => conf == 0.06 /\ ~ conf == 0.3
     | None => False
     end.
Proof.
  split; [reflexivity|]. split; [vm_compute; reflexivity|].
  vm_compute. split; [reflexivity | discriminate].
Qed.



(** C7: the registry holds the agent "calc"; the agent "Calc" is registered
    and unregistered by its registry id "Calc"; the loop meets "calc" first,
    whose name matches without case, and removes it. *)
Lemma round_trip_counterexample :
  Dict.mem "Calc" (agents Sample.calc_only) = false
  /\ Dict.keys (agents Sample.calc_only) = ["calc"]
  /\ Dict.keys
       (agents
          (fst (unregister_agent
                  (fst (register_agent Sample.calc_only "http://localhost:9000"
                          (Some Sample.Calc_card)))
                  "Calc")))
     = ["Calc"]
  /\ fst (unregister_agent
            (fst (register_agent Sample.calc_only "http://localhost:9000"
                    (Some Sample.Calc_card)))
            "Calc") <> Sample.calc_only.
Proof.
  repeat split; try (vm_compute; reflexivity).
  intros H. apply (f_equal (fun o => Dict.keys (agents o))) in H.
  vm_compute in H. discriminate.
Qed.


(* ------------------------------------------------------------------ *)
(** * Further properties of the code *)

(** ** The score as a count *)

Lemma points_succ (n : nat) : points (S n) == 1 + points n.
Proof.
  unfold points. rewrite Nat2Z.inj_succ. unfold Z.succ.
  rewrite inject_Z_plus. simpl. ring.
Qed.

Lemma keyword_pass_count (request_lower : string) (keywords : list string) (score : Q) :
  fold_left (keyword_pass request_lower) keywords score
  == score + points (length (filter
       (fun k => PyStr.contains (PyStr.lower k) request_lower) keywords)).
Proof.
  revert score. induction keywords as [|k keywords IH]; intros score; simpl.
  - unfold points. simpl. ring.
  - rewrite IH. unfold keyword_pass.
    destruct (PyStr.contains (PyStr.lower k) request_lower); simpl.
    + rewrite points_succ. ring.
    + reflexivity.
Qed.

Lemma skill_pass_count (o : Orchestrator) (request : string)
  (skills : list AgentSkill) (score : Q) (matched : list string) :
  let found := filter (fun s => _skill_matches_request o (skill_name s) request)
                 skills in
  fst (fold_left (skill_pass o request) skills (score, matched))
  == score + points (length found) * 1.5
  /\ snd (fold_left (skill_pass o request) skills (score, matched))
     = matched ++ map skill_name found.
Proof.
  revert score matched. induction skills as [|s skills IH]; intros score matched; simpl.
  - split; [unfold points; simpl; ring | now rewrite app_nil_r].
  - destruct (_skill_matches_request o (skill_name s) request); simpl.
    + destruct (IH (score + 1.5) (matched ++ [skill_name s])) as [Hs Hm].
      split.
      * rewrite Hs, points_succ. ring.
      * rewrite Hm, <- app_assoc. reflexivity.
    + apply IH.
Qed.


Lemma points_nonneg (n : nat) : 0 <= points n.
Proof.
  unfold points. change 0 with (inject_Z 0). rewrite <- Zle_Qle. lia.
Qed.

(** An agent without a matching tag and without a matching skill scores 0. *)
Lemma no_match_no_score (o : Orchestrator) (req : string) (agent_card : AgentCard) :
  matching_tags req agent_card = [] ->
  matching_skills o req agent_card = [] ->
  fst (_calculate_agent_score o req agent_card) == 0.
Proof.
  unfold matching_tags, matching_skills, _calculate_agent_score. intros Ht Hs.
  destruct (skill_pass_count o req (card_skills agent_card)
              (fold_left (keyword_pass (PyStr.lower req))
                 (card_keywords agent_card) 0.0) []) as [Hscore _].
  rewrite Hscore, keyword_pass_count, Ht, Hs. unfold points. simpl. ring.
Qed.

(** ** The choice of the analyze loop *)

Lemma Qgtb_true (x y : Q) : Qgtb x y = true <-> y < x.
Proof.
  unfold Qgtb. rewrite negb_true_iff.
  destruct (Qle_bool x y) eqn:E.
  - apply Qle_bool_iff in E. split; [discriminate | intros H; lra].
  - split; [intros _ | reflexivity].
    apply Qnot_le_lt. intros H. apply Qle_bool_iff in H. congruence.
Qed.

Lemma selection_inv_step (o : Orchestrator) (req : string) (seen : Registry)
  (sel : Selection) (entry : string * AgentCard) :
  selection_inv o req seen sel ->
  selection_inv o req (seen ++ [entry]) (score_entry o req sel entry).
Proof.
  destruct entry as [k c]. intros [Hall Hbest].
  rewrite score_entry_fields.
  assert (Hk : entry_score o req (k, c) = fst (_calculate_agent_score o req c))
    by reflexivity.
  revert Hk. generalize (entry_score o req (k, c)) as s. intros s Hk.
  rewrite <- Hk.
  destruct (Qgtb s (best_score sel)) eqn:E.
  - apply Qgtb_true in E.
    assert (Hzero : 0 <= best_score sel).
    { destruct (best_agent sel).
      - destruct Hbest as (b & c' & a & _ & _ & H & _). lra.
      - lra. }
    split; cbn [best_score best_agent].
    + intros e He. apply in_app_iff in He. destruct He as [He | [Heq | []]].
      * specialize (Hall e He). lra.
      * subst e. unfold entry_score. cbn [snd]. rewrite <- Hk. lra.
    + exists seen, c, []. repeat split; try lra; try exact Hk.
      intros e He. specialize (Hall e He). lra.
  - apply Qgtb_false in E. split; cbn [best_score best_agent].
    + intros e He. apply in_app_iff in He. destruct He as [He | [Heq | []]].
      * auto.
      * subst e. unfold entry_score. cbn [snd]. rewrite <- Hk. exact E.
    + destruct (best_agent sel) as [agent_id|]; [|exact Hbest].
      destruct Hbest as (before & card & after & -> & Hs & Hpos & Hbefore).
      exists before, card, (after ++ [(k, c)]).
      rewrite <- app_assoc. simpl. auto.
Qed.

Lemma selection_inv_loop (o : Orchestrator) (req : string) (todo seen : Registry)
  (sel : Selection) :
  selection_inv o req seen sel ->
  selection_inv o req (seen ++ todo) (score_from o req todo sel).
Proof.
  unfold score_from. revert seen sel.
  induction todo as [|entry todo IH]; intros seen sel Hinv; cbn [fold_left].
  - now rewrite app_nil_r.
  - replace (seen ++ entry :: todo) with ((seen ++ [entry]) ++ todo)
      by (rewrite <- app_assoc; reflexivity).
    apply IH. now apply selection_inv_step.
Qed.

Lemma selection_inv_all (o : Orchestrator) (req : string) :
  selection_inv o req (agents o) (score_all o req).
Proof.
  unfold score_all.
  apply (@selection_inv_loop o req (agents o) []).
  split; simpl; [tauto | reflexivity].
Qed.

(** X2: the agent that the analyze loop chooses has a score above 0 that no
    agent of the registry exceeds, and every agent before it in the order of
    the registry has a strictly smaller score: among agents with the highest
    score the first one wins. *)
Theorem chosen_agent_is_first_best (o : Orchestrator) (req agent_id : string) :
  best_agent (score_all o req) = Some agent_id ->
  exists before agent_card after,
    agents o = before ++ (agent_id, agent_card) :: after
    /\ best_score (score_all o req)
       = fst (_calculate_agent_score o req agent_card)
    /\ 0 < fst (_calculate_agent_score o req agent_card)
    /\ (forall k c, In (k, c) before ->
          fst (_calculate_agent_score o req c)
          < fst (_calculate_agent_score o req agent_card))
    /\ (forall k c, In (k, c) after ->
          fst (_calculate_agent_score o req c)
          <= fst (_calculate_agent_score o req agent_card)).
Proof.
  intros Hsome. destruct (selection_inv_all o req) as [Hall Hbest].
  rewrite Hsome in Hbest.
  destruct Hbest as (before & card & after & Hreg & Hs & Hpos & Hbefore).
  unfold entry_score in Hs. simpl in Hs.
  exists before, card, after. rewrite <- Hs. repeat split; try assumption.
  - intros k c Hin. exact (Hbefore (k, c) Hin).
  - intros k c Hin. apply (Hall (k, c)). rewrite Hreg.
    apply in_app_iff. right. now right.
Qed.

(** The loop chooses no agent exactly when no agent scores above 0. *)
Lemma no_choice_iff (o : Orchestrator) (req : string) :
  best_agent (score_all o req) = None
  <-> forall k c, In (k, c) (agents o) ->
        fst (_calculate_agent_score o req c) <= 0.
Proof.
  split.
  - intros Hnone k c Hin. destruct (selection_inv_all o req) as [Hall Hbest].
    rewrite Hnone in Hbest. specialize (Hall (k, c) Hin).
    unfold entry_score in Hall. simpl in Hall. lra.
  - intros Hall. unfold score_all. apply no_winner; try reflexivity.
    intros k c Hin. apply Qgtb_false. specialize (Hall k c Hin). lra.
Qed.

(** ** What [process_request] returns *)

(** The two outcomes of [process_request], by whether the chosen identity is
    a key of the registry. *)
Lemma process_request_cases (o : Orchestrator) (net : Network) (env : Ambient)
  (req : string) :
  match Dict.get (fst (winner (score_all o req))) (agents o) with
  | None =>
      process_request o net env req
      = ([], Failure req
               (str_exn (Builtin (KeyError (fst (winner (score_all o req))))))
               (error_uuid env) (error_time env))
  | Some agent_card =>
      exists evs why text meta,
        _generate_reasoning o req (fst (winner (score_all o req)))
          (sel_scores (score_all o req)) (sel_matches (score_all o req)) = Ok why
        /\ process_request o net env req
           = (evs, Success req (fst (winner (score_all o req)))
                     (card_name agent_card)
                     (map skill_name (card_skills agent_card))
                     (py_min (snd (winner (score_all o req)) / 5.0) 1.0)
                     why text meta)
  end.
Proof.
  destruct (winner (score_all o req)) as [chosen score] eqn:Hw. cbn [fst snd].
  destruct (Dict.get chosen (agents o)) as [agent_card|] eqn:Hget.
  - destruct (@analyze_ok o env (initial_state req) chosen score agent_card Hw Hget)
      as (why & meta & Hwhy & Han).
    destruct (@process_success o net env req _ agent_card Han Hget)
      as (evs & text & sv & Hproc).
    exists evs, why, text. eexists. split; [exact Hwhy | exact Hproc].
  - apply process_analyze_raises. unfold _analyze_request.
    change (request (initial_state req)) with req. rewrite Hw.
    unfold _generate_reasoning. rewrite Hget. reflexivity.
Qed.

(** X3: [process_request] returns success false exactly when no registered
    agent scores above 0 and no agent is registered under the key "argocd";
    in every other case it returns success true. *)
Theorem process_fails_only_without_default
  (o : Orchestrator) (net : Network) (env : Ambient) (req : string) :
  envelope_success (snd (process_request o net env req)) = false
  <-> (forall k c, In (k, c) (agents o) ->
         fst (_calculate_agent_score o req c) <= 0)
      /\ Dict.mem "argocd" (agents o) = false.
Proof.
  pose proof (process_request_cases o net env req) as Hcases.
  rewrite <- no_choice_iff. unfold winner in *.
  destruct (best_agent (score_all o req)) as [agent_id|] eqn:Hbest; cbn [fst snd] in *.
  - assert (Hin : In agent_id (Dict.keys (agents o))).
    { apply chosen_is_registered in Hbest. destruct Hbest as [H | H];
        [discriminate | exact H]. }
    apply dict_mem_keys in Hin. unfold Dict.mem in Hin.
    destruct (Dict.get agent_id (agents o)); [|discriminate].
    destruct Hcases as (evs & why & text & meta & _ & ->). simpl.
    split; [discriminate | intros [H _]; discriminate].
  - unfold Dict.mem.
    destruct (Dict.get "argocd" (agents o)).
    + destruct Hcases as (evs & why & text & meta & _ & ->). simpl.
      split; [discriminate | intros [_ H]; discriminate].
    + rewrite Hcases. simpl. tauto.
Qed.

Lemma py_min_unit (x : Q) : 0 < x -> 0 < py_min (x / 5.0) 1.0 /\ py_min (x / 5.0) 1.0 <= 1.
Proof.
  intros Hx. unfold py_min.
  assert (Hinv : / 5.0 == 1 # 5) by reflexivity.
  assert (Hdiv : x / 5.0 == x * (1 # 5)) by (unfold Qdiv; now rewrite Hinv).
  destruct (Qgtb (x / 5.0) 1.0) eqn:E.
  - lra.
  - apply Qgtb_false in E. rewrite Hdiv in *. lra.
Qed.

(** X4: the confidence of every success envelope is above 0 and at most 1. *)
Theorem confidence_in_unit_interval
  (o : Orchestrator) (net : Network) (env : Ambient) (req : string) (conf : Q) :
  envelope_confidence (snd (process_request o net env req)) = Some conf ->
  0 < conf /\ conf <= 1.
Proof.
  pose proof (process_request_cases o net env req) as Hcases.
  destruct (Dict.get (fst (winner (score_all o req))) (agents o)).
  - destruct Hcases as (evs & why & text & meta & _ & ->). simpl.
    intros [= <-]. apply py_min_unit.
    unfold winner.
    destruct (best_agent (score_all o req)) as [agent_id|] eqn:Hbest; cbn [snd].
    + destruct (selection_inv_all o req) as [_ Hsel]. rewrite Hbest in Hsel.
      destruct Hsel as (before & card & after & _ & _ & Hpos & _). exact Hpos.
    + lra.
  - rewrite Hcases. simpl. discriminate.
Qed.

(** ** The reasoning text *)

Lemma append_inj_l (p a b : string) : (p ++ a = p ++ b)%string -> a = b.
Proof.
  induction p as [|c p IH]; simpl; [tauto|]. intros [= H]. auto.
Qed.

Lemma append_assoc (a b c : string) : ((a ++ b) ++ c = a ++ (b ++ c))%string.
Proof.
  induction a as [|x a IH]; simpl; [reflexivity | now rewrite IH].
Qed.

Lemma nodup_keys_in_eq {V} (k : string) (v v' : V) (d : Dict.t V) :
  NoDup (Dict.keys d) -> In (k, v) d -> In (k, v') d -> v = v'.
Proof.
  unfold Dict.keys. induction d as [|[k0 v0] d IH]; simpl; [tauto|].
  intros Hnd. inversion Hnd as [|? ? Hnin Hnd']; subst.
  intros [H1 | H1] [H2 | H2].
  - congruence.
  - inversion H1; subst. exfalso. apply Hnin.
    apply (in_map fst) in H2. exact H2.
  - inversion H2; subst. exfalso. apply Hnin.
    apply (in_map fst) in H1. exact H1.
  - auto.
Qed.

(** The loop leaves the entries of [sel_matches] of other keys alone. *)
Lemma sel_matches_untouched (o : Orchestrator) (req : string) (reg : Registry)
  (acc : Selection) (agent_id : string) :
  ~ In agent_id (Dict.keys reg) ->
  Dict.get agent_id (sel_matches (score_from o req reg acc))
  = Dict.get agent_id (sel_matches acc).
Proof.
  unfold score_from, Dict.keys. revert acc.
  induction reg as [|[k c] reg IH]; intros acc Hnin; cbn [fold_left].
  - reflexivity.
  - simpl in Hnin. rewrite IH by tauto.
    rewrite score_entry_fields. cbn [sel_matches].
    apply dict_get_set_other. tauto.
Qed.

(** In a registry with distinct keys the loop records for each agent the
    skills that matched for it. *)
Lemma sel_matches_recorded (o : Orchestrator) (req : string) (reg : Registry)
  (acc : Selection) (agent_id : string) (agent_card : AgentCard) :
  NoDup (Dict.keys reg) -> In (agent_id, agent_card) reg ->
  Dict.get agent_id (sel_matches (score_from o req reg acc))
  = Some (snd (_calculate_agent_score o req agent_card)).
Proof.
  revert acc. induction reg as [|[k c] reg IH]; intros acc Hnd Hin; [destruct Hin|].
  simpl in Hnd. inversion Hnd as [|? ? Hnin Hnd']; subst.
  destruct Hin as [Heq | Hin].
  - inversion Heq; subst. unfold score_from. cbn [fold_left].
    fold (score_from o req reg
            (score_entry o req acc (agent_id, agent_card))).
    rewrite sel_matches_untouched by exact Hnin.
    rewrite score_entry_fields. cbn [sel_matches].
    apply dict_get_set_same.
  - unfold score_from. cbn [fold_left]. apply IH; assumption.
Qed.

(** The skills that the scoring records are the names of the skills that
    match, in card order. *)
Lemma matched_skill_names (o : Orchestrator) (req : string) (agent_card : AgentCard) :
  snd (_calculate_agent_score o req agent_card)
  = map skill_name (matching_skills o req agent_card).
Proof.
  unfold _calculate_agent_score, matching_skills.
  destruct (skill_pass_count o req (card_skills agent_card)
              (fold_left (keyword_pass (PyStr.lower req))
                 (card_keywords agent_card) 0.0) []) as [_ Hm].
  exact Hm.
Qed.

(** X5: in a registry with distinct keys, the reasoning of a success envelope
    is "Selected <name> using default ArgoCD agent" exactly when the analyze
    loop chose no agent and the default was taken; and when the loop chose an
    agent, that agent has a matching tag or a matching skill, and the
    reasoning names them: "Selected <name> based on keywords: <tags>",
    "Selected <name> based on skills: <skills>", or both joined by
    "and skills:". *)
Theorem reasoning_names_default_iff
  (o : Orchestrator) (net : Network) (env : Ambient) (req : string)
  (agent_id name : string) (skills : list string) (conf : Q) (why : string)
  (text : Text) (meta : Metadata) :
  NoDup (Dict.keys (agents o)) ->
  snd (process_request o net env req)
  = Success req agent_id name skills conf why text meta ->
  (why = ("Selected " ++ name ++ " using default ArgoCD agent")%string
   <-> best_agent (score_all o req) = None)
  /\ (best_agent (score_all o req) <> None ->
      exists agent_card,
        Dict.get agent_id (agents o) = Some agent_card
        /\ (matching_tags req agent_card <> []
            \/ matching_skills o req agent_card <> [])
        /\ why
           = ("Selected " ++ name
              ++ match matching_tags req agent_card,
                       map skill_name (matching_skills o req agent_card) with
                 | [], names => " based on skills: " ++ PyStr.join ", " names
                 | keywords, [] =>
                     " based on keywords: " ++ PyStr.join ", " keywords
                 | keywords, names =>
                     " based on keywords: " ++ PyStr.join ", " keywords
                       ++ " and skills: " ++ PyStr.join ", " names
                 end)%string).
Proof.
  intros Hnd Henv.
  pose proof (process_request_cases o net env req) as Hcases.
  destruct (Dict.get (fst (winner (score_all o req))) (agents o))
    as [agent_card|] eqn:Hget;
    [|rewrite Hcases in Henv; discriminate].
  destruct Hcases as (evs & why' & text' & meta' & Hwhy & Hproc).
  rewrite Hproc in Henv. cbn [snd] in Henv.
  injection Henv as Hid Hname _ _ Hwhy' _ _. subst why' name.
  revert Hwhy. unfold _generate_reasoning. rewrite Hget.
  fold (matching_tags req agent_card).
  pose proof (dict_get_in _ _ Hget) as Hin.
  unfold Dict.get_or.
  rewrite (@sel_matches_recorded o req (agents o)
             (mkSel None 0.0 Dict.empty Dict.empty) _ _ Hnd Hin
           : Dict.get _ (sel_matches (score_all o req)) = _).
  rewrite matched_skill_names.
  assert (Hscore : best_agent (score_all o req) <> None ->
                   0 < fst (_calculate_agent_score o req agent_card)).
  { intros Hsome. destruct (selection_inv_all o req) as [_ Hsel].
    unfold winner in Hin.
    destruct (best_agent (score_all o req)) as [chosen|]; [|congruence].
    destruct Hsel as (before & card & after & Hreg & Hs & Hpos & _).
    cbn [fst] in Hin.
    assert (Hin' : In (chosen, card) (agents o)).
    { rewrite Hreg. apply in_app_iff. right. now left. }
    rewrite (nodup_keys_in_eq _ _ _ _ Hnd Hin Hin').
    unfold entry_score in Hs. cbn [snd] in Hs. now rewrite <- Hs. }
  assert (Hnone : best_agent (score_all o req) = None ->
                  matching_tags req agent_card = []
                  /\ map skill_name (matching_skills o req agent_card) = []).
  { intros Hn. rewrite <- matched_skill_names.
    apply no_score_no_match. apply Qgtb_false.
    assert (H : fst (_calculate_agent_score o req agent_card) <= 0)
      by (apply (proj1 (no_choice_iff o req) Hn _ _ Hin)).
    lra. }
  destruct (best_agent (score_all o req)) as [chosen|] eqn:Hbest.
  - specialize (Hscore ltac:(discriminate)).
    assert (Hsome_match : matching_tags req agent_card <> []
                          \/ matching_skills o req agent_card <> []).
    { destruct (matching_tags req agent_card) eqn:Et; [|left; discriminate].
      destruct (matching_skills o req agent_card) eqn:Es;
        [|right; discriminate].
      exfalso. pose proof (no_match_no_score o req agent_card Et Es). lra. }
    intros Hwhy.
    assert (Hform :
              why
              = ("Selected " ++ card_name agent_card
                 ++ match matching_tags req agent_card,
                          map skill_name (matching_skills o req agent_card) with
                    | [], names => " based on skills: " ++ PyStr.join ", " names
                    | keywords, [] =>
                        " based on keywords: " ++ PyStr.join ", " keywords
                    | keywords, names =>
                        " based on keywords: " ++ PyStr.join ", " keywords
                          ++ " and skills: " ++ PyStr.join ", " names
                    end)%string).
    { revert Hwhy Hsome_match.
      destruct (matching_tags req agent_card) as [|t ts];
        destruct (matching_skills o req agent_card) as [|m ms];
        cbn [app PyStr.join map]; intros [= <-] Hm.
      - destruct Hm; congruence.
      - reflexivity.
      - reflexivity.
      - reflexivity. }
    split.
    + split; [|discriminate]. intros Heq. exfalso.
      rewrite Hform in Heq. simpl in Heq. injection Heq as Heq.
      apply append_inj_l in Heq. revert Heq Hsome_match.
      destruct (matching_tags req agent_card) as [|t ts];
        destruct (map skill_name (matching_skills o req agent_card)) as [|m ms];
        intros Heq Hm; discriminate.
    + intros _. exists agent_card. rewrite <- Hid.
      split; [exact Hget|]. split; [exact Hsome_match | exact Hform].
  - destruct (Hnone eq_refl) as [-> ->]. cbn [app PyStr.join].
    intros [= <-]. split; [simpl; tauto | intros H; now destruct H].
Qed.

(** ** The keywords of the index *)

Lemma lower_char_idem (c : ascii) :
  PyStr.lower_char (PyStr.lower_char c) = PyStr.lower_char c.
Proof.
  destruct c as [[] [] [] [] [] [] [] []]; reflexivity.
Qed.

Lemma lower_idem (s : string) : PyStr.lower (PyStr.lower s) = PyStr.lower s.
Proof.
  induction s as [|c s IH]; simpl; [reflexivity|].
  now rewrite lower_char_idem, IH.
Qed.

Lemma is_lower_cons (c : ascii) (s : string) :
  is_lower (String c s) <-> PyStr.lower_char c = c /\ is_lower s.
Proof.
  unfold is_lower. simpl. split.
  - intros [= Hc Hs]. auto.
  - intros [-> ->]. reflexivity.
Qed.

Lemma normalized_name_lower (name : string) : is_lower (normalized_name name).
Proof.
  unfold normalized_name.
  assert (H : forall s, is_lower s -> is_lower (PyStr.replace_char "_" " " s)).
  { induction s as [|c s IH]; simpl; [auto|].
    rewrite !is_lower_cons. intros [Hc Hs]. split; [|auto].
    destruct (Ascii.eqb c "_"); [reflexivity | exact Hc]. }
  apply H. apply lower_idem.
Qed.

Lemma string_of_chars_lower (l : list ascii) :
  Forall (fun c => PyStr.lower_char c = c) l -> is_lower (string_of_list_ascii l).
Proof.
  induction 1 as [|c l Hc Hl IH]; simpl; [reflexivity|].
  apply is_lower_cons. auto.
Qed.

Lemma split_aux_lower (s : string) (cur : list ascii) :
  Forall (fun c => PyStr.lower_char c = c) cur -> is_lower s ->
  Forall is_lower (PyStr.split_aux cur s).
Proof.
  revert cur. induction s as [|c s IH]; intros cur Hcur Hs; simpl.
  - destruct cur; [constructor|].
    repeat constructor. apply string_of_chars_lower. now apply Forall_rev.
  - apply is_lower_cons in Hs. destruct Hs as [Hc Hs].
    destruct (PyStr.is_space c).
    + apply Forall_app. split; [|apply IH; [constructor | exact Hs]].
      destruct cur; [constructor|].
      repeat constructor. apply string_of_chars_lower. now apply Forall_rev.
    + apply IH; [constructor; assumption | exact Hs].
Qed.

Lemma desc_words_lower (description : string) :
  Forall is_lower (desc_words description).
Proof.
  unfold desc_words, PyStr.split.
  assert (H : Forall is_lower (PyStr.split_aux [] (PyStr.lower description))).
  { apply split_aux_lower; [constructor | apply lower_idem]. }
  revert H. generalize (PyStr.split_aux [] (PyStr.lower description)) 3%nat.
  intros l n H. revert n.
  induction H as [|w l Hw Hl IH]; intros [|n]; simpl; constructor; auto.
Qed.

Lemma lowered_id (kws : list string) : Forall is_lower kws -> lowered kws = kws.
Proof.
  unfold lowered. induction 1 as [|k kws Hk Hkws IH]; simpl; [reflexivity|].
  now rewrite Hk, IH.
Qed.

Lemma mem_in (x : string) (l : list string) : PyStr.mem x l = true <-> In x l.
Proof.
  unfold PyStr.mem. rewrite existsb_exists. split.
  - intros (y & Hy & Heq). apply String.eqb_eq in Heq. now subst.
  - intros H. exists x. split; [exact H | apply String.eqb_refl].
Qed.

(** Adding a lower-case keyword that is not in the list. *)
Lemma keywords_ok_add (kws : list string) (k : string) :
  keywords_ok kws -> is_lower k ->
  keywords_ok (if PyStr.mem k (lowered kws) then kws else kws ++ [k]).
Proof.
  intros [Hl Hnd] Hk. rewrite (lowered_id Hl).
  destruct (PyStr.mem k kws) eqn:E; [split; assumption|].
  split.
  - apply Forall_app. split; [exact Hl | repeat constructor; exact Hk].
  - apply NoDup_app; [exact Hnd | repeat constructor; simpl; tauto|].
    intros x Hx [<- | []]. apply mem_in in Hx. congruence.
Qed.

Lemma add_tag_ok (kws : list string) (tag : string) :
  keywords_ok kws -> keywords_ok (add_tag kws tag).
Proof.
  intros H. apply (keywords_ok_add H). apply lower_idem.
Qed.

Lemma add_tags_ok (tags kws : list string) :
  keywords_ok kws -> keywords_ok (fold_left add_tag tags kws).
Proof.
  revert kws. induction tags as [|t tags IH]; intros kws H; simpl; [exact H|].
  apply IH. now apply add_tag_ok.
Qed.

Lemma add_desc_word_ok (kws : list string) (word : string) :
  keywords_ok kws -> is_lower word -> keywords_ok (add_desc_word kws word).
Proof.
  intros H Hw. unfold add_desc_word.
  pose proof (keywords_ok_add H Hw) as Hadd.
  destruct (2 <? String.length word)%nat; simpl; [|exact H].
  destruct (PyStr.mem word (lowered kws)); simpl; assumption.
Qed.

Lemma add_desc_words_ok (words kws : list string) :
  Forall is_lower words -> keywords_ok kws ->
  keywords_ok (fold_left add_desc_word words kws).
Proof.
  intros Hw. revert kws. induction Hw as [|w words Hw Hws IH]; intros kws H; simpl.
  - exact H.
  - apply IH. now apply add_desc_word_ok.
Qed.

Lemma skill_keyword_list_ok (skill : AgentSkill) (kws : list string) :
  keywords_ok kws -> keywords_ok (skill_keyword_list skill kws).
Proof.
  intros H. unfold skill_keyword_list.
  apply add_desc_words_ok; [apply desc_words_lower|].
  apply (keywords_ok_add (add_tags_ok (skill_tags skill) H)
           (normalized_name_lower (skill_name skill))).
Qed.

Lemma keywords_ok_nil : keywords_ok [].
Proof. split; constructor. Qed.

Lemma index_skill_ok (kw : SkillKeywords) (skill : AgentSkill) :
  index_ok kw -> index_ok (index_skill kw skill).
Proof.
  intros Hkw name kws. unfold index_skill.
  destruct (String.eqb (skill_name skill) name) eqn:E.
  - apply String.eqb_eq in E. subst name. rewrite dict_get_set_same.
    intros [= <-]. apply skill_keyword_list_ok. unfold Dict.get_or.
    destruct (Dict.mem (skill_name skill) kw) eqn:Em.
    + unfold Dict.mem in Em.
      destruct (Dict.get (skill_name skill) kw) as [l|] eqn:Eg; [|discriminate].
      exact (Hkw _ _ Eg).
    + rewrite dict_get_set_same. apply keywords_ok_nil.
  - apply String.eqb_neq in E. rewrite dict_get_set_other by exact E.
    destruct (Dict.mem (skill_name skill) kw).
    + apply Hkw.
    + rewrite dict_get_set_other by exact E. apply Hkw.
Qed.

Lemma rebuild_index_ok (reg : Registry) : index_ok (rebuild_index reg).
Proof.
  unfold rebuild_index.
  assert (H : forall kw, index_ok kw -> index_ok (fold_left index_agent reg kw)).
  { induction reg as [|[k c] reg IH]; intros kw Hkw; simpl; [exact Hkw|].
    apply IH. unfold index_agent. simpl.
    generalize dependent kw. induction (card_skills c) as [|s skills IHs];
      intros kw Hkw; simpl; [exact Hkw|].
    apply IHs. now apply index_skill_ok. }
  apply H. intros name kws. discriminate.
Qed.

(** X6: every keyword that the rebuilt index holds for a skill is in lower
    case, and no keyword is held twice for the same skill. *)
Theorem index_keywords_lower_distinct
  (reg : Registry) (name : string) (kws : list string) :
  Dict.get name (rebuild_index reg) = Some kws ->
  (forall k, In k kws -> PyStr.lower k = k) /\ NoDup kws.
Proof.
  intros H. destruct (rebuild_index_ok reg _ H) as [Hl Hnd].
  split; [|exact Hnd].
  intros k Hk. exact (proj1 (Forall_forall _ _) Hl k Hk).
Qed.

(** The rebuild only ever adds behind the keywords that a skill has. *)
Lemma add_tags_extend (tags kws : list string) :
  exists more, fold_left add_tag tags kws = kws ++ more.
Proof.
  revert kws. induction tags as [|t tags IH]; intros kws; simpl.
  - exists []. now rewrite app_nil_r.
  - destruct (IH (add_tag kws t)) as [more ->]. unfold add_tag.
    destruct (PyStr.mem (PyStr.lower t) (lowered kws)).
    + now exists more.
    + exists (PyStr.lower t :: more). now rewrite <- app_assoc.
Qed.

Lemma skill_keyword_list_extends (skill : AgentSkill) (kws : list string) :
  exists more, skill_keyword_list skill kws = kws ++ more.
Proof.
  unfold skill_keyword_list.
  destruct (add_tags_extend (skill_tags skill) kws) as [m1 ->].
  destruct (add_desc_words_extend (desc_words (skill_description skill))
              (add_skill_name (skill_name skill) (kws ++ m1))) as [m3 ->].
  unfold add_skill_name.
  destruct (PyStr.mem _ (lowered (kws ++ m1))).
  - exists (m1 ++ m3). now rewrite app_assoc.
  - exists (m1 ++ [PyStr.replace_char "_" " " (PyStr.lower (skill_name skill))] ++ m3).
    now rewrite <- !app_assoc.
Qed.

Lemma add_tags_has (tags kws : list string) (tag : string) :
  Forall is_lower kws -> In tag tags ->
  In (PyStr.lower tag) (fold_left add_tag tags kws).
Proof.
  revert kws. induction tags as [|t tags IH]; intros kws Hl Hin;
    [destruct Hin|]; destruct Hin as [Heq | Hin]; simpl.
  - subst t. destruct (add_tags_extend tags (add_tag kws tag)) as [more ->].
    apply in_app_iff. left. unfold add_tag. rewrite (lowered_id Hl).
    destruct (PyStr.mem (PyStr.lower tag) kws) eqn:E.
    + now apply mem_in.
    + apply in_app_iff. right. now left.
  - apply IH; [|exact Hin].
    unfold add_tag. destruct (PyStr.mem (PyStr.lower t) (lowered kws)); [exact Hl|].
    apply Forall_app. split; [exact Hl|]. repeat constructor. apply lower_idem.
Qed.

(** After the rebuild has seen a skill, the lower-cased tags and the
    normalized name of the skill are among its keywords. *)
Lemma skill_keyword_list_has (skill : AgentSkill) (kws : list string) (k : string) :
  keywords_ok kws ->
  (exists tag, In tag (skill_tags skill) /\ k = PyStr.lower tag)
  \/ k = normalized_name (skill_name skill) ->
  In k (skill_keyword_list skill kws).
Proof.
  intros Hok Hk. unfold skill_keyword_list.
  destruct (add_desc_words_extend (desc_words (skill_description skill))
              (add_skill_name (skill_name skill)
                 (fold_left add_tag (skill_tags skill) kws))) as [more ->].
  apply in_app_iff. left.
  pose proof (add_tags_ok (skill_tags skill) Hok) as [Hl' _].
  unfold add_skill_name. rewrite (lowered_id Hl').
  fold (normalized_name (skill_name skill)).
  destruct Hk as [(tag & Hin & ->) | ->].
  - pose proof (add_tags_has (skill_tags skill) tag (proj1 Hok) Hin) as H.
    destruct (PyStr.mem _ _); [exact H | apply in_app_iff; now left].
  - destruct (PyStr.mem _ _) eqn:E.
    + now apply mem_in.
    + apply in_app_iff. right. now left.
Qed.

Lemma keywords_of_index_skill (kw : SkillKeywords) (skill : AgentSkill) :
  keywords_of (index_skill kw skill) (skill_name skill)
  = skill_keyword_list skill (keywords_of kw (skill_name skill)).
Proof.
  unfold keywords_of, index_skill, Dict.get_or. rewrite dict_get_set_same.
  destruct (Dict.mem (skill_name skill) kw) eqn:E; [reflexivity|].
  rewrite dict_get_set_same. unfold Dict.mem in E.
  now destruct (Dict.get (skill_name skill) kw).
Qed.

Lemma keywords_of_ok (kw : SkillKeywords) (name : string) :
  index_ok kw -> keywords_ok (keywords_of kw name).
Proof.
  intros H. unfold keywords_of, Dict.get_or.
  destruct (Dict.get name kw) eqn:E; [exact (H _ _ E) | apply keywords_ok_nil].
Qed.

(** A keyword that a skill name has stays when the rebuild goes on. *)
Lemma index_skill_keeps (kw : SkillKeywords) (skill : AgentSkill)
  (name k : string) :
  In k (keywords_of kw name) -> In k (keywords_of (index_skill kw skill) name).
Proof.
  intros H. destruct (String.eqb (skill_name skill) name) eqn:E.
  - apply String.eqb_eq in E. subst name. rewrite keywords_of_index_skill.
    destruct (skill_keyword_list_extends skill (keywords_of kw (skill_name skill)))
      as [more ->].
    apply in_app_iff. now left.
  - apply String.eqb_neq in E. revert H.
    unfold keywords_of, index_skill, Dict.get_or.
    rewrite dict_get_set_other by exact E.
    destruct (Dict.mem (skill_name skill) kw); [tauto|].
    now rewrite dict_get_set_other by exact E.
Qed.

Lemma index_skills_keep (skills : list AgentSkill) (kw : SkillKeywords)
  (name k : string) :
  In k (keywords_of kw name) ->
  In k (keywords_of (fold_left index_skill skills kw) name).
Proof.
  revert kw. induction skills as [|s skills IH]; intros kw H; simpl; [exact H|].
  apply IH. now apply index_skill_keeps.
Qed.

Lemma index_skills_ok (skills : list AgentSkill) (kw : SkillKeywords) :
  index_ok kw -> index_ok (fold_left index_skill skills kw).
Proof.
  revert kw. induction skills as [|s skills IH]; intros kw H; simpl; [exact H|].
  apply IH. now apply index_skill_ok.
Qed.

Lemma index_skills_have (skills : list AgentSkill) (kw : SkillKeywords)
  (skill : AgentSkill) (k : string) :
  index_ok kw -> In skill skills ->
  (exists tag, In tag (skill_tags skill) /\ k = PyStr.lower tag)
  \/ k = normalized_name (skill_name skill) ->
  In k (keywords_of (fold_left index_skill skills kw) (skill_name skill)).
Proof.
  revert kw. induction skills as [|s skills IH]; intros kw Hok Hin Hk;
    [destruct Hin|]; destruct Hin as [Heq | Hin]; simpl.
  - subst s. apply index_skills_keep. rewrite keywords_of_index_skill.
    apply skill_keyword_list_has; [now apply keywords_of_ok | exact Hk].
  - apply IH; [now apply index_skill_ok | exact Hin | exact Hk].
Qed.

Lemma index_agents_have (reg : Registry) (kw : SkillKeywords)
  (agent_id : string) (agent_card : AgentCard) (skill : AgentSkill) (k : string) :
  index_ok kw -> In (agent_id, agent_card) reg -> In skill (card_skills agent_card) ->
  (exists tag, In tag (skill_tags skill) /\ k = PyStr.lower tag)
  \/ k = normalized_name (skill_name skill) ->
  In k (keywords_of (fold_left index_agent reg kw) (skill_name skill)).
Proof.
  revert kw. induction reg as [|[id c] reg IH]; intros kw Hok Hin Hs Hk;
    [destruct Hin|]; destruct Hin as [Heq | Hin]; simpl.
  - inversion Heq; subst.
    assert (Hkeep : forall reg' kw', In k (keywords_of kw' (skill_name skill)) ->
              In k (keywords_of (fold_left index_agent reg' kw') (skill_name skill))).
    { induction reg' as [|[id' c'] reg' IH']; intros kw' H; simpl; [exact H|].
      apply IH'. unfold index_agent. simpl. now apply index_skills_keep. }
    apply Hkeep. unfold index_agent. simpl. now apply index_skills_have.
  - apply IH; try assumption. unfold index_agent. simpl. now apply index_skills_ok.
Qed.

(** X7: for every skill of a registered agent, the rebuilt index holds under
    the skill's name each tag of the skill in lower case and the skill's name
    in lower case with spaces for underscores, also when another agent has a
    skill of the same name. *)
Theorem tags_and_name_are_keywords
  (reg : Registry) (agent_id : string) (agent_card : AgentCard) (skill : AgentSkill) :
  In (agent_id, agent_card) reg -> In skill (card_skills agent_card) ->
  (forall tag, In tag (skill_tags skill) ->
     In (PyStr.lower tag) (keywords_of (rebuild_index reg) (skill_name skill)))
  /\ In (normalized_name (skill_name skill))
        (keywords_of (rebuild_index reg) (skill_name skill)).
Proof.
  intros Hin Hs.
  assert (Hok : index_ok (Dict.empty : SkillKeywords))
    by (intros name kws; discriminate).
  split.
  - intros tag Htag. unfold rebuild_index.
    apply (@index_agents_have reg Dict.empty agent_id agent_card skill _ Hok Hin Hs).
    left. exists tag. auto.
  - unfold rebuild_index.
    apply (@index_agents_have reg Dict.empty agent_id agent_card skill _ Hok Hin Hs).
    now right.
Qed.

Lemma points_pos {A} (f : A -> bool) (l : list A) (x : A) :
  In x l -> f x = true -> 1 <= points (length (filter f l)).
Proof.
  intros Hin Hf.
  assert (Hx : In x (filter f l)) by (apply filter_In; auto).
  destruct (filter f l) as [|y ys]; [destruct Hx|].
  simpl length. rewrite points_succ. pose proof (points_nonneg (length ys)). lra.
Qed.

(** X8: for a registered agent whose index is the rebuild of the registry, a
    tag that the keyword pass finds in the request makes the skill that
    carries the tag match as well, so a score that counts a tag is at least
    2.5. *)
Theorem tag_match_brings_skill_match
  (o : Orchestrator) (req agent_id tag : string) (agent_card : AgentCard)
  (skill : AgentSkill) :
  skill_keywords o = rebuild_index (agents o) ->
  In (agent_id, agent_card) (agents o) ->
  In skill (card_skills agent_card) ->
  In tag (skill_tags skill) ->
  PyStr.contains (PyStr.lower tag) (PyStr.lower req) = true ->
  _skill_matches_request o (skill_name skill) req = true
  /\ In (skill_name skill) (snd (_calculate_agent_score o req agent_card))
  /\ 2.5 <= fst (_calculate_agent_score o req agent_card).
Proof.
  intros Hindex Hin Hs Htag Hfound.
  assert (Hmatch : _skill_matches_request o (skill_name skill) req = true).
  { unfold _skill_matches_request. rewrite Hindex. apply existsb_exists.
    exists (PyStr.lower tag). split; [|exact Hfound].
    assert (Hok : index_ok (Dict.empty : SkillKeywords))
      by (intros name kws; discriminate).
    apply (@index_agents_have (agents o) Dict.empty agent_id agent_card skill _
             Hok Hin Hs).
    left. exists tag. auto. }
  split; [exact Hmatch|].
  unfold _calculate_agent_score.
  destruct (skill_pass_count o req (card_skills agent_card)
              (fold_left (keyword_pass (PyStr.lower req))
                 (card_keywords agent_card) 0.0) []) as [Hscore Hm].
  split.
  - rewrite Hm. simpl. apply in_map. apply filter_In. auto.
  - rewrite Hscore, keyword_pass_count.
    assert (Ht : 1 <= points (length (filter
              (fun k => PyStr.contains (PyStr.lower k) (PyStr.lower req))
              (card_keywords agent_card)))).
    { apply (points_pos _ _ tag); [|exact Hfound].
      unfold card_keywords. apply in_flat_map. exists skill. auto. }
    assert (Hk : 1 <= points (length (filter
              (fun s => _skill_matches_request o (skill_name s) req)
              (card_skills agent_card)))).
    { apply (points_pos _ _ skill); assumption. }
    lra.
Qed.

(** ** What the forwarder returns and raises *)

(** X9: whatever the agents answer, an exception that leaves the forwarder is
    an [Exception] whose message is "HTTP error <code>: <text>" or starts
    with "Request forwarding failed: "; no built-in exception escapes. *)
Theorem forwarder_raises_only_wrapped
  (net : Network) (endpoint req : string) (e : exn) :
  snd (_forward_request_to_agent net endpoint req) = Raise e ->
  (exists code text,
     e = Exception [Lit ("HTTP error " ++ str_int code ++ ": " ++ text)])
  \/ (exists msg, e = Exception (Lit "Request forwarding failed: " :: msg)).
Proof.
  unfold _forward_request_to_agent.
  destruct (forward_body net endpoint req) as [evs [actual | e0]]; cbn [snd];
    [discriminate|].
  intros [= <-].
  destruct e0 as [msg | [key | v | v | code text | msg]]; simpl; eauto.
Qed.

(** The events of [process_request] are those of forwarding to the chosen
    agent. *)
Lemma process_request_events (o : Orchestrator) (net : Network) (env : Ambient)
  (req : string) :
  match Dict.get (fst (winner (score_all o req))) (agents o) with
  | None => fst (process_request o net env req) = []
  | Some agent_card =>
      fst (process_request o net env req)
      = fst (_forward_request_to_agent net (card_url agent_card) req)
  end.
Proof.
  pose proof (process_request_cases o net env req) as Hcases.
  destruct (winner (score_all o req)) as [chosen score] eqn:Hw. cbn [fst snd] in *.
  destruct (Dict.get chosen (agents o)) as [agent_card|] eqn:Hget.
  - destruct (@analyze_ok o env (initial_state req) chosen score agent_card Hw Hget)
      as (why & meta & _ & Han).
    destruct (_forward_request_to_agent net (card_url agent_card) req)
      as [evs [actual | e]] eqn:Hfw.
    + now rewrite (@process_forward_returns o net env req _ agent_card evs actual
                     Han Hget Hfw).
    + now rewrite (@process_forward_raises o net env req _ agent_card evs e
                     Han Hget Hfw).
  - now rewrite Hcases.
Qed.

(** X10: everything that [process_request] sends goes to the endpoint of the
    agent it selected: one [message/send] with the text of the request, then
    at most 30 polls of one task, each after a sleep of one second; when the
    selected identity is not registered nothing is sent. *)
Theorem requests_go_to_selected_agent
  (o : Orchestrator) (net : Network) (env : Ambient) (req : string) :
  match Dict.get (fst (winner (score_all o req))) (agents o) with
  | None => fst (process_request o net env req) = []
  | Some agent_card =>
      exists n task_id,
        (n <= 30)%nat
        /\ fst (process_request o net env req)
           = Post (card_url agent_card) (MessageSend req)
               :: poll_events (card_url agent_card) task_id n
  end.
Proof.
  pose proof (process_request_events o net env req) as Hev.
  destruct (Dict.get (fst (winner (score_all o req))) (agents o))
    as [agent_card|]; [|exact Hev].
  rewrite Hev. apply forward_bounded.
Qed.

(** A round in which the answer ends the loop, after rounds that were all
    pending. *)
Lemma poll_loop_done (net : Network) (endpoint : string) (task_id : json)
  (k remaining attempt : nat) (get_result r : json) :
  (k < remaining)%nat ->
  pending_between net endpoint task_id attempt k ->
  on_get net endpoint task_id (attempt + k) = Responds get_result ->
  poll_once get_result = Ok (Some r) ->
  poll_loop net endpoint task_id attempt remaining
  = (poll_events endpoint task_id (S k), Ok r).
Proof.
  revert remaining attempt.
  induction k as [|k IH]; intros remaining attempt Hlt Hp Hg Hr;
    destruct remaining as [|remaining]; try lia; cbn [poll_loop].
  - rewrite Nat.add_0_r in Hg. rewrite Hg, Hr. reflexivity.
  - apply pending_between_tail in Hp. destruct Hp as [(g & Hg' & Hpend) Hrest].
    rewrite Hg', (poll_once_pending _ Hpend).
    rewrite (IH remaining (S attempt)); try assumption; try lia.
    + reflexivity.
    + now rewrite Nat.add_succ_comm.
Qed.

Lemma first_text_part_spec (kind_key default : string) (parts : list json) :
  forallb Py.is_dict parts = true ->
  first_text_part kind_key default parts = Ok (first_text kind_key default parts).
Proof.
  unfold first_text. induction parts as [|part parts IH]; simpl; [reflexivity|].
  destruct part as [| b | q | s | items | fields]; simpl; try discriminate.
  intros Hall. destruct (Py.eq_str (Dict.get_or kind_key JNull fields) "text").
  - reflexivity.
  - exact (IH Hall).
Qed.

Lemma first_text_app (kind_key default : string) (a b : list json) :
  forallb Py.is_dict a = true ->
  first_text kind_key default (a ++ b)
  = match first_text kind_key default a with
    | Some text => Some text
    | None => first_text kind_key default b
    end.
Proof.
  unfold first_text. induction a as [|part a IH]; simpl; [reflexivity|].
  destruct part as [| b0 | q | s | items | fields]; simpl; try discriminate.
  intros Hall. destruct (Py.eq_str (Dict.get_or kind_key JNull fields) "text").
  - reflexivity.
  - exact (IH Hall).
Qed.

Lemma parts_of_dicts (artifact : json) (items : list json) :
  parts_of artifact = Some items ->
  forallb Py.is_dict items = true
  /\ Py.get artifact "parts" (JArr []) = Ok (JArr items).
Proof.
  unfold parts_of. destruct artifact as [| b | q | s | l | fields]; try discriminate.
  simpl. destruct (Dict.get_or "parts" (JArr []) fields) as [| b | q | s | l | f];
    try discriminate.
  destruct (forallb Py.is_dict l) eqn:E; [|discriminate].
  intros [= <-]. auto.
Qed.

Lemma first_artifact_text_spec (artifacts parts : list json) :
  all_parts artifacts = Some parts ->
  first_artifact_text artifacts
  = Ok (first_text "kind" "No text in response" parts)
  /\ forallb Py.is_dict parts = true.
Proof.
  revert parts. induction artifacts as [|artifact rest IH]; intros parts; simpl.
  - intros [= <-]. split; reflexivity.
  - destruct (parts_of artifact) as [items|] eqn:Ep; [|discriminate].
    destruct (all_parts rest) as [more|]; [|discriminate].
    intros [= <-]. destruct (parts_of_dicts _ Ep) as [Hd Hget].
    destruct (IH more eq_refl) as [Hrest Hdm].
    rewrite Hget. cbn [bind Py.iter].
    rewrite (first_text_part_spec _ _ _ Hd). cbn [bind].
    rewrite (first_text_app _ _ _ more Hd), forallb_app, Hd, Hdm.
    split; [|reflexivity].
    destruct (first_text "kind" "No text in response" items); [reflexivity|].
    exact Hrest.
Qed.

(** X11: when a task is pending for [k] polls and then reports completed with
    a list of well-formed artifacts, the forwarder makes exactly [k + 1] polls
    and returns the text of the first part of kind "text", in artifact order
    then part order; "No text in response" when that part has no text, and
    "Task completed but no response text found" when there is no such part. *)
Theorem completed_task_returns_first_text
  (net : Network) (endpoint req : string)
  (send_result task_id get_result : json) (k : nat)
  (task_fields : list (string * json)) (artifacts parts : list json) :
  on_send net endpoint req = Responds send_result ->
  classify_send send_result = Ok (IsTask task_id) ->
  (k < 30)%nat ->
  pending_between net endpoint task_id 0 k ->
  on_get net endpoint task_id k = Responds get_result ->
  task_view get_result = Ok (Some (JObj task_fields, JStr "completed")) ->
  Dict.get "artifacts" task_fields = Some (JArr artifacts) ->
  all_parts artifacts = Some parts ->
  _forward_request_to_agent net endpoint req
  = (Post endpoint (MessageSend req) :: poll_events endpoint task_id (S k),
     Ok (or_default (first_text "kind" "No text in response" parts)
           "Task completed but no response text found")).
Proof.
  intros Hs Hc Hk Hp Hg Hview Hart Hparts.
  unfold _forward_request_to_agent.
  rewrite (@forward_task net endpoint req send_result task_id Hs Hc).
  rewrite (@poll_loop_done net endpoint task_id k max_attempts 0 get_result
             (or_default (first_text "kind" "No text in response" parts)
                "Task completed but no response text found")); try assumption.
  - reflexivity.
  - unfold poll_once. rewrite Hview. cbn [bind Py.eq_str String.eqb].
    replace (Py.eq_str (JStr "completed") "completed") with true by reflexivity.
    unfold completed_response. cbn [Py.get]. unfold Dict.get_or. rewrite Hart.
    cbn [bind Py.truthy Py.iter].
    destruct (first_artifact_text_spec artifacts Hparts) as [Hfirst _].
    destruct artifacts as [|a rest].
    + simpl in Hparts. injection Hparts as <-. reflexivity.
    + rewrite Hfirst. reflexivity.
Qed.

(** X12: when a task is pending for [k] polls and then reports
    input-required with a status message whose parts are objects, the
    forwarder makes exactly [k + 1] polls and returns, without raising, the
    text of the first part of kind "text" of that message; "No text in
    input-required response" when that part has no text, and "Agent requires
    input but no message provided" when there is no such part. *)
Theorem input_required_returns_message_text
  (net : Network) (endpoint req : string)
  (send_result task_id get_result : json) (k : nat)
  (task_fields status_fields message_fields : list (string * json))
  (parts : list json) :
  on_send net endpoint req = Responds send_result ->
  classify_send send_result = Ok (IsTask task_id) ->
  (k < 30)%nat ->
  pending_between net endpoint task_id 0 k ->
  on_get net endpoint task_id k = Responds get_result ->
  task_view get_result = Ok (Some (JObj task_fields, JStr "input-required")) ->
  Dict.get "status" task_fields = Some (JObj status_fields) ->
  Dict.get "message" status_fields = Some (JObj message_fields) ->
  Dict.get "parts" message_fields = Some (JArr parts) ->
  forallb Py.is_dict parts = true ->
  _forward_request_to_agent net endpoint req
  = (Post endpoint (MessageSend req) :: poll_events endpoint task_id (S k),
     Ok (or_default (first_text "kind" "No text in input-required response" parts)
           "Agent requires input but no message provided")).
Proof.
  intros Hs Hc Hk Hp Hg Hview Hstatus Hmessage Hparts Hdicts.
  unfold _forward_request_to_agent.
  rewrite (@forward_task net endpoint req send_result task_id Hs Hc).
  rewrite (@poll_loop_done net endpoint task_id k max_attempts 0 get_result
             (or_default
                (first_text "kind" "No text in input-required response" parts)
                "Agent requires input but no message provided"));
    try assumption.
  - reflexivity.
  - unfold poll_once. rewrite Hview. cbn [bind].
    replace (Py.eq_str (JStr "input-required") "completed") with false
      by reflexivity.
    replace (Py.eq_str (JStr "input-required") "failed") with false
      by reflexivity.
    replace (Py.eq_str (JStr "input-required") "input-required") with true
      by reflexivity.
    unfold input_required_response. cbn [Py.get]. unfold Dict.get_or.
    rewrite Hstatus. cbn [bind Py.get]. unfold Dict.get_or.
    rewrite Hmessage. cbn [bind Py.get Py.truthy].
    destruct message_fields as [|f fs]; [discriminate|].
    unfold Dict.get_or. rewrite Hparts. cbn [bind Py.iter].
    rewrite (first_text_part_spec _ _ _ Hdicts). reflexivity.
Qed.

(** X13: when the answer to [message/send] is a message and not a task, the
    forwarder does not poll; it returns the text of the first part whose
    field "type" is "text" (the field "kind", which the artifacts of a task
    use, is not looked at), "No text in message" when that part has no text,
    and "Message received but no text content" when there is no such part. *)
Theorem direct_message_returns_first_text
  (net : Network) (endpoint req : string) (send_result : json)
  (message_fields : list (string * json)) (parts : list json) :
  on_send net endpoint req = Responds send_result ->
  classify_send send_result = Ok (IsMessage (JObj message_fields)) ->
  Dict.get "parts" message_fields = Some (JArr parts) ->
  forallb Py.is_dict parts = true ->
  _forward_request_to_agent net endpoint req
  = ([Post endpoint (MessageSend req)],
     Ok (or_default (first_text "type" "No text in message" parts)
           "Message received but no text content")).
Proof.
  intros Hs Hc Hparts Hdicts.
  unfold _forward_request_to_agent, forward_body. rewrite Hs, Hc.
  unfold message_response. cbn [Py.get]. unfold Dict.get_or. rewrite Hparts.
  cbn [bind Py.iter]. rewrite (first_text_part_spec _ _ _ Hdicts). reflexivity.
Qed.

(** ** More on the registry *)

Lemma dict_set_set {V} (k : string) (v1 v2 : V) (d : Dict.t V) :
  Dict.set k v2 (Dict.set k v1 d) = Dict.set k v2 d.
Proof.
  induction d as [|[k' v'] d IH]; simpl.
  - now rewrite String.eqb_refl.
  - destruct (String.eqb k' k) eqn:E; simpl.
    + now rewrite String.eqb_refl.
    + now rewrite E, IH.
Qed.

Lemma dict_set_keys_present {V} (k : string) (v : V) (d : Dict.t V) :
  Dict.mem k d = true -> Dict.keys (Dict.set k v d) = Dict.keys d.
Proof.
  unfold Dict.mem, Dict.keys.
  induction d as [|[k' v'] d IH]; simpl; [discriminate|].
  destruct (String.eqb k' k) eqn:E; simpl.
  - apply String.eqb_eq in E. now subst.
  - intros H. now rewrite IH.
Qed.

(** X14: [add_agent] stores the card under the id, so that a lookup of the
    id gives the card and lookups of other ids are as before; an id that is
    new goes to the end of the registry order and an id that was there keeps
    its place; and adding twice under one id is the same as adding the second
    card only. *)
Theorem add_agent_stores_card
  (o : Orchestrator) (agent_id : string) (agent_card : AgentCard) :
  Dict.get agent_id (agents (add_agent o agent_id agent_card)) = Some agent_card
  /\ (forall k, k <> agent_id ->
        Dict.get k (agents (add_agent o agent_id agent_card))
        = Dict.get k (agents o))
  /\ Dict.keys (agents (add_agent o agent_id agent_card))
     = (if Dict.mem agent_id (agents o) then Dict.keys (agents o)
        else Dict.keys (agents o) ++ [agent_id])
  /\ (forall earlier,
        add_agent (add_agent o agent_id earlier) agent_id agent_card
        = add_agent o agent_id agent_card).
Proof.
  unfold add_agent. simpl. repeat split.
  - apply dict_get_set_same.
  - intros k Hk. apply dict_get_set_other. congruence.
  - destruct (Dict.mem agent_id (agents o)) eqn:E.
    + now apply dict_set_keys_present.
    + rewrite dict_set_fresh by exact E. unfold Dict.keys.
      now rewrite map_app.
  - intros earlier. unfold _update_skill_keywords. simpl.
    now rewrite dict_set_set.
Qed.

Lemma dict_get_middle {V} (k : string) (v : V) (before after : Dict.t V) :
  ~ In k (Dict.keys before) ->
  Dict.get k (before ++ (k, v) :: after) = Some v.
Proof.
  unfold Dict.keys. induction before as [|[k' v'] before IH]; simpl; intros Hk.
  - now rewrite String.eqb_refl.
  - destruct (String.eqb k' k) eqn:E.
    + apply String.eqb_eq in E. tauto.
    + apply IH. tauto.
Qed.

Lemma dict_get_absent {V} (k : string) (d : Dict.t V) :
  ~ In k (Dict.keys d) -> Dict.get k d = None.
Proof.
  intros H. destruct (Dict.get k d) eqn:E; [|reflexivity].
  exfalso. apply H. apply dict_mem_keys. unfold Dict.mem. now rewrite E.
Qed.

Lemma dict_get_other_middle {V} (k k0 : string) (v : V) (before after : Dict.t V) :
  k <> k0 ->
  Dict.get k (before ++ (k0, v) :: after) = Dict.get k (before ++ after).
Proof.
  intros Hne. induction before as [|[k' v'] before IH]; simpl.
  - destruct (String.eqb k0 k) eqn:E; [|reflexivity].
    apply String.eqb_eq in E. congruence.
  - now rewrite IH.
Qed.

(** X15: in a registry with distinct keys, when [unregister_agent] reports
    success for an agent id, that id was registered with the reported name
    and endpoint and matched the identifier, it is in the registry no more,
    every other id has the card it had, and the index is the rebuild of what
    is left. *)
Theorem unregister_removes_reported_agent
  (o o' : Orchestrator) (agent_identifier agent_id name endpoint message : string) :
  NoDup (Dict.keys (agents o)) ->
  unregister_agent o agent_identifier
  = (o', Unregistered agent_id name endpoint message) ->
  (exists agent_card,
     Dict.get agent_id (agents o) = Some agent_card
     /\ name = card_name agent_card /\ endpoint = card_url agent_card
     /\ matches_some_form agent_identifier (agent_id, agent_card))
  /\ Dict.get agent_id (agents o') = None
  /\ (forall k, k <> agent_id -> Dict.get k (agents o') = Dict.get k (agents o))
  /\ S (length (agents o')) = length (agents o)
  /\ skill_keywords o' = rebuild_index (agents o').
Proof.
  intros Hnd. unfold unregister_agent.
  destruct (find (entry_matches agent_identifier) (agents o)) as [[k c]|] eqn:E;
    [|discriminate].
  destruct (negb (String.eqb k "")); [|discriminate].
  intros [= <- <- <- <- _].
  destruct (find_splits _ _ E) as (before & after & Hreg & Hb & Hx).
  rewrite Hreg in Hnd |- *.
  pose proof (nodup_keys_middle _ _ _ _ Hnd) as Hnin.
  simpl. rewrite dict_del_middle by exact Hnin.
  split; [|split; [|split; [|split]]].
  - exists c. rewrite dict_get_middle by exact Hnin.
    repeat split. now apply entry_matches_forms.
  - apply dict_get_absent. unfold Dict.keys in *. rewrite map_app in *.
    simpl in Hnd. apply NoDup_remove_2 in Hnd. exact Hnd.
  - intros k' Hk'. symmetry. now apply dict_get_other_middle.
  - rewrite !length_app. simpl. lia.
  - reflexivity.
Qed.

Lemma load_cards_get (fetched : list (option AgentCard)) (reg : Registry)
  (name : string) :
  Dict.get name (fold_left load_card fetched reg)
  = match last_with_name name fetched with
    | Some agent_card => Some agent_card
    | None => Dict.get name reg
    end.
Proof.
  revert reg. induction fetched as [|answer fetched IH]; intros reg; simpl.
  - reflexivity.
  - rewrite IH. destruct (last_with_name name fetched); [reflexivity|].
    destruct answer as [c|]; simpl; [|reflexivity].
    destruct (String.eqb (card_name c) name) eqn:E.
    + apply String.eqb_eq in E. subst. apply dict_get_set_same.
    + apply String.eqb_neq in E. now apply dict_get_set_other.
Qed.

(** X16: after start the registry holds, under each name, the last card of
    that name that could be fetched from the bootstrap endpoints; an endpoint
    whose fetch failed adds nothing, and the index is built from the
    result. *)
Theorem init_registers_last_fetched
  (fetched : list (option AgentCard)) (name : string) :
  Dict.get name (agents (init fetched)) = last_with_name name fetched
  /\ skill_keywords (init fetched) = rebuild_index (agents (init fetched)).
Proof.
  split; [|reflexivity].
  unfold init. simpl. rewrite load_cards_get.
  now destruct (last_with_name name fetched).
Qed.

Lemma keys_are_names_set (reg : Registry) (agent_card : AgentCard) :
  (forall k c, In (k, c) reg -> k = card_name c) ->
  forall k c, In (k, c) (Dict.set (card_name agent_card) agent_card reg) ->
    k = card_name c.
Proof.
  induction reg as [|[k' c'] reg IH]; simpl; intros Hreg k c.
  - intros [[= <- <-] | []]. reflexivity.
  - destruct (String.eqb k' (card_name agent_card)); simpl.
    + intros [[= <- <-] | Hin]; [reflexivity | eauto].
    + intros [[= <- <-] | Hin]; [eauto|]. apply IH; eauto.
Qed.

Lemma keys_are_names_del (reg : Registry) (k0 : string) :
  (forall k c, In (k, c) reg -> k = card_name c) ->
  forall k c, In (k, c) (Dict.del k0 reg) -> k = card_name c.
Proof.
  induction reg as [|[k' c'] reg IH]; simpl; intros Hreg k c; [tauto|].
  destruct (String.eqb k' k0); simpl.
  - eauto.
  - intros [[= <- <-] | Hin]; [eauto|]. apply IH; eauto.
Qed.

(** X17: in the running service, where agents come into the registry only
    through the bootstrap fetch and [register_agent], the key of every
    registry entry is the name of its card. *)
Theorem service_keys_are_names (o : Orchestrator) :
  service_reachable o ->
  forall k c, In (k, c) (agents o) -> k = card_name c.
Proof.
  induction 1 as [fetched | o endpoint [agent_card|] Hr IH | o ident Hr IH].
  - unfold init. simpl.
    assert (H : forall reg, (forall k c, In (k, c) reg -> k = card_name c) ->
              forall k c, In (k, c) (fold_left load_card fetched reg) ->
                k = card_name c).
    { induction fetched as [|[a|] fetched IHf]; intros reg Hreg; simpl.
      - exact Hreg.
      - apply IHf. now apply keys_are_names_set.
      - now apply IHf. }
    apply H. intros k c [].
  - simpl. now apply keys_are_names_set.
  - exact IH.
  - unfold unregister_agent.
    destruct (find (entry_matches ident) (agents o)) as [[k0 c0]|];
      [destruct (negb (String.eqb k0 "")); simpl|simpl]; try exact IH.
    now apply keys_are_names_del.
Qed.

(** ** Commands, from the client to the registry *)

Lemma prefix_app (p u : string) : String.prefix p (p ++ u) = true.
Proof.
  induction p as [|c p IH]; simpl.
  - now destruct u.
  - destruct (Ascii.ascii_dec c c) as [_ | H]; [exact IH | congruence].
Qed.

Lemma remove_from_skip (pat p u : string) :
  Str.remove_from pat (String.length p) (p ++ u) = Str.remove_from pat 0 u.
Proof.
  induction p as [|c p IH]; simpl; [reflexivity | exact IH].
Qed.

Lemma contains_cons_false (pat : string) (c : ascii) (s : string) :
  PyStr.contains pat (String c s) = false ->
  String.prefix pat (String c s) = false /\ PyStr.contains pat s = false.
Proof.
  cbn [PyStr.contains].
  destruct (String.prefix pat (String c s)); [discriminate | auto].
Qed.

(** A string without an occurrence of the pattern is left as it is. *)
Lemma remove_from_absent (pat s : string) :
  PyStr.contains pat s = false -> Str.remove_from pat 0 s = s.
Proof.
  induction s as [|c s IH]; [reflexivity|].
  intros H. apply contains_cons_false in H. destruct H as [Hp Hs].
  cbn [Str.remove_from]. rewrite Hp. now rewrite IH.
Qed.

(** Taking the pattern out of the pattern followed by such a string. *)
Lemma remove_command (c : ascii) (p u : string) :
  PyStr.contains (String c p) u = false ->
  Str.remove (String c p) (String c p ++ u) = u.
Proof.
  intros H. unfold Str.remove.
  change (String c p ++ u)%string with (String c (p ++ u)).
  cbn [Str.remove_from].
  change (String c (p ++ u)) with (String c p ++ u)%string.
  rewrite prefix_app.
  replace (String.length (String c p) - 1)%nat with (String.length p)
    by (simpl; lia).
  rewrite remove_from_skip. now apply remove_from_absent.
Qed.

(** A string that starts with a character that is not white space keeps it
    under [strip]. *)
Lemma strip_keeps_head (c : ascii) (s : string) :
  PyStr.is_space c = false -> exists rest, Str.strip (String c s) = String c rest.
Proof.
  intros Hc. unfold Str.strip. cbn [Str.lstrip]. rewrite Hc.
  cbn [Str.rstrip]. destruct (Str.rstrip s); rewrite ?Hc; eauto.
Qed.

Lemma parse_register_command (agent_url : string) :
  PyStr.contains "REGISTER_AGENT:" agent_url = false ->
  parse_query (register_command agent_url) = RegisterCommand (Str.strip agent_url).
Proof.
  intros H. unfold parse_query, register_command, Str.startswith.
  destruct (@strip_keeps_head "R" ("EGISTER_AGENT:" ++ agent_url) eq_refl)
    as [rest Hrest].
  change ("REGISTER_AGENT:" ++ agent_url)%string
    with (String "R" ("EGISTER_AGENT:" ++ agent_url)) at 1.
  rewrite Hrest. cbn [String.eqb Ascii.eqb Bool.eqb].
  rewrite prefix_app, remove_command by exact H. reflexivity.
Qed.

Lemma parse_unregister_command (agent_identifier : string) :
  PyStr.contains "UNREGISTER_AGENT:" agent_identifier = false ->
  parse_query (unregister_command agent_identifier)
  = UnregisterCommand (Str.strip agent_identifier).
Proof.
  intros H. unfold parse_query, unregister_command, Str.startswith.
  destruct (@strip_keeps_head "U" ("NREGISTER_AGENT:" ++ agent_identifier) eq_refl)
    as [rest Hrest].
  change ("UNREGISTER_AGENT:" ++ agent_identifier)%string
    with (String "U" ("NREGISTER_AGENT:" ++ agent_identifier)) at 1.
  rewrite Hrest. cbn [String.eqb Ascii.eqb Bool.eqb].
  replace (String.prefix "REGISTER_AGENT:" ("UNREGISTER_AGENT:" ++ agent_identifier))
    with false by reflexivity.
  rewrite prefix_app, remove_command by exact H. reflexivity.
Qed.

(** ** The executor and the calls of the server *)

Lemma accepted_prefix_forwarded (sdk : Server) (evs : list event)
  (rest : list exec_event) :
  accepted_prefix sdk (map Forwarded evs ++ rest)
  = map Forwarded evs ++ accepted_prefix sdk rest.
Proof.
  induction evs as [|ev evs IH]; simpl; [reflexivity | now rewrite IH].
Qed.

Lemma find_refused_forwarded (sdk : Server) (evs : list event)
  (rest : list exec_event) :
  find (is_refused sdk) (map Forwarded evs ++ rest) = find (is_refused sdk) rest.
Proof.
  induction evs as [|ev evs IH]; simpl; [reflexivity | exact IH].
Qed.

Lemma existsb_working_forwarded (evs : list event) (rest : list exec_event) :
  existsb is_working_event (map Forwarded evs ++ rest)
  = existsb is_working_event rest.
Proof.
  induction evs as [|ev evs IH]; simpl; [reflexivity | exact IH].
Qed.

Lemma filter_final_forwarded (evs : list event) :
  filter is_final_event (map Forwarded evs) = [].
Proof.
  induction evs as [|ev evs IH]; simpl; [reflexivity | exact IH].
Qed.

Lemma filter_working_forwarded (evs : list event) :
  filter is_working_event (map Forwarded evs) = [].
Proof.
  induction evs as [|ev evs IH]; simpl; [reflexivity | exact IH].
Qed.

(** Settles one branch of the [try] by the answers of the server to the
    three calls. *)
Ltac by_server_answers sdk :=
  repeat match goal with
         | |- context [sdk ?ev] =>
             let E := fresh "E" in destruct (sdk ev) eqn:E
         end;
  cbn [accepted_prefix is_refused find existsb is_working_event negb orb
       raised_for app];
  repeat match goal with
         | E : sdk _ = _ |- _ => rewrite E
         end;
  cbn [accepted_prefix is_refused find existsb is_working_event negb orb
       raised_for app];
  try reflexivity.

(** The [try] under any behaviour of the server, against the run in which no
    call raises. *)
Lemma try_execute_against_willing (sdk : Server) (o : Orchestrator)
  (fetch : string -> option AgentCard) (net : Network) (env : Ambient)
  (task : TaskRef) (query : string) :
  exists o' before text,
    let calls :=
      before ++ [AddArtifact task text "orchestrator_result"; CompleteTask task] in
    try_execute willing o fetch net env task query = (o', calls, None)
    /\ filter is_final_event before = []
    /\ length (filter is_working_event before) = 1%nat
    /\ try_execute sdk o fetch net env task query
       = (if existsb is_working_event (accepted_prefix sdk calls) then o' else o,
          accepted_prefix sdk calls,
          raised_for (find (is_refused sdk) calls)).
Proof.
  unfold try_execute, dispatch.
  destruct (parse_query query) as [| endpoint | ident | request].
  - eexists o, [_], _. cbn [willing app].
    split; [reflexivity|]. split; [reflexivity|]. split; [reflexivity|].
    by_server_answers sdk.
  - destruct (register_agent o endpoint (fetch endpoint)) as [o1 reply].
    eexists o1, [_], _. cbn [willing app].
    split; [reflexivity|]. split; [reflexivity|]. split; [reflexivity|].
    by_server_answers sdk.
  - destruct (unregister_agent o ident) as [o1 reply].
    eexists o1, [_], _. cbn [willing app].
    split; [reflexivity|]. split; [reflexivity|]. split; [reflexivity|].
    by_server_answers sdk.
  - destruct (process_request o net env request) as [evs envelope].
    eexists o, (map Forwarded evs ++ [_]), _. cbn [willing].
    split; [reflexivity|].
    split; [rewrite filter_app, filter_final_forwarded; reflexivity|].
    split; [rewrite filter_app, filter_working_forwarded; reflexivity|].
    rewrite <- !app_assoc.
    rewrite accepted_prefix_forwarded, find_refused_forwarded.
    rewrite existsb_working_forwarded.
    by_server_answers sdk; rewrite ?app_nil_r, <- ?app_assoc; reflexivity.
Qed.

(** X20: [execute] under any behaviour of the A2A server.  A context that
    has neither a task nor a message is refused with InvalidParams.  For
    every other context and every query, when no call of the server raises
    [execute] raises nothing, also when the registration, the unregistration
    or the routing fails: after the new task, if there is one, it sends one
    working update, adds the artifact "orchestrator_result" and completes the
    task.  When a call of the server raises, the events are those of that run
    up to the call, [execute] raises InternalError (or, for the call that
    enqueues the new task, the exception of that call), and the orchestrator
    afterwards is that of the run without failures if the working update had
    gone through, and is unchanged otherwise. *)
Theorem execute_completes_the_task
  (sdk : Server) (o : Orchestrator) (fetch : string -> option AgentCard)
  (net : Network) (env : Ambient) (context : RequestContext) :
  match task_of context with
  | None =>
      execute sdk o fetch net env context
      = (o, [], Some (ServerError InvalidParamsError))
  | Some task =>
      exists o' before text,
        let calls :=
          enqueued context ++ before
            ++ [AddArtifact task text "orchestrator_result"; CompleteTask task] in
        execute willing o fetch net env context = (o', calls, None)
        /\ filter is_final_event before = []
        /\ length (filter is_working_event before) = 1%nat
        /\ execute sdk o fetch net env context
           = (if existsb is_working_event (accepted_prefix sdk calls)
              then o' else o,
              accepted_prefix sdk calls,
              raised_for (find (is_refused sdk) calls))
  end.
Proof.
  unfold execute, task_of, enqueued.
  destruct (current_task context) as [task|];
    [|destruct (message_task context) as [task|]].
  - destruct (try_execute_against_willing sdk o fetch net env task
                (user_input context))
      as (o' & before & text & Hw & Hf & Hone & Hsdk).
    exists o', before, text.
    exact (conj Hw (conj Hf (conj Hone Hsdk))).
  - destruct (try_execute_against_willing sdk o fetch net env task
                (user_input context))
      as (o' & before & text & Hw & Hf & Hone & Hsdk).
    exists o', before, text. cbn zeta in *.
    split; [|split; [exact Hf | split; [exact Hone|]]].
    + cbn [willing]. change (willing (EnqueueTask task)) with true.
      rewrite Hw. reflexivity.
    + cbn [app accepted_prefix is_refused find].
      destruct (sdk (EnqueueTask task)); cbn [negb].
      * rewrite Hsdk. cbn [existsb is_working_event orb]. reflexivity.
      * reflexivity.
  - reflexivity.
Qed.

(** X18: the command by which the client registers an agent url that has no
    "REGISTER_AGENT:" in it, in a context with a task or with a message only
    (the client sends a message that names no task).  Once the new task, if
    there is one, is in the queue and the working update has gone through,
    the executor registers the agent from that url with the white space
    around it stripped: the orchestrator afterwards is the one that
    [register_agent] gives for it, also when a later call of the server
    raises, and a card that was fetched is in the registry under its name.
    When the artifact and the completion go through as well, the events are
    the new task if there is one, the working update, the artifact and the
    completion, and nothing is raised. *)
Theorem register_command_reaches_registry
  (sdk : Server) (o : Orchestrator) (fetch : string -> option AgentCard)
  (net : Network) (env : Ambient) (context : RequestContext) (task : TaskRef)
  (agent_url : string) :
  PyStr.contains "REGISTER_AGENT:" agent_url = false ->
  user_input context = register_command agent_url ->
  task_of context = Some task ->
  (forall ev, In ev (enqueued context) -> sdk ev = true) ->
  let endpoint := Str.strip agent_url in
  let working :=
    StatusWorking task [Lit "Registering agent from "; Lit endpoint; Lit "..."] in
  let o' := fst (register_agent o endpoint (fetch endpoint)) in
  let artifact :=
    AddArtifact task
      (Formatted (register_text o' (snd (register_agent o endpoint (fetch endpoint)))))
      "orchestrator_result" in
  sdk working = true ->
  fst (fst (execute sdk o fetch net env context)) = o'
  /\ (sdk artifact = true -> sdk (CompleteTask task) = true ->
      execute sdk o fetch net env context
      = (o', enqueued context ++ [working; artifact; CompleteTask task], None))
  /\ (forall agent_card, fetch endpoint = Some agent_card ->
        Dict.get (card_name agent_card) (agents o') = Some agent_card).
Proof.
  intros H Hin Htask Henq endpoint working o' artifact Hw.
  assert (Htry : fst (fst (try_execute sdk o fetch net env task
                             (register_command agent_url))) = o'
                 /\ (sdk artifact = true -> sdk (CompleteTask task) = true ->
                     try_execute sdk o fetch net env task
                       (register_command agent_url)
                     = (o', [working; artifact; CompleteTask task], None))).
  { unfold try_execute, dispatch. rewrite (parse_register_command _ H).
    fold endpoint. fold working. rewrite Hw.
    subst artifact o'.
    destruct (register_agent o endpoint (fetch endpoint)) as [o1 reply].
    cbn [fst snd]. split.
    - destruct (sdk (AddArtifact task (Formatted (register_text o1 reply))
                       "orchestrator_result"));
        [destruct (sdk (CompleteTask task))|]; reflexivity.
    - intros -> ->. reflexivity. }
  destruct Htry as [Ho Hall].
  split; [|split].
  - unfold execute, task_of, enqueued in *. rewrite Hin.
    destruct (current_task context) as [t|].
    + injection Htask as ->. exact Ho.
    + destruct (message_task context) as [t|]; [|discriminate].
      injection Htask as ->. rewrite (Henq _ (or_introl eq_refl)).
      destruct (try_execute sdk o fetch net env task (register_command agent_url))
        as [[o1 evs] r]. exact Ho.
  - intros Ha Hc. specialize (Hall Ha Hc).
    unfold execute, task_of, enqueued in *. rewrite Hin.
    destruct (current_task context) as [t|].
    + injection Htask as ->.
      destruct (message_task context); exact Hall.
    + destruct (message_task context) as [t|]; [|discriminate].
      injection Htask as ->. rewrite (Henq _ (or_introl eq_refl)).
      rewrite Hall. reflexivity.
  - intros agent_card Hf. subst o'. rewrite Hf. simpl. apply dict_get_set_same.
Qed.

(** X19: the command by which the client unregisters an identifier that has
    no "UNREGISTER_AGENT:" in it, in a context with a task or with a message
    only.  Once the new task, if there is one, is in the queue and the
    working update has gone through, the executor unregisters by that
    identifier with the white space around it stripped, also when a later
    call of the server raises; when the artifact and the completion go
    through as well the task is completed and nothing is raised, whether an
    agent was found or not. *)
Theorem unregister_command_reaches_registry
  (sdk : Server) (o : Orchestrator) (fetch : string -> option AgentCard)
  (net : Network) (env : Ambient) (context : RequestContext) (task : TaskRef)
  (agent_identifier : string) :
  PyStr.contains "UNREGISTER_AGENT:" agent_identifier = false ->
  user_input context = unregister_command agent_identifier ->
  task_of context = Some task ->
  (forall ev, In ev (enqueued context) -> sdk ev = true) ->
  let identifier := Str.strip agent_identifier in
  let working :=
    StatusWorking task [Lit "Unregistering agent "; Lit identifier; Lit "..."] in
  let o' := fst (unregister_agent o identifier) in
  let artifact :=
    AddArtifact task
      (Formatted (unregister_text o' (snd (unregister_agent o identifier))))
      "orchestrator_result" in
  sdk working = true ->
  fst (fst (execute sdk o fetch net env context)) = o'
  /\ (sdk artifact = true -> sdk (CompleteTask task) = true ->
      execute sdk o fetch net env context
      = (o', enqueued context ++ [working; artifact; CompleteTask task], None)).
Proof.
  intros H Hin Htask Henq identifier working o' artifact Hw.
  assert (Htry : fst (fst (try_execute sdk o fetch net env task
                             (unregister_command agent_identifier))) = o'
                 /\ (sdk artifact = true -> sdk (CompleteTask task) = true ->
                     try_execute sdk o fetch net env task
                       (unregister_command agent_identifier)
                     = (o', [working; artifact; CompleteTask task], None))).
  { unfold try_execute, dispatch. rewrite (parse_unregister_command _ H).
    fold identifier. fold working. rewrite Hw.
    subst artifact o'.
    destruct (unregister_agent o identifier) as [o1 reply].
    cbn [fst snd]. split.
    - destruct (sdk (AddArtifact task (Formatted (unregister_text o1 reply))
                       "orchestrator_result"));
        [destruct (sdk (CompleteTask task))|]; reflexivity.
    - intros -> ->. reflexivity. }
  destruct Htry as [Ho Hall].
  split.
  - unfold execute, task_of, enqueued in *. rewrite Hin.
    destruct (current_task context) as [t|].
    + injection Htask as ->. exact Ho.
    + destruct (message_task context) as [t|]; [|discriminate].
      injection Htask as ->. rewrite (Henq _ (or_introl eq_refl)).
      destruct (try_execute sdk o fetch net env task
                  (unregister_command agent_identifier))
        as [[o1 evs] r]. exact Ho.
  - intros Ha Hc. specialize (Hall Ha Hc).
    unfold execute, task_of, enqueued in *. rewrite Hin.
    destruct (current_task context) as [t|].
    + injection Htask as ->.
      destruct (message_task context); exact Hall.
    + destruct (message_task context) as [t|]; [|discriminate].
      injection Htask as ->. rewrite (Henq _ (or_introl eq_refl)).
      rewrite Hall. reflexivity.
Qed.

(** ** The ArgoCD agent *)

(** X21: in every response of [get_agent_response] exactly one of the two
    flags is set: the task is complete exactly when the structured response
    has the status completed, and in every other case, the status error
    among them, the user is asked for input; the content is the message of
    the structured response when there is one. *)
Theorem argocd_response_flags (structured_response : option ResponseFormat) :
  let r := get_agent_response structured_response in
  require_user_input r = negb (is_task_complete r)
  /\ (is_task_complete r = true
      <-> exists message, structured_response = Some (mkResponse completed message))
  /\ (forall response, structured_response = Some response ->
        content r = rf_message response).
Proof.
  destruct structured_response as [[[] message]|]; simpl; repeat split;
    try reflexivity; try discriminate; eauto;
    try (intros [m H]; discriminate);
    try (intros response [= <-]; reflexivity).
Qed.


(* ------------------------------------------------------------------ *)
(** * The further properties at the sample agents *)

Lemma chosen_agent_is_first_best_witness :
  exists before agent_card after,
    agents Sample.with_argocd = before ++ ("argocd", agent_card) :: after
    /\ best_score (score_all Sample.with_argocd "please sync my app")
       = fst (_calculate_agent_score Sample.with_argocd "please sync my app"
                agent_card)
    /\ 0 < fst (_calculate_agent_score Sample.with_argocd "please sync my app"
                  agent_card)
    /\ (forall k c, In (k, c) before ->
          fst (_calculate_agent_score Sample.with_argocd "please sync my app" c)
          < fst (_calculate_agent_score Sample.with_argocd "please sync my app"
                   agent_card))
    /\ (forall k c, In (k, c) after ->
          fst (_calculate_agent_score Sample.with_argocd "please sync my app" c)
          <= fst (_calculate_agent_score Sample.with_argocd "please sync my app"
                    agent_card)).
Proof.
  apply (@chosen_agent_is_first_best Sample.with_argocd "please sync my app"
           "argocd").
  vm_compute. reflexivity.
Defined.

Lemma confidence_in_unit_interval_witness :
  0 < 0.7 /\ 0.7 <= 1.
Proof.
  assert (H : exists conf,
             envelope_confidence
               (snd (process_request Sample.currency_only Sample.net_500 Sample.env
                       "how much is 10 USD in INR?")) = Some conf
             /\ conf == 0.7).
  { eexists. split; [vm_compute; reflexivity | reflexivity]. }
  destruct H as (conf & Hconf & Heq).
  destruct (@confidence_in_unit_interval Sample.currency_only Sample.net_500
              Sample.env "how much is 10 USD in INR?" conf Hconf) as [H1 H2].
  rewrite Heq in H1, H2. split; assumption.
Defined.

Lemma reasoning_names_default_iff_witness :
  best_agent (score_all Sample.with_argocd "hello") = None
  /\ exists agent_card,
       Dict.get "Currency Agent" (agents Sample.currency_only) = Some agent_card
       /\ (matching_tags "how much is 10 USD in INR?" agent_card <> []
           \/ matching_skills Sample.currency_only "how much is 10 USD in INR?"
                agent_card <> [])
       /\ "Selected Currency Agent based on keywords: usd, inr and skills: currency_exchange"
          = ("Selected " ++ "Currency Agent"
             ++ match matching_tags "how much is 10 USD in INR?" agent_card,
                      map skill_name
                        (matching_skills Sample.currency_only
                           "how much is 10 USD in INR?" agent_card) with
                | [], names => " based on skills: " ++ PyStr.join ", " names
                | keywords, [] =>
                    " based on keywords: " ++ PyStr.join ", " keywords
                | keywords, names =>
                    " based on keywords: " ++ PyStr.join ", " keywords
                      ++ " and skills: " ++ PyStr.join ", " names
                end)%string.
Proof.
  split.
  - assert (Hnd : NoDup (Dict.keys (agents Sample.with_argocd))).
    { repeat constructor; simpl; intuition discriminate. }
    assert (H : exists conf text meta,
               snd (process_request Sample.with_argocd Sample.net_500 Sample.env
                      "hello")
               = Success "hello" "argocd" "ArgoCD Agent" ["sync_operations"] conf
                   "Selected ArgoCD Agent using default ArgoCD agent" text meta).
    { do 3 eexists. vm_compute. reflexivity. }
    destruct H as (conf & text & meta & Henv).
    apply (proj1 (@reasoning_names_default_iff Sample.with_argocd Sample.net_500
                    Sample.env "hello" "argocd" "ArgoCD Agent" ["sync_operations"]
                    conf "Selected ArgoCD Agent using default ArgoCD agent" text
                    meta Hnd Henv)).
    reflexivity.
  - assert (Hnd : NoDup (Dict.keys (agents Sample.currency_only))).
    { repeat constructor; simpl; intuition discriminate. }
    assert (H : exists conf text meta,
               snd (process_request Sample.currency_only Sample.net_500 Sample.env
                      "how much is 10 USD in INR?")
               = Success "how much is 10 USD in INR?" "Currency Agent"
                   "Currency Agent" ["currency_exchange"] conf
                   "Selected Currency Agent based on keywords: usd, inr and skills: currency_exchange"
                   text meta).
    { do 3 eexists. vm_compute. reflexivity. }
    destruct H as (conf & text & meta & Henv).
    apply (proj2 (@reasoning_names_default_iff Sample.currency_only Sample.net_500
                    Sample.env "how much is 10 USD in INR?" "Currency Agent"
                    "Currency Agent" ["currency_exchange"] conf
                    "Selected Currency Agent based on keywords: usd, inr and skills: currency_exchange"
                    text meta Hnd Henv)).
    vm_compute. discriminate.
Defined.

Lemma index_keywords_lower_distinct_witness :
  (forall k, In k ["usd"; "inr"; "currency exchange"; "convert"; "between";
                   "currencies"] -> PyStr.lower k = k)
  /\ NoDup ["usd"; "inr"; "currency exchange"; "convert"; "between"; "currencies"].
Proof.
  apply (@index_keywords_lower_distinct (agents Sample.currency_only)
           "currency_exchange").
  reflexivity.
Defined.

Lemma tags_and_name_are_keywords_witness :
  In (normalized_name "currency_exchange")
     (keywords_of (rebuild_index (agents Sample.currency_only)) "currency_exchange").
Proof.
  refine (proj2 (@tags_and_name_are_keywords (agents Sample.currency_only)
                   "Currency Agent" Sample.currency_card
                   (mkSkill "currency_exchange"
                      "Convert between currencies using live rates" ["usd"; "inr"])
                   _ _)).
  - left. reflexivity.
  - left. reflexivity.
Defined.

Lemma tag_match_brings_skill_match_witness :
  2.5 <= fst (_calculate_agent_score Sample.currency_only "price in USD please"
                Sample.currency_card).
Proof.
  refine (proj2 (proj2 (@tag_match_brings_skill_match Sample.currency_only
                          "price in USD please" "Currency Agent" "usd"
                          Sample.currency_card
                          (mkSkill "currency_exchange"
                             "Convert between currencies using live rates"
                             ["usd"; "inr"])
                          eq_refl _ _ _ eq_refl))).
  - left. reflexivity.
  - left. reflexivity.
  - left. reflexivity.
Defined.

Lemma forwarder_raises_only_wrapped_witness :
  (exists code text,
     Exception [Lit "HTTP error 500: Internal Server Error"]
     = Exception [Lit ("HTTP error " ++ str_int code ++ ": " ++ text)])
  \/ (exists msg,
        Exception [Lit "HTTP error 500: Internal Server Error"]
        = Exception (Lit "Request forwarding failed: " :: msg)).
Proof.
  apply (@forwarder_raises_only_wrapped Sample.net_500 Demo.url "hello").
  reflexivity.
Defined.

Lemma completed_task_returns_first_text_witness :
  _forward_request_to_agent Demo.net_completing Demo.url "10 USD in INR?"
  = (Post Demo.url (MessageSend "10 USD in INR?")
       :: poll_events Demo.url (JStr "task-1") 3,
     Ok (JStr "10 USD is 830 INR")).
Proof.
  refine (@completed_task_returns_first_text Demo.net_completing Demo.url
            "10 USD in INR?" (Sample.task_in "submitted") (JStr "task-1")
            Demo.completed_answer 2 _ _ _ eq_refl eq_refl _ _ eq_refl eq_refl
            eq_refl eq_refl).
  - lia.
  - intros n Hn. exists (Sample.task_in "working").
    destruct n as [|[|n]]; [split; reflexivity | split; reflexivity | lia].
Defined.

Lemma input_required_returns_message_text_witness :
  _forward_request_to_agent Demo.net_asking Demo.url "convert 10"
  = (Post Demo.url (MessageSend "convert 10")
       :: poll_events Demo.url (JStr "task-1") 1,
     Ok (JStr "Which currency?")).
Proof.
  refine (@input_required_returns_message_text Demo.net_asking Demo.url
            "convert 10" (Sample.task_in "submitted") (JStr "task-1")
            Demo.input_answer 0 _ _ _ _ eq_refl eq_refl _ _ eq_refl eq_refl
            eq_refl eq_refl eq_refl eq_refl).
  - lia.
  - intros n Hn. lia.
Defined.

Lemma direct_message_returns_first_text_witness :
  _forward_request_to_agent Sample.net_text Demo.url "hello"
  = ([Post Demo.url (MessageSend "hello")], Ok (JStr "Agent task failed")).
Proof.
  refine (@direct_message_returns_first_text Sample.net_text Demo.url "hello"
            _ _ _ eq_refl eq_refl eq_refl eq_refl).
Defined.

Lemma unregister_removes_reported_agent_witness :
  Dict.get "Gateway" (agents (fst (unregister_agent Sample.with_gateway "argocd")))
  = None.
Proof.
  assert (Hnd : NoDup (Dict.keys (agents Sample.with_gateway))).
  { repeat constructor; simpl; intuition discriminate. }
  refine (proj1 (proj2 (@unregister_removes_reported_agent Sample.with_gateway
                          (fst (unregister_agent Sample.with_gateway "argocd"))
                          "argocd" "Gateway" "Gateway"
                          "http://localhost:8000/argocd"
                          "Successfully unregistered Gateway (ID: Gateway)"
                          Hnd eq_refl))).
Defined.

Lemma service_keys_are_names_witness :
  "calc" = card_name Sample.calc_card.
Proof.
  apply (@service_keys_are_names Sample.calc_only (service_init _) "calc"
           Sample.calc_card).
  left. reflexivity.
Defined.

Lemma register_command_reaches_registry_witness :
  Dict.get "Currency Agent"
    (agents (fst (fst (execute willing Sample.calc_only Demo.fetch Sample.net_500
                         Sample.env
                         (mkContext (register_command " http://localhost:8002 ")
                            None (Some Demo.task))))))
  = Some Sample.currency_card
  /\ snd (fst (execute willing Sample.calc_only Demo.fetch Sample.net_500
                 Sample.env
                 (mkContext (register_command " http://localhost:8002 ")
                    None (Some Demo.task))))
     = [EnqueueTask Demo.task;
        StatusWorking Demo.task
          [Lit "Registering agent from "; Lit "http://localhost:8002"; Lit "..."];
        AddArtifact Demo.task
          (Formatted
             [Lit "✅ "; Lit "Successfully registered Currency Agent from http://localhost:8002";
              Lit nl;
              Lit "Agent ID: "; Lit "Currency Agent"; Lit nl;
              Lit "Agent Name: "; Lit "Currency Agent"; Lit nl;
              Lit "Total agents: "; Lit "2"])
          "orchestrator_result";
        CompleteTask Demo.task].
Proof.
  destruct (@register_command_reaches_registry willing Sample.calc_only Demo.fetch
              Sample.net_500 Sample.env
              (mkContext (register_command " http://localhost:8002 ")
                 None (Some Demo.task))
              Demo.task " http://localhost:8002 " eq_refl eq_refl eq_refl
              (fun ev _ => eq_refl) eq_refl)
    as (Ho & Hall & Hget).
  split.
  - rewrite Ho. exact (Hget Sample.currency_card eq_refl).
  - rewrite (Hall eq_refl eq_refl). reflexivity.
Defined.

Lemma unregister_command_reaches_registry_witness :
  Dict.keys
    (agents (fst (fst (execute willing Sample.with_argocd Demo.fetch Sample.net_500
                         Sample.env
                         (mkContext (unregister_command "currency agent")
                            None (Some Demo.task))))))
  = ["argocd"]
  /\ hd_error
       (snd (fst (execute willing Sample.with_argocd Demo.fetch Sample.net_500
                    Sample.env
                    (mkContext (unregister_command "currency agent")
                       None (Some Demo.task)))))
     = Some (EnqueueTask Demo.task).
Proof.
  destruct (@unregister_command_reaches_registry willing Sample.with_argocd
              Demo.fetch Sample.net_500 Sample.env
              (mkContext (unregister_command "currency agent")
                 None (Some Demo.task))
              Demo.task "currency agent" eq_refl eq_refl eq_refl
              (fun ev _ => eq_refl) eq_refl)
    as (Ho & Hall).
  split.
  - rewrite Ho. reflexivity.
  - rewrite (Hall eq_refl eq_refl). reflexivity.
Defined.

(* ------------------------------------------------------------------ *)
(** * Properties of the client *)

(** ** Headers *)

Lemma prefix_char (c a : ascii) (s : string) :
  String.prefix (String c EmptyString) (String a s) = Ascii.eqb a c.
Proof.
  simpl. destruct (ascii_dec c a) as [<- | Hne].
  - rewrite Ascii.eqb_refl. now destruct s.
  - symmetry. apply Ascii.eqb_neq. congruence.
Qed.

Lemma split_on_absent (c : ascii) (s : string) :
  PyStr.contains (String c EmptyString) s = false -> Str.split_on c s = [s].
Proof.
  induction s as [|a s IH]; [reflexivity|].
  intros H. apply contains_cons_false in H. destruct H as [Hp Hs].
  rewrite prefix_char in Hp. cbn [Str.split_on]. rewrite Hp, (IH Hs). reflexivity.
Qed.

Lemma split_on_app (c : ascii) (key rest : string) :
  PyStr.contains (String c EmptyString) key = false ->
  Str.split_on c (key ++ String c rest) = key :: Str.split_on c rest.
Proof.
  induction key as [|a key IH]; intros H.
  - simpl. now rewrite Ascii.eqb_refl.
  - apply contains_cons_false in H. destruct H as [Hp Hs].
    rewrite prefix_char in Hp.
    change (String a key ++ String c rest)%string
      with (String a (key ++ String c rest)).
    cbn [Str.split_on]. rewrite Hp, (IH Hs). reflexivity.
Qed.

(** X23: a header option "key=value" gives the entry key, value; when the
    value has a further "=" in it, what follows that "=" is dropped; and a
    header option without "=" is an error. *)
Theorem header_is_cut_at_equals (key value : string) :
  PyStr.contains "=" key = false ->
  PyStr.contains "=" value = false ->
  parse_header (key ++ "=" ++ value) = Some (key, value)
  /\ (forall rest,
        parse_header (key ++ "=" ++ value ++ "=" ++ rest) = Some (key, value))
  /\ parse_header key = None.
Proof.
  intros Hk Hv. unfold parse_header. repeat split.
  - change (key ++ "=" ++ value)%string with (key ++ String "=" value)%string.
    rewrite (@split_on_app "=" key _ Hk), (@split_on_absent "=" value Hv). reflexivity.
  - intros rest.
    change (key ++ "=" ++ value ++ "=" ++ rest)%string
      with (key ++ String "=" (value ++ String "=" rest))%string.
    rewrite (@split_on_app "=" key _ Hk), (@split_on_app "=" value _ Hv). reflexivity.
  - now rewrite (@split_on_absent "=" key Hk).
Qed.

(** ** [format_ai_response] *)

Lemma print_planner_not_false (ai_content : list (string * json)) :
  snd (print_planner ai_content) <> Ok false.
Proof.
  unfold print_planner.
  destruct (Py.get (Dict.get_or "task_info" (JObj []) ai_content) "task_type"
              (JStr "N/A")); [|simpl; discriminate].
  destruct (Py.get (Dict.get_or "task_info" (JObj []) ai_content) "scope"
              (JStr "N/A")); [|simpl; discriminate].
  destruct (Py.iter (Dict.get_or "tasks" (JArr []) ai_content)) as [tasks|e];
    [|simpl; discriminate].
  destruct (print_tasks tasks) as [more [u|e]]; simpl; discriminate.
Qed.

(** X24: when [format_ai_response] returns false it has printed nothing, so
    the raw JSON that its caller prints then is the only output. *)
Theorem format_false_prints_nothing (content : json) :
  snd (format_ai_response content) = Ok false ->
  fst (format_ai_response content) = [].
Proof.
  unfold format_ai_response.
  destruct content as [| b | q | s | items | fields]; try reflexivity;
    try discriminate.
  destruct (print_artifacts fields) as [[lines|]|e]; try discriminate.
  unfold print_content.
  destruct (Dict.mem "content" fields); [|reflexivity].
  destruct (Dict.get_or "content" JNull fields) as [| b | q | s | items | ai];
    try reflexivity; try discriminate.
  destruct (Dict.mem "tasks" ai); [|discriminate].
  intros H. exfalso. exact (print_planner_not_false ai H).
Qed.

(** ** From the answer of an agent to what the client shows *)

Lemma prefix_straddle (p x : string) (d : ascii) (rest : string) :
  String.prefix p (x ++ String d rest) = true ->
  String.prefix p x = true \/ In d (list_ascii_of_string p).
Proof.
  revert p. induction x as [|b x IH]; intros p; destruct p as [|a p]; simpl.
  - auto.
  - destruct (ascii_dec a d); [auto | discriminate].
  - auto.
  - destruct (ascii_dec a b); [|discriminate].
    intros H. destruct (IH p H); auto.
Qed.

(** A string without the separator, followed by a character that is not in
    the separator, has no occurrence that begins in it. *)
Lemma find_after_skip (sep x : string) (d : ascii) (rest : string) :
  PyStr.contains sep x = false ->
  ~ In d (list_ascii_of_string sep) ->
  Str.find_after sep (x ++ String d rest) = Str.find_after sep (String d rest).
Proof.
  intros Hx Hd. induction x as [|b x IH]; [reflexivity|].
  apply contains_cons_false in Hx. destruct Hx as [Hp Hx].
  change (String b x ++ String d rest)%string with (String b (x ++ String d rest)).
  cbn [Str.find_after].
  destruct (String.prefix sep (String b (x ++ String d rest))) eqn:E.
  - exfalso.
    change (String b (x ++ String d rest)) with (String b x ++ String d rest)%string in E.
    apply prefix_straddle in E. destruct E as [E | E]; [congruence | tauto].
  - exact (IH Hx).
Qed.

Lemma find_after_step (sep : string) (c : ascii) (s : string) :
  String.prefix sep (String c s) = false ->
  Str.find_after sep (String c s) = Str.find_after sep s.
Proof.
  intros H. cbn [Str.find_after]. now rewrite H.
Qed.

Lemma contains_find_after (sep s : string) :
  PyStr.contains sep s
  = match Str.find_after sep s with Some _ => true | None => false end.
Proof.
  induction s as [|c s IH]; cbn [PyStr.contains Str.find_after].
  - now destruct (String.prefix sep "").
  - destruct (String.prefix sep (String c s)); [reflexivity | exact IH].
Qed.

Lemma strip_leading_space (s : string) : Str.strip (String " " s) = Str.strip s.
Proof. reflexivity. Qed.

(** Steps over the literal characters of a text in search of the arrow. *)
Ltac skip_literals :=
  repeat (rewrite find_after_step by reflexivity).

(** Steps over a piece that has no arrow in it. *)
Ltac skip_piece H :=
  rewrite (@find_after_skip _ _ _ _ H)
    by (simpl; intros Hin; repeat destruct Hin as [Hin | Hin];
        try discriminate; exact Hin).

(** The text that the executor makes of a routed answer has its first arrow
    in front of the answer. *)
Lemma routed_text_after_arrow (b : Builtins) (req agent_id name : string)
  (skills : list string) (conf : Q) (why actual : string) (meta : Metadata)
  (agent_card : AgentCard) :
  name = card_name agent_card ->
  PyStr.contains "→" name = false ->
  PyStr.contains "→" why = false ->
  PyStr.contains "→" (print_2f b conf) = false ->
  Str.find_after "→"
    (render b (route_text
                 (Success req agent_id name skills conf why
                    (routed_response agent_card (JStr actual)) meta)))
  = Some (String " " actual).
Proof.
  intros -> Hname Hwhy Hconf.
  unfold render, route_text, routed_response, str_json.
  cbn [app map render_piece String.concat String.append nl].
  skip_literals. skip_piece Hname.
  skip_literals. skip_piece Hconf.
  skip_literals. skip_piece Hwhy.
  skip_literals. skip_piece Hname.
  skip_literals. reflexivity.
Qed.

Lemma first_text_of_artifacts_spec (default : string) (artifacts parts : list json) :
  all_parts artifacts = Some parts ->
  first_text_of_artifacts default artifacts
  = Ok (first_text "kind" default parts).
Proof.
  revert parts. induction artifacts as [|artifact rest IH]; intros parts; simpl.
  - intros [= <-]. reflexivity.
  - destruct (parts_of artifact) as [items|] eqn:Ep; [|discriminate].
    destruct (all_parts rest) as [more|]; [|discriminate].
    intros [= <-]. destruct (parts_of_dicts _ Ep) as [Hd Hget].
    rewrite Hget. cbn [bind Py.iter].
    rewrite (first_text_part_spec _ _ _ Hd). cbn [bind].
    rewrite (first_text_app _ _ _ more Hd).
    destruct (first_text "kind" default items); [reflexivity|].
    exact (IH more eq_refl).
Qed.

Lemma print_artifacts_first_text (fields : list (string * json))
  (artifacts parts : list json) (text : json) :
  Dict.get "artifacts" fields = Some (JArr artifacts) ->
  all_parts artifacts = Some parts ->
  first_text "kind" "" parts = Some text ->
  print_artifacts fields
  = (line <- shown_text text;;
     Ok (Some (heading "🤖 AI RESPONSE" ++ [line; [Lit rule]]))).
Proof.
  intros Hget Hparts Hfirst. unfold print_artifacts, Dict.mem, Dict.get_or.
  rewrite Hget. destruct artifacts as [|artifact rest].
  - injection Hparts as <-. discriminate.
  - cbn [Py.truthy Py.iter bind].
    rewrite (first_text_of_artifacts_spec "" _ Hparts). cbn [bind].
    now rewrite Hfirst.
Qed.

(** X25: when the artifacts of the content are well formed and have a text
    part, the client prints the heading, one line and the rule, and returns
    true whatever the content has besides: the line is the text of the first
    text part, in artifact order then part order, or, when that text has an
    arrow in it, what follows its first arrow, stripped of white space. *)
Theorem client_prints_first_text_part (fields : list (string * json))
  (artifacts parts : list json) (s : string) :
  Dict.get "artifacts" fields = Some (JArr artifacts) ->
  all_parts artifacts = Some parts ->
  first_text "kind" "" parts = Some (JStr s) ->
  format_ai_response (JObj fields)
  = (heading "🤖 AI RESPONSE"
       ++ [[Lit (if PyStr.contains "→" s
                 then Str.strip (Str.after_first "→" s) else s)];
           [Lit rule]],
     Ok true).
Proof.
  intros Hget Hparts Hfirst. unfold format_ai_response.
  rewrite (print_artifacts_first_text _ Hget Hparts Hfirst).
  unfold shown_text. cbn [Py.contains bind].
  destruct (PyStr.contains "→" s); reflexivity.
Qed.

(** X26: from the orchestrator to the screen.  When the request is routed to
    an agent whose answer the forwarder returns as the string [actual], and
    the first text part of the artifacts that the client receives is the
    response text that [execute] makes of the envelope, the client prints
    the answer of the agent alone, stripped of white space: neither the
    confidence nor the reasoning nor the name of the agent.  The name of the
    agent, the reasoning and the printed confidence have no arrow in them. *)
Theorem client_shows_agent_answer (b : Builtins) (o : Orchestrator)
  (net : Network) (env : Ambient) (req : string) (state : RouterState)
  (agent_card : AgentCard) (evs : list event) (actual : string)
  (fields : list (string * json)) (artifacts parts : list json) :
  _analyze_request o env (initial_state req) = Ok state ->
  Dict.get (selected_agent state) (agents o) = Some agent_card ->
  _forward_request_to_agent net (card_url agent_card) req
  = (evs, Ok (JStr actual)) ->
  PyStr.contains "→" (card_name agent_card) = false ->
  PyStr.contains "→" (reasoning state) = false ->
  PyStr.contains "→" (print_2f b (confidence state)) = false ->
  Dict.get "artifacts" fields = Some (JArr artifacts) ->
  all_parts artifacts = Some parts ->
  first_text "kind" "" parts
  = Some (JStr (render b (route_text (snd (process_request o net env req))))) ->
  format_ai_response (JObj fields)
  = (heading "🤖 AI RESPONSE" ++ [[Lit (Str.strip actual)]; [Lit rule]], Ok true).
Proof.
  intros Han Hsel Hfw Hname Hwhy Hconf Hget Hparts Hfirst.
  rewrite (@process_forward_returns o net env req state agent_card evs
             (JStr actual) Han Hsel Hfw) in Hfirst.
  cbn [snd] in Hfirst.
  pose proof (@routed_text_after_arrow b req (selected_agent state)
                (card_name agent_card)
                (map skill_name (card_skills agent_card))
                (confidence state) (reasoning state) actual
                (set_route_metadata (metadata state) (card_url agent_card)
                   "completed" (response_time env))
                agent_card eq_refl Hname Hwhy Hconf) as Harrow.
  unfold format_ai_response.
  rewrite (print_artifacts_first_text _ Hget Hparts Hfirst).
  unfold shown_text. cbn [Py.contains bind].
  rewrite contains_find_after. unfold Str.after_first.
  rewrite Harrow. rewrite strip_leading_space. reflexivity.
Qed.

(** ** The dict of the headers *)

Lemma split_on_nonempty (c : ascii) (s : string) : Str.split_on c s <> [].
Proof.
  destruct s as [|a s]; cbn [Str.split_on]; [discriminate|].
  destruct (Ascii.eqb a c); [discriminate|].
  destruct (Str.split_on c s); discriminate.
Qed.

Lemma split_on_present (c : ascii) (s : string) :
  PyStr.contains (String c EmptyString) s = true ->
  exists key value rest, Str.split_on c s = key :: value :: rest.
Proof.
  induction s as [|a s IH]; [discriminate|].
  cbn [PyStr.contains Str.split_on]. rewrite prefix_char.
  destruct (Ascii.eqb a c).
  - intros _. destruct (Str.split_on c s) as [|value rest] eqn:E.
    + now apply split_on_nonempty in E.
    + now exists EmptyString, value, rest.
  - intros H. destruct (IH H) as (key & value & rest & ->).
    now exists (String a key), value, rest.
Qed.

Lemma parse_header_none (h : string) :
  parse_header h = None <-> PyStr.contains "=" h = false.
Proof.
  unfold parse_header. split.
  - intros H. destruct (PyStr.contains "=" h) eqn:E; [|reflexivity].
    destruct (@split_on_present "=" h E) as (key & value & rest & Hs).
    rewrite Hs in H. discriminate.
  - intros H. now rewrite (@split_on_absent "=" h H).
Qed.

(** X27: the dict of the headers is built unless one of the header options
    has no "=" in it, and then it is not built at all, whatever the other
    options are and whatever the dict held. *)
Theorem headers_fail_iff_one_lacks_equals (header : list string)
  (headers : Dict.t string) :
  parse_headers header headers = None
  <-> exists h, In h header /\ PyStr.contains "=" h = false.
Proof.
  revert headers. induction header as [|h rest IH]; intros headers; simpl.
  - split; [discriminate | intros (h & [] & _)].
  - destruct (parse_header h) as [[key value]|] eqn:E.
    + rewrite IH. split.
      * intros (h' & Hin & Hc). exists h'. auto.
      * intros (h' & [<- | Hin] & Hc).
        -- apply parse_header_none in Hc. congruence.
        -- exists h'. auto.
    + split; [|reflexivity]. intros _. exists h. split; [now left|].
      now apply parse_header_none.
Qed.

(* ------------------------------------------------------------------ *)
(** * The properties of the client at sample inputs *)

Lemma header_is_cut_at_equals_witness :
  parse_header "Authorization=Bearer abc" = Some ("Authorization", "Bearer abc")
  /\ (forall rest,
        parse_header ("Authorization" ++ "=" ++ "Bearer abc" ++ "=" ++ rest)
        = Some ("Authorization", "Bearer abc"))
  /\ parse_header "Authorization" = None.
Proof.
  apply (@header_is_cut_at_equals "Authorization" "Bearer abc"); reflexivity.
Defined.

Lemma format_false_prints_nothing_witness :
  fst (format_ai_response (JObj [("content", JArr [JStr "hello"])])) = [].
Proof.
  apply (@format_false_prints_nothing (JObj [("content", JArr [JStr "hello"])])).
  reflexivity.
Defined.

Lemma client_prints_first_text_part_witness :
  format_ai_response
    (JObj [("content", JStr "not shown");
           ("artifacts",
            JArr [JObj [("name", JStr "empty")];
                  JObj [("parts",
                         JArr [JObj [("kind", JStr "data")];
                               JObj [("kind", JStr "text");
                                     ("text", JStr "Routed to X →  830 INR ")];
                               JObj [("kind", JStr "text");
                                     ("text", JStr "second")]])]])])
  = (heading "🤖 AI RESPONSE" ++ [[Lit "830 INR"]; [Lit rule]], Ok true).
Proof.
  apply (@client_prints_first_text_part
           [("content", JStr "not shown");
            ("artifacts",
             JArr [JObj [("name", JStr "empty")];
                   JObj [("parts",
                          JArr [JObj [("kind", JStr "data")];
                                JObj [("kind", JStr "text");
                                      ("text", JStr "Routed to X →  830 INR ")];
                                JObj [("kind", JStr "text");
                                      ("text", JStr "second")]])]])]
           [JObj [("name", JStr "empty")];
            JObj [("parts",
                   JArr [JObj [("kind", JStr "data")];
                         JObj [("kind", JStr "text");
                               ("text", JStr "Routed to X →  830 INR ")];
                         JObj [("kind", JStr "text");
                               ("text", JStr "second")]])]]
           [JObj [("kind", JStr "data")];
            JObj [("kind", JStr "text");
                  ("text", JStr "Routed to X →  830 INR ")];
            JObj [("kind", JStr "text"); ("text", JStr "second")]]
           "Routed to X →  830 INR "); reflexivity.
Defined.

Lemma client_shows_agent_answer_witness :
  format_ai_response
    (JObj [("artifacts",
            JArr [JObj [("name", JStr "orchestrator_result");
                        ("parts",
                         JArr [JObj [("kind", JStr "text");
                                     ("text",
                                      JStr (render
                                              (mkBuiltins (fun _ => "?")
                                                 (fun _ => "0.70") (fun _ => "?"))
                                              (route_text
                                                 (snd (process_request
                                                         Sample.currency_only
                                                         Sample.net_text Sample.env
                                                         "how much is 10 USD in INR?")))))]])]])])
  = (heading "🤖 AI RESPONSE" ++ [[Lit "Agent task failed"]; [Lit rule]], Ok true).
Proof.
  assert (Han : exists state,
             _analyze_request Sample.currency_only Sample.env
               (initial_state "how much is 10 USD in INR?") = Ok state
             /\ selected_agent state = "Currency Agent"
             /\ PyStr.contains "→" (reasoning state) = false).
  { eexists. split; [vm_compute; reflexivity | split; reflexivity]. }
  destruct Han as (state & Han & Hsel & Hwhy).
  assert (Hget : Dict.get (selected_agent state) (agents Sample.currency_only)
                 = Some Sample.currency_card) by (rewrite Hsel; reflexivity).
  set (text := render (mkBuiltins (fun _ => "?") (fun _ => "0.70") (fun _ => "?"))
                 (route_text
                    (snd (process_request Sample.currency_only Sample.net_text
                            Sample.env "how much is 10 USD in INR?")))).
  exact (@client_shows_agent_answer
           (mkBuiltins (fun _ => "?") (fun _ => "0.70") (fun _ => "?"))
           Sample.currency_only Sample.net_text Sample.env
           "how much is 10 USD in INR?" state Sample.currency_card
           [Post "http://localhost:8002" (MessageSend "how much is 10 USD in INR?")]
           "Agent task failed"
           [("artifacts",
             JArr [JObj [("name", JStr "orchestrator_result");
                         ("parts",
                          JArr [JObj [("kind", JStr "text");
                                      ("text", JStr text)]])]])]
           [JObj [("name", JStr "orchestrator_result");
                  ("parts",
                   JArr [JObj [("kind", JStr "text"); ("text", JStr text)]])]]
           [JObj [("kind", JStr "text"); ("text", JStr text)]]
           Han Hget eq_refl eq_refl Hwhy eq_refl eq_refl eq_refl eq_refl).
Defined.
